(** * PFM Auditing: document ingestion and upload pipeline

    A shallow embedding of [app/services/document_loader.py] (file
    validation, per-format text extraction, normalization, temporary-file
    lifecycle and the retention sweep) and of the orchestration in
    [app/api/routes/upload.py], followed by the properties the specification
    states about them.

    Conventions.
    - A Python [str] is a list of Unicode code points ([list N]); [bytes] is a
      list of [Byte.byte].
    - Code that can raise returns an [outcome]; code that touches the uploads
      directory or calls a collaborator runs in the monad [M], which threads a
      [World] (the directory and the log of collaborator calls).
    - Third-party libraries and the services that are not part of the
      analysed sources (PDF/DOCX readers, the operating system's refusal to
      open, write or unlink a file; the analyzer, the renderer, the mailer)
      are fields of the records [LoaderEnv] and [PipelineEnv].
    - Clock readings and modification times are exact numbers of seconds
      ([Z]); amounts and confidences are exact rationals ([Q]). *)

From Stdlib Require Import ZArith NArith QArith List String Ascii Lia.
From Stdlib Require Import DecimalString.
From Stdlib.Strings Require Import Byte.
From stdpp Require Import gmap strings list fin_maps.

(* ===================================================================== *)
(** * Part I. The Python runtime pieces the sources rely on               *)
(* ===================================================================== *)

Module Py.

Local Open Scope N_scope.

(** A [str] is a sequence of code points; a literal is written
    [pystr "..."]. *)
Abbreviation str := (list N).
Abbreviation bytes := (list Byte.byte).

Definition pystr (s : string) : str :=
  map N_of_ascii (list_ascii_of_string s).

Definition NL : N := 10.   (* '\n' *)
Definition CR : N := 13.   (* '\r' *)
Definition SP : N := 32.   (* ' '  *)
Definition DOT : N := 46.  (* '.'  *)
Definition SLASH : N := 47. (* '/' *)

(** Truthiness of a string: [if text] / [if not text]. *)
Definition truthy (s : str) : bool :=
  match s with [] => false | _ :: _ => true end.

(** [str(n)] for a non-negative integer. *)
Definition str_of_nat (n : nat) : str :=
  pystr (NilEmpty.string_of_uint (Nat.to_uint n)).

(** ** Whitespace, [str.strip] *)

(** The characters [str.strip()] removes: CPython's [Py_UNICODE_ISSPACE]. *)
Definition isspace (c : N) : bool :=
  ((9 <=? c) && (c <=? 13)) || ((28 <=? c) && (c <=? 32))
  || (c =? 133) || (c =? 160) || (c =? 5760)
  || ((8192 <=? c) && (c <=? 8202))
  || (c =? 8232) || (c =? 8233) || (c =? 8239) || (c =? 8287)
  || (c =? 12288).

Fixpoint lstrip (s : str) : str :=
  match s with
  | [] => []
  | c :: s' => if isspace c then lstrip s' else s
  end.

Definition rstrip (s : str) : str := rev (lstrip (rev s)).

Definition strip (s : str) : str := rstrip (lstrip s).

(** ** [str.split(sep)] for a one-character separator, and [sep.join] *)

(** [s.split(sep)]: always at least one field; [n] separators give [n+1]
    fields, empty ones included. *)
Fixpoint split (sep : N) (s : str) : list str :=
  match s with
  | [] => [[]]
  | c :: s' =>
      if c =? sep then [] :: split sep s'
      else match split sep s' with
           | [] => [[c]]
           | field :: fields => (c :: field) :: fields
           end
  end.

Fixpoint join (sep : str) (parts : list str) : str :=
  match parts with
  | [] => []
  | [p] => p
  | p :: ps => p ++ sep ++ join sep ps
  end.

(** ** [re.sub(r' +', ' ', s)] *)

(** A left-to-right scan: every maximal run of spaces is one match of [' +']
    and is replaced by one space.  [in_run] tells that the previous character
    was a space of the run being consumed. *)
Fixpoint sub_spaces_from (in_run : bool) (s : str) : str :=
  match s with
  | [] => []
  | c :: s' =>
      if c =? SP then
        if in_run then sub_spaces_from true s'
        else SP :: sub_spaces_from true s'
      else c :: sub_spaces_from false s'
  end.

Definition re_sub_spaces (s : str) : str := sub_spaces_from false s.

(** ** [str.lower] *)

(** Lower-casing, exact on code points below 256 (ASCII and Latin-1 capital
    letters); other code points are left alone.  No code point outside ASCII
    lowers to one of the letters of [.pdf], [.docx] or [.txt], so membership
    of a lowered suffix in the supported set is decided exactly. *)
Definition lower_char (c : N) : N :=
  if ((65 <=? c) && (c <=? 90))
     || ((192 <=? c) && (c <=? 222) && negb (c =? 215))
  then c + 32 else c.

Definition lower (s : str) : str := map lower_char s.

(** ** [pathlib.PurePosixPath]: [name], [suffix], [stem] *)

(** The components of a path: split on ['/'], empty and ['.'] components
    dropped. *)
Definition path_parts (p : str) : list str :=
  filter (fun part => part <> [] /\ part <> [DOT]) (split SLASH p).

(** [Path(p).name]: the final component, [''] when there is none. *)
Definition path_name (p : str) : str := List.last (path_parts p) [].

(** [name.rfind('.')]. *)
Fixpoint rfind_dot (s : str) : option nat :=
  match s with
  | [] => None
  | c :: s' =>
      match rfind_dot s' with
      | Some i => Some (S i)
      | None => if c =? DOT then Some 0%nat else None
      end
  end.

(** [Path(p).suffix]: [name[i:]] when [0 < i < len(name) - 1] for
    [i = name.rfind('.')], else ['']. *)
Definition path_suffix (p : str) : str :=
  let name := path_name p in
  match rfind_dot name with
  | Some i =>
      if (0 <? i)%nat && (S i <? length name)%nat then drop i name else []
  | None => []
  end.

(** [Path(p).stem]: the name without its suffix. *)
Definition path_stem (p : str) : str :=
  let name := path_name p in
  match rfind_dot name with
  | Some i =>
      if (0 <? i)%nat && (S i <? length name)%nat then take i name else name
  | None => name
  end.

(** ** Exceptions *)

(** The exception classes the sources raise or catch.  All of them derive
    from [Exception]; [UnicodeDecodeError] derives from [ValueError].
    [OSError] stands for [FileNotFoundError], [IsADirectoryError],
    [PermissionError] and the like; [Exception] for [Exception(...)] itself
    and for any library error of no special class. *)
Inductive exn : Type :=
| ValueError (msg : str)
| UnicodeDecodeError (msg : str)
| OSError (msg : str)
| KeyError (key : string)
| Exception (msg : str)
| HTTPException (status_code : Z) (detail : str).

(** [isinstance(e, ValueError)] and [isinstance(e, UnicodeDecodeError)]. *)
Definition is_ValueError (e : exn) : bool :=
  match e with ValueError _ | UnicodeDecodeError _ => true | _ => false end.

Definition is_UnicodeDecodeError (e : exn) : bool :=
  match e with UnicodeDecodeError _ => true | _ => false end.

(** [str(e)]. *)
Definition exn_str (e : exn) : str :=
  match e with
  | ValueError msg | UnicodeDecodeError msg | OSError msg | Exception msg => msg
  | KeyError key => pystr "'" ++ pystr key ++ pystr "'"
  | HTTPException _ detail => detail
  end.

Inductive outcome (A : Type) : Type :=
| Return (a : A)
| Raise (e : exn).
Arguments Return {A} a.
Arguments Raise {A} e.

(** ** Codecs: [bytes.decode] as done by [open(path, 'r', encoding=...)] *)

Inductive encoding : Type := utf_8 | latin_1 | cp1252 | iso_8859_1.

Definition is_continuation (b : N) : bool := (128 <=? b) && (b <=? 191).

(** Strict UTF-8: shortest form only, no surrogates, nothing above
    U+10FFFF. [None] is a [UnicodeDecodeError]. *)
Fixpoint utf8_decode (bs : list N) : option str :=
  match bs with
  | [] => Some []
  | b0 :: r0 =>
      if b0 <? 128 then option_map (cons b0) (utf8_decode r0)
      else if (194 <=? b0) && (b0 <=? 223) then
        match r0 with
        | b1 :: r1 =>
            if is_continuation b1
            then option_map (cons ((b0 - 192) * 64 + (b1 - 128)))
                            (utf8_decode r1)
            else None
        | _ => None
        end
      else if (224 <=? b0) && (b0 <=? 239) then
        match r0 with
        | b1 :: b2 :: r2 =>
            if is_continuation b1 && is_continuation b2
               && (negb (b0 =? 224) || (160 <=? b1))
               && (negb (b0 =? 237) || (b1 <=? 159))
            then option_map
                   (cons ((b0 - 224) * 4096 + (b1 - 128) * 64 + (b2 - 128)))
                   (utf8_decode r2)
            else None
        | _ => None
        end
      else if (240 <=? b0) && (b0 <=? 244) then
        match r0 with
        | b1 :: b2 :: b3 :: r3 =>
            if is_continuation b1 && is_continuation b2 && is_continuation b3
               && (negb (b0 =? 240) || (144 <=? b1))
               && (negb (b0 =? 244) || (b1 <=? 143))
            then option_map
                   (cons ((b0 - 240) * 262144 + (b1 - 128) * 4096
                          + (b2 - 128) * 64 + (b3 - 128)))
                   (utf8_decode r3)
            else None
        | _ => None
        end
      else None
  end.

(** Latin-1 (ISO 8859-1): byte [b] is code point [b]; defined on all bytes. *)
Definition latin1_decode (b : bytes) : str := map Byte.to_N b.

(** Windows-1252: as Latin-1 except 0x80..0x9F, of which five bytes are
    undefined. *)
Definition cp1252_char (b : N) : option N :=
  if (b <? 128) || (160 <=? b) then Some b
  else
    match b with
    | 128 => Some 8364 | 130 => Some 8218 | 131 => Some 402
    | 132 => Some 8222 | 133 => Some 8230 | 134 => Some 8224
    | 135 => Some 8225 | 136 => Some 710 | 137 => Some 8240
    | 138 => Some 352 | 139 => Some 8249 | 140 => Some 338
    | 142 => Some 381 | 145 => Some 8216 | 146 => Some 8217
    | 147 => Some 8220 | 148 => Some 8221 | 149 => Some 8226
    | 150 => Some 8211 | 151 => Some 8212 | 152 => Some 732
    | 153 => Some 8482 | 154 => Some 353 | 155 => Some 8250
    | 156 => Some 339 | 158 => Some 382 | 159 => Some 376
    | _ => None
    end.

Fixpoint cp1252_decode (bs : list N) : option str :=
  match bs with
  | [] => Some []
  | b :: r =>
      match cp1252_char b, cp1252_decode r with
      | Some c, Some s => Some (c :: s)
      | _, _ => None
      end
  end.

Definition decode (enc : encoding) (b : bytes) : option str :=
  match enc with
  | utf_8 => utf8_decode (map Byte.to_N b)
  | latin_1 | iso_8859_1 => Some (latin1_decode b)
  | cp1252 => cp1252_decode (map Byte.to_N b)
  end.

(** Text mode with the default [newline=None]: ['\r\n'] and a lone ['\r']
    are read as ['\n']. *)
Fixpoint universal_newlines (s : str) : str :=
  match s with
  | [] => []
  | c :: s' =>
      if c =? CR then
        NL :: match s' with
              | d :: s'' =>
                  if d =? NL then universal_newlines s''
                  else universal_newlines s'
              | [] => []
              end
      else c :: universal_newlines s'
  end.

(** ** Dynamically typed values held in the dictionaries of the sources *)

Inductive pyval : Type :=
| PNone
| PBool (b : bool)
| PInt (z : Z)
| PStr (s : str).

Definition pyval_truthy (v : pyval) : bool :=
  match v with
  | PNone => false
  | PBool b => b
  | PInt z => negb (z =? 0)%Z
  | PStr s => truthy s
  end.

End Py.

(* ===================================================================== *)
(** * Part II. The world: uploads directory, collaborators, effects       *)
(* ===================================================================== *)

Module Sys.
Import Py.

(** An entry of the uploads directory.  [Directory] stands for everything
    for which [Path.is_file()] is false. *)
Inductive entry : Type :=
| RegularFile (content : bytes) (st_mtime : Z)
| Directory.

(** Calls to collaborators, logged in call order. *)
Inductive call : Type :=
| CallPdfReader (path : str)
| CallPyPDFLoader (path : str)
| CallDocxDocument (path : str)
| CallDocx2txtLoader (path : str)
| CallTextLoader (path : str)
| CallAnalyze (text : str)
| CallVisualize
| CallSendEmail (recipient : str).

(** [uploads] is the directory [UPLOADS_DIR] ([None]: it does not exist),
    keyed by file name; a [Path] handled by the service is always
    [UPLOADS_DIR / name] and is modelled by [name]. *)
Record World : Type := {
  uploads : option (gmap str entry);
  calls : list call
}.

Definition set_uploads (d : gmap str entry) (w : World) : World :=
  {| uploads := Some d; calls := calls w |}.

Definition log_call (c : call) (w : World) : World :=
  {| uploads := uploads w; calls := calls w ++ [c] |}.

Definition lookup_entry (path : str) (w : World) : option entry :=
  match uploads w with
  | Some d => d !! path
  | None => None
  end.

(** ** The monad of effectful code: state and exceptions *)

Definition M (A : Type) : Type := World -> outcome A * World.

Definition ret {A} (a : A) : M A := fun w => (Return a, w).

Definition raise {A} (e : exn) : M A := fun w => (Raise e, w).

Definition bind {A B} (c : M A) (k : A -> M B) : M B :=
  fun w =>
    match c w with
    | (Return a, w') => k a w'
    | (Raise e, w') => (Raise e, w')
    end.

Notation "'let*' x ':=' c 'in' k" := (bind c (fun x => k))
  (at level 10, x pattern, c at level 100, k at level 200).

(** [try: c  except <class> as e: handler e], where [catches] tells the
    instances of the class; other exceptions propagate. *)
Definition try_except_when {A} (catches : exn -> bool)
    (c : M A) (handler : exn -> M A) : M A :=
  fun w =>
    match c w with
    | (Return a, w') => (Return a, w')
    | (Raise e, w') => if catches e then handler e w' else (Raise e, w')
    end.

(** [try: c  except Exception as e: handler e]. *)
Definition try_except {A} (c : M A) (handler : exn -> M A) : M A :=
  try_except_when (fun _ => true) c handler.

(** [try: c  finally: final]. *)
Definition try_finally {A} (c : M A) (final : M unit) : M A :=
  fun w =>
    match c w with
    | (r, w') =>
        match final w' with
        | (Return _, w'') => (r, w'')
        | (Raise e, w'') => (Raise e, w'')
        end
    end.

(** A pure computation that may raise. *)
Definition lift {A} (r : outcome A) : M A := fun w => (r, w).

(** A call to a collaborator: logged, then its outcome. *)
Definition call_ext {A} (c : call) (r : outcome A) : M A :=
  fun w => (r, log_call c w).

(** ** What the operating system and the third-party libraries do *)

Record LoaderEnv : Type := {
  (** [PdfReader(path).pages], each page with the outcome of its
      [extract_text()]; [Raise] when the reader rejects the file. *)
  PdfReader : bytes -> outcome (list (outcome str));
  (** [PyPDFLoader(path).load()]: the [page_content] of each document. *)
  PyPDFLoader : bytes -> outcome (list str);
  (** [DocxDocument(path).paragraphs]: the [text] of each paragraph. *)
  DocxDocument : bytes -> outcome (list str);
  (** [Docx2txtLoader(path).load()]. *)
  Docx2txtLoader : bytes -> outcome (list str);
  (** [TextLoader(path, encoding='utf-8', autodetect_encoding=True).load()]. *)
  TextLoader : bytes -> outcome (list str);
  (** [open(path, 'wb')] refused (permissions, invalid name). *)
  open_refused : str -> option exn;
  (** [f.write] fails after that many bytes reached the file (disk full). *)
  write_fault : str -> option nat;
  (** [Path.unlink] refused (permissions, file held open elsewhere). *)
  unlink_refused : str -> option exn;
  (** [datetime.strftime("%Y%m%d_%H%M%S")] and [datetime.isoformat()] of a
      clock reading, in seconds. *)
  strftime : Z -> str;
  isoformat : Z -> str
}.

(** A library reads the file at [path] and parses it. *)
Definition lib_call {A} (c : call) (parse : bytes -> outcome A)
    (path : str) : M A :=
  fun w =>
    match lookup_entry path w with
    | Some (RegularFile content _) => (parse content, log_call c w)
    | Some Directory => (Raise (OSError (pystr "Is a directory")), log_call c w)
    | None => (Raise (OSError (pystr "No such file or directory")), log_call c w)
    end.

(** [with open(path, 'r', encoding=enc) as f: f.read()]. *)
Definition read_text (enc : encoding) (path : str) : M str :=
  fun w =>
    match lookup_entry path w with
    | Some (RegularFile content _) =>
        match decode enc content with
        | Some s => (Return (universal_newlines s), w)
        | None => (Raise (UnicodeDecodeError (pystr "invalid byte")), w)
        end
    | Some Directory => (Raise (OSError (pystr "Is a directory")), w)
    | None => (Raise (OSError (pystr "No such file or directory")), w)
    end.

(** [with open(path, 'wb') as f: f.write(data)] at clock reading [now]:
    creates or truncates the file; a failing write leaves what was already
    written. *)
Definition write_bytes (env : LoaderEnv) (now : Z) (path : str)
    (data : bytes) : M unit :=
  fun w =>
    match uploads w with
    | None => (Raise (OSError (pystr "No such file or directory")), w)
    | Some d =>
        match d !! path with
        | Some Directory => (Raise (OSError (pystr "Is a directory")), w)
        | _ =>
            match open_refused env path with
            | Some e => (Raise e, w)
            | None =>
                match write_fault env path with
                | Some n =>
                    (Raise (OSError (pystr "No space left on device")),
                     set_uploads (<[path := RegularFile (take n data) now]> d) w)
                | None =>
                    (Return tt,
                     set_uploads (<[path := RegularFile data now]> d) w)
                end
            end
        end
    end.

(** [path.exists()], [path.is_file()], [path.stat().st_mtime]. *)
Definition path_exists (path : str) : M bool :=
  fun w => (Return (bool_decide (is_Some (lookup_entry path w))), w).

Definition is_file (path : str) : M bool :=
  fun w =>
    (Return match lookup_entry path w with
            | Some (RegularFile _ _) => true
            | _ => false
            end, w).

Definition stat_mtime (path : str) : M Z :=
  fun w =>
    match lookup_entry path w with
    | Some (RegularFile _ mtime) => (Return mtime, w)
    | _ => (Raise (OSError (pystr "No such file or directory")), w)
    end.

(** [path.unlink()]. *)
Definition unlink (env : LoaderEnv) (path : str) : M unit :=
  fun w =>
    match uploads w with
    | None => (Raise (OSError (pystr "No such file or directory")), w)
    | Some d =>
        match d !! path with
        | None => (Raise (OSError (pystr "No such file or directory")), w)
        | Some Directory => (Raise (OSError (pystr "Is a directory")), w)
        | Some (RegularFile _ _) =>
            match unlink_refused env path with
            | Some e => (Raise e, w)
            | None => (Return tt, set_uploads (delete path d) w)
            end
        end
    end.

(** [UPLOADS_DIR.exists()] and [UPLOADS_DIR.iterdir()]: the names present
    when the iteration starts, in the order the OS lists them. *)
Definition uploads_dir_exists : M bool :=
  fun w => (Return (bool_decide (is_Some (uploads w))), w).

Definition iterdir : M (list str) :=
  fun w =>
    match uploads w with
    | Some d => (Return (map fst (map_to_list d)), w)
    | None => (Raise (OSError (pystr "No such file or directory")), w)
    end.

End Sys.

(* ===================================================================== *)
(** * Part III. [app/services/document_loader.py]                         *)
(* ===================================================================== *)

Module DocumentLoaderService.
Import Py Sys.

Local Open Scope Z_scope.

(** The second [class DocumentLoaderService] of the file, the one that
    [document_loader_service] instantiates and the routes use. *)

(** A Python set; the code relies on membership only. *)
Definition SUPPORTED_EXTENSIONS : list str :=
  [pystr ".pdf"; pystr ".docx"; pystr ".txt"].

Definition MAX_FILE_SIZE_BYTES : Z := 10 * 1024 * 1024.

Definition msg_unsupported : str :=
  pystr "Unsupported file type. Supported: "
  ++ join (pystr ", ") SUPPORTED_EXTENSIONS.

Definition msg_too_large : str := pystr "File too large. Maximum size: 10.0MB".

Definition msg_empty : str := pystr "File is empty".

Definition validate_file (filename : str) (file_size : Z)
  : bool * option str :=
  let file_ext := lower (path_suffix filename) in
  if negb (bool_decide (file_ext ∈ SUPPORTED_EXTENSIONS)) then
    (false, Some msg_unsupported)
  else if file_size >? MAX_FILE_SIZE_BYTES then
    (false, Some msg_too_large)
  else if file_size =? 0 then
    (false, Some msg_empty)
  else
    (true, None).

(** The name [save_upload] gives the temporary file. *)
Definition unique_filename (env : LoaderEnv) (now : Z) (filename : str) : str :=
  let timestamp := strftime env now in
  let safe_filename := path_stem filename in
  let file_ext := path_suffix filename in
  safe_filename ++ pystr "_" ++ timestamp ++ file_ext.

Definition save_upload (env : LoaderEnv) (now : Z)
    (file_content : bytes) (filename : str) : M str :=
  let filepath := unique_filename env now filename in
  let* _ := write_bytes env now filepath file_content in
  ret filepath.

(** The [for page in reader.pages] loop: stops at the first page whose
    [extract_text()] raises; pages without text are skipped. *)
Fixpoint collect_pages (pages : list (outcome str)) (text_parts : list str)
  : outcome (list str) :=
  match pages with
  | [] => Return text_parts
  | Raise e :: _ => Raise e
  | Return text :: rest =>
      collect_pages rest
        (if truthy text then text_parts ++ [text] else text_parts)
  end.

Definition extract_text_from_pdf (env : LoaderEnv) (filepath : str) : M str :=
  let* text_parts :=
    try_except
      (let* pages := lib_call (CallPdfReader filepath) (PdfReader env) filepath in
       lift (collect_pages pages []))
      (fun e =>
         try_except
           (lib_call (CallPyPDFLoader filepath) (PyPDFLoader env) filepath)
           (fun fallback_error =>
              raise (Exception (pystr "Failed to extract PDF text: "
                                ++ exn_str fallback_error)))) in
  ret (join [NL; NL] text_parts).

Definition extract_text_from_docx (env : LoaderEnv) (filepath : str) : M str :=
  try_except
    (let* paragraphs :=
       lib_call (CallDocxDocument filepath) (DocxDocument env) filepath in
     let text_parts := List.filter (fun text => truthy (strip text)) paragraphs in
     ret (join [NL; NL] text_parts))
    (fun e =>
       try_except
         (let* documents :=
            lib_call (CallDocx2txtLoader filepath) (Docx2txtLoader env) filepath in
          ret (join [NL; NL] documents))
         (fun fallback_error =>
            raise (Exception (pystr "Failed to extract DOCX text: "
                              ++ exn_str fallback_error)))).

(** The loop [for encoding in [...]: try: return read  except
    UnicodeDecodeError: continue]; [None] when it runs to its end. *)
Fixpoint try_encodings (encodings : list encoding) (filepath : str)
  : M (option str) :=
  match encodings with
  | [] => ret None
  | encoding :: rest =>
      try_except_when is_UnicodeDecodeError
        (let* text := read_text encoding filepath in ret (Some text))
        (fun _ => try_encodings rest filepath)
  end.

Definition extract_text_from_txt (env : LoaderEnv) (filepath : str) : M str :=
  try_except_when is_UnicodeDecodeError
    (read_text utf_8 filepath)
    (fun _ =>
       let* decoded := try_encodings [latin_1; cp1252; iso_8859_1] filepath in
       match decoded with
       | Some text => ret text
       | None =>
           try_except
             (let* documents :=
                lib_call (CallTextLoader filepath) (TextLoader env) filepath in
              ret (join [NL; NL] documents))
             (fun fallback_error =>
                raise (Exception (pystr "Failed to extract TXT text: "
                                  ++ exn_str fallback_error)))
       end).

Definition normalize_text (text : str) : str :=
  if negb (truthy text) then []
  else
    let lines := map strip (split NL text) in
    let lines := List.filter truthy lines in
    let normalized := join [NL] lines in
    let normalized := re_sub_spaces normalized in
    strip normalized.

Definition extract_text (env : LoaderEnv) (filepath : str) : M str :=
  let file_ext := lower (path_suffix filepath) in
  let* text :=
    if bool_decide (file_ext = pystr ".pdf") then
      extract_text_from_pdf env filepath
    else if bool_decide (file_ext = pystr ".docx") then
      extract_text_from_docx env filepath
    else if bool_decide (file_ext = pystr ".txt") then
      extract_text_from_txt env filepath
    else
      raise (ValueError (pystr "Unsupported file type: " ++ file_ext)) in
  ret (normalize_text text).

(** [cleanup_file]: a failed deletion is reported on stdout and swallowed. *)
Definition cleanup_file (env : LoaderEnv) (filepath : str) : M unit :=
  try_except
    (let* present := path_exists filepath in
     if present then unlink env filepath else ret tt)
    (fun e => ret tt).

(** The body of [for filepath in self.UPLOADS_DIR.iterdir()]. *)
Fixpoint cleanup_loop (env : LoaderEnv) (current_time max_age_seconds : Z)
    (paths : list str) (deleted : Z) : M Z :=
  match paths with
  | [] => ret deleted
  | filepath :: rest =>
      let* regular := is_file filepath in
      let* deleted :=
        if regular then
          let* st_mtime := stat_mtime filepath in
          let file_age := current_time - st_mtime in
          if file_age >? max_age_seconds then
            try_except
              (let* _ := unlink env filepath in ret (deleted + 1))
              (fun _ => ret deleted)
          else ret deleted
        else ret deleted in
      cleanup_loop env current_time max_age_seconds rest deleted
  end.

(** [current_time] is the reading [datetime.now().timestamp()]. *)
Definition cleanup_old_files (env : LoaderEnv) (current_time : Z)
    (max_age_hours : Z) : M Z :=
  let* present := uploads_dir_exists in
  if negb present then ret 0
  else
    let deleted := 0 in
    let max_age_seconds := max_age_hours * 3600 in
    let* paths := iterdir in
    cleanup_loop env current_time max_age_seconds paths deleted.

(** The [metadata] dictionary of [process_uploaded_file]. *)
Record Metadata : Type := {
  meta_original_filename : str;
  meta_file_type : str;
  meta_file_size_bytes : Z;
  meta_extracted_length : Z;
  meta_extraction_timestamp : str
}.

Definition len {A} (l : list A) : Z := Z.of_nat (length l).

(** [save_time] and [extraction_time] are the two readings of
    [datetime.now()].  The local [filepath] is [None] until [save_upload]
    has returned, so the [finally] block cleans up only after a completed
    save; a [Path] is always truthy. *)
Definition process_uploaded_file (env : LoaderEnv)
    (save_time extraction_time : Z)
    (file_content : bytes) (filename : str) (cleanup_after : bool)
  : M (str * Metadata) :=
  let '(is_valid, error) := validate_file filename (len file_content) in
  if negb is_valid then
    raise (ValueError (default [] error))
  else
    fun w =>
      match save_upload env save_time file_content filename w with
      | (Raise e, w') => (Raise e, w')
      | (Return filepath, w') =>
          try_finally
            (let* extracted_text := extract_text env filepath in
             let metadata :=
               {| meta_original_filename := filename;
                  meta_file_type := lower (path_suffix filepath);
                  meta_file_size_bytes := len file_content;
                  meta_extracted_length := len extracted_text;
                  meta_extraction_timestamp := isoformat env extraction_time |} in
             ret (extracted_text, metadata))
            (if cleanup_after then cleanup_file env filepath else ret tt)
            w'
      end.

End DocumentLoaderService.

(* ===================================================================== *)
(** * Part IV. [app/models/schemas.py] and [app/api/routes/upload.py]     *)
(* ===================================================================== *)

(** The result of [FraudDetectionAgent.analyze_document_async], as the
    route reads it: attributes [risk_level], [summary], [list_of_flags],
    [recommendations], [total_flagged_amount], [document_metadata].
    Python floats are exact rationals here. *)
Module Agent.
Import Py.

Record FraudFlag : Type := {
  category : str;
  severity : str;
  description : str;
  evidence : str;
  confidence : Q;
  amount_involved : option Q
}.

Record AnalysisResult : Type := {
  risk_level : str;
  summary : str;
  list_of_flags : list FraudFlag;
  recommendations : list str;
  total_flagged_amount : Q;
  document_metadata : gmap string pyval
}.

End Agent.

(** The response models of [schemas.py]. *)
Module Schemas.
Import Py.

Record DocumentFraudFlag : Type := {
  category : str;
  severity : str;
  description : str;
  evidence : str;
  confidence : Q;            (* Field(..., ge=0.0, le=1.0) *)
  amount_involved : option Q
}.

Record DocumentAuditResponse : Type := {
  risk_level : str;
  summary : str;
  list_of_flags : list DocumentFraudFlag;
  recommendations : list str;
  total_flagged_amount : Q;
  document_metadata : gmap string pyval;
  timestamp : Z;                               (* default: utcnow *)
  visualizations : option (gmap string str);   (* Optional[Dict[str, str]] *)
  email_sent : option (gmap string pyval)      (* Optional[Dict[str, Any]] *)
}.

Record FileUploadResponse : Type := {
  filename : str;
  file_type : str;
  file_size_bytes : Z;
  extracted_text_length : Z;
  analysis : DocumentAuditResponse
}.

(** The constructor [DocumentFraudFlag(...)]: pydantic rejects a confidence
    outside [0, 1]. *)
Definition confidence_in_range (c : Q) : bool :=
  Qle_bool 0 c && Qle_bool c 1.

Definition make_DocumentFraudFlag (cat sev desc evid : str) (conf : Q)
    (amount : option Q) : outcome DocumentFraudFlag :=
  if confidence_in_range conf then
    Return {| category := cat; severity := sev; description := desc;
              evidence := evid; confidence := conf;
              amount_involved := amount |}
  else
    Raise (ValueError (pystr "1 validation error for DocumentFraudFlag")).

End Schemas.

Module Upload.
Import Py Sys DocumentLoaderService.

Local Open Scope Z_scope.

(** The request: FastAPI's [UploadFile] with the outcome of
    [await file.read()], and the optional form field. *)
Record UploadFile : Type := {
  file_filename : option str;
  file_content_type : option str;
  file_read : outcome bytes
}.

(** The readings of the clock during one request. *)
Record Clock : Type := {
  save_time : Z;
  extraction_time : Z;
  response_time : Z
}.

(** The collaborators of the route. *)
Record PipelineEnv : Type := {
  loader : LoaderEnv;
  (** [fraud_agent.analyze_document_async(extracted_text)]. *)
  analyze_document_async : str -> outcome Agent.AnalysisResult;
  (** [visualization_service.create_comprehensive_dashboard(risk_level,
      total_flagged_amount, flags)], as [str(dashboard_path)]; a failing
      import of the service is a [Raise]. *)
  create_comprehensive_dashboard :
    str -> Q -> list Agent.FraudFlag -> outcome str;
  (** [email_service.send_analysis_report_async(recipient_email,
      risk_level, summary, total_flagged_amount, flags, recommendations,
      visualizations, document_name)]: the result dictionary. *)
  send_analysis_report_async :
    str -> str -> str -> Q -> list Agent.FraudFlag -> list str ->
    option (gmap string str) -> str -> outcome (gmap string pyval)
}.

Definition HTTP_400_BAD_REQUEST : Z := 400.
Definition HTTP_500_INTERNAL_SERVER_ERROR : Z := 500.

(** [d[key]] and [d.get(key, default)] on a dictionary. *)
Definition getitem (d : gmap string pyval) (key : string) : outcome pyval :=
  match d !! key with
  | Some v => Return v
  | None => Raise (KeyError key)
  end.

Definition dict_get (d : gmap string pyval) (key : string) (dflt : pyval)
  : pyval := default dflt (d !! key).

(** STEP 1: read the file content. *)
Definition step_read (file : UploadFile) : M bytes :=
  try_except
    (lift (file_read file))
    (fun e =>
       raise (HTTPException HTTP_400_BAD_REQUEST
                (pystr "Failed to read uploaded file: " ++ exn_str e))).

(** [file.filename or "unknown.txt"]. *)
Definition filename_or_default (file : UploadFile) : str :=
  match file_filename file with
  | Some name => if truthy name then name else pystr "unknown.txt"
  | None => pystr "unknown.txt"
  end.

(** STEP 2: validate and extract; [except ValueError] comes first. *)
Definition step_extract (env : PipelineEnv) (clk : Clock)
    (file : UploadFile) (file_content : bytes) : M (str * Metadata) :=
  try_except
    (process_uploaded_file (loader env) (save_time clk) (extraction_time clk)
       file_content (filename_or_default file) true)
    (fun e =>
       if is_ValueError e then
         raise (HTTPException HTTP_400_BAD_REQUEST (exn_str e))
       else
         raise (HTTPException HTTP_500_INTERNAL_SERVER_ERROR
                  (pystr "Failed to extract text from document: "
                   ++ exn_str e))).

Definition msg_insufficient (n : nat) : str :=
  pystr "Insufficient text extracted (" ++ str_of_nat n
  ++ pystr " chars). Minimum 50 characters required.".

(** The check [len(extracted_text) < 50] between STEP 2 and STEP 3. *)
Definition length_gate (extracted_text : str) : M unit :=
  if len extracted_text <? 50 then
    raise (HTTPException HTTP_400_BAD_REQUEST
             (msg_insufficient (length extracted_text)))
  else ret tt.

(** STEP 3: fraud analysis. *)
Definition step_analyze (env : PipelineEnv) (extracted_text : str)
  : M Agent.AnalysisResult :=
  try_except
    (call_ext (CallAnalyze extracted_text)
       (analyze_document_async env extracted_text))
    (fun e =>
       raise (HTTPException HTTP_500_INTERNAL_SERVER_ERROR
                (pystr "Fraud analysis failed: " ++ exn_str e))).

(** STEP 4: visualizations; [visualizations] stays [None] on any error. *)
Definition step_visualize (env : PipelineEnv)
    (analysis_result : Agent.AnalysisResult) : M (option (gmap string str)) :=
  try_except
    (let* dashboard_path :=
       call_ext CallVisualize
         (create_comprehensive_dashboard env
            (Agent.risk_level analysis_result)
            (Agent.total_flagged_amount analysis_result)
            (Agent.list_of_flags analysis_result)) in
     ret (Some ({[ "dashboard"%string := dashboard_path ]} : gmap string str)))
    (fun viz_error => ret None).

(** STEP 5: the optional email report; [email_status] stays [None] when
    [recipient_email] is [None] or empty. *)
Definition step_email (env : PipelineEnv) (recipient_email : option str)
    (analysis_result : Agent.AnalysisResult)
    (visualizations : option (gmap string str)) (metadata : Metadata)
  : M (option (gmap string pyval)) :=
  match recipient_email with
  | None => ret None
  | Some recipient =>
      if negb (truthy recipient) then ret None
      else
        try_except
          (let* email_result :=
             call_ext (CallSendEmail recipient)
               (send_analysis_report_async env recipient
                  (Agent.risk_level analysis_result)
                  (Agent.summary analysis_result)
                  (Agent.total_flagged_amount analysis_result)
                  (Agent.list_of_flags analysis_result)
                  (Agent.recommendations analysis_result)
                  visualizations
                  (meta_original_filename metadata)) in
           let* success := lift (getitem email_result "success") in
           let email_status : gmap string pyval :=
             <["message"%string :=
                 dict_get email_result "message"
                   (PStr (pystr "Email sent successfully"))]>
             (<["recipient"%string := PStr recipient]>
             ({[ "success"%string := success ]})) in
           if pyval_truthy success then ret (Some email_status)
           else
             ret (Some (<["error"%string :=
                           dict_get email_result "error" PNone]> email_status)))
          (fun email_error =>
             ret (Some (<["error"%string := PStr (exn_str email_error)]>
                       (<["recipient"%string := PStr recipient]>
                       ({[ "success"%string := PBool false ]})))))
  end.

(** The comprehension building [fraud_flags]. *)
Fixpoint build_flags (flags : list Agent.FraudFlag)
  : outcome (list Schemas.DocumentFraudFlag) :=
  match flags with
  | [] => Return []
  | flag :: rest =>
      match Schemas.make_DocumentFraudFlag
              (Agent.category flag) (Agent.severity flag)
              (Agent.description flag) (Agent.evidence flag)
              (Agent.confidence flag) (Agent.amount_involved flag) with
      | Raise e => Raise e
      | Return f =>
          match build_flags rest with
          | Raise e => Raise e
          | Return fs => Return (f :: fs)
          end
      end
  end.

(** STEP 6: build the response. *)
Definition step_respond (clk : Clock)
    (analysis_result : Agent.AnalysisResult) (metadata : Metadata)
    (visualizations : option (gmap string str))
    (email_status : option (gmap string pyval))
  : M Schemas.FileUploadResponse :=
  try_except
    (let* fraud_flags := lift (build_flags (Agent.list_of_flags analysis_result)) in
     let analysis_metadata : gmap string pyval :=
       <["extraction_timestamp"%string :=
           PStr (meta_extraction_timestamp metadata)]>
       (<["file_size_bytes"%string := PInt (meta_file_size_bytes metadata)]>
       (<["file_type"%string := PStr (meta_file_type metadata)]>
       (<["original_filename"%string :=
            PStr (meta_original_filename metadata)]>
        (Agent.document_metadata analysis_result)))) in
     let audit_response :=
       {| Schemas.risk_level := Agent.risk_level analysis_result;
          Schemas.summary := Agent.summary analysis_result;
          Schemas.list_of_flags := fraud_flags;
          Schemas.recommendations := Agent.recommendations analysis_result;
          Schemas.total_flagged_amount :=
            Agent.total_flagged_amount analysis_result;
          Schemas.document_metadata := analysis_metadata;
          Schemas.timestamp := response_time clk;
          Schemas.visualizations := visualizations;
          Schemas.email_sent := email_status |} in
     ret {| Schemas.filename := meta_original_filename metadata;
            Schemas.file_type := meta_file_type metadata;
            Schemas.file_size_bytes := meta_file_size_bytes metadata;
            Schemas.extracted_text_length := meta_extracted_length metadata;
            Schemas.analysis := audit_response |})
    (fun e =>
       raise (HTTPException HTTP_500_INTERNAL_SERVER_ERROR
                (pystr "Failed to format response: " ++ exn_str e))).

(** [POST /api/v1/upload/analyze].  [Return] is the 200 response; every
    failure the route reports is a [Raise (HTTPException status detail)]. *)
Definition analyze_uploaded_document (env : PipelineEnv) (clk : Clock)
    (file : UploadFile) (recipient_email : option str)
  : M Schemas.FileUploadResponse :=
  let* file_content := step_read file in
  let* extracted := step_extract env clk file file_content in
  let '(extracted_text, metadata) := extracted in
  let* _ := length_gate extracted_text in
  let* analysis_result := step_analyze env extracted_text in
  let* visualizations := step_visualize env analysis_result in
  let* email_status :=
    step_email env recipient_email analysis_result visualizations metadata in
  step_respond clk analysis_result metadata visualizations email_status.


End Upload.

(* ===================================================================== *)
(** * Part IV, continued. [app/core/config.py]                            *)
(* ===================================================================== *)

(** The credentials of [class Settings] and the helpers that decide whether
    an integration is configured and what may be logged about it. *)
Module Config.
Import Py.

Record Settings : Type := {
  groq_api_key : option str;
  gmail_user : option str;
  gmail_app_password : option str
}.

Definition is_groq_enabled (self : Settings) : bool :=
  match groq_api_key self with
  | None => false
  | Some key =>
      negb (bool_decide (strip key = []))
      && negb (bool_decide (key = pystr "your_groq_api_key_here"))
  end.

Definition is_gmail_enabled (self : Settings) : bool :=
  match gmail_user self with
  | None => false
  | Some user =>
      negb (bool_decide (strip user = []))
      && negb (bool_decide (user = pystr "your_email@gmail.com"))
      && match gmail_app_password self with
         | None => false
         | Some password =>
             negb (bool_decide (strip password = []))
             && negb (bool_decide
                        (password = pystr "your_gmail_app_password_here"))
         end
  end.

(** [f"{key[:4]}...{key[-4:]}"] for a key longer than 8, else ["***"]; the
    key is not [None] once [is_groq_enabled] holds. *)
Definition get_groq_key_masked (self : Settings) : str :=
  if negb (is_groq_enabled self) then pystr "Not configured"
  else
    let key := default [] (groq_api_key self) in
    if (8 <? length key)%nat then
      take 4 key ++ pystr "..." ++ drop (length key - 4) key
    else pystr "***".

Definition get_gmail_user_safe (self : Settings) : str :=
  if negb (is_gmail_enabled self) then pystr "Not configured"
  else default [] (gmail_user self).

(** The dictionary returned by [validate_startup_config]. *)
Record StartupStatus : Type := {
  groq_enabled : bool;
  gmail_enabled : bool;
  warnings : list str;
  errors : list str
}.

Definition validate_startup_config (self : Settings) : StartupStatus :=
  let warnings := [] in
  let warnings :=
    if negb (is_groq_enabled self) then
      warnings ++ [pystr "Groq API key not configured - AI analysis features will be disabled"]
    else warnings in
  let warnings :=
    if negb (is_gmail_enabled self) then
      warnings ++ [pystr "Gmail credentials not configured - email reports will be disabled"]
    else warnings in
  {| groq_enabled := is_groq_enabled self;
     gmail_enabled := is_gmail_enabled self;
     warnings := warnings;
     errors := [] |}.

(** The module-level helpers, on the settings instance. *)
Definition get_groq_api_key (settings : Settings) : option str :=
  if is_groq_enabled settings then groq_api_key settings else None.

Definition get_gmail_credentials (settings : Settings) : option (str * str) :=
  if is_gmail_enabled settings then
    Some (default [] (gmail_user settings),
          default [] (gmail_app_password settings))
  else None.

End Config.

(* ===================================================================== *)
(** * Part V. Predicates of the statements, and sample environments       *)
(* ===================================================================== *)

Import Py Sys DocumentLoaderService Upload.

(** [pat] occurs in [s] as a contiguous substring. *)
Definition occurs (pat s : str) : Prop :=
  exists pre post, s = pre ++ pat ++ post.

(** No whitespace at either end. *)
Definition trimmed (s : str) : Prop :=
  (forall c, head s = Some c -> isspace c = false) /\
  (forall c, last s = Some c -> isspace c = false).

(** A line as [normalize_text] leaves it: not empty, trimmed, and without a
    newline of its own. *)
Definition clean (l : str) : Prop := l <> [] /\ trimmed l /\ NL ∉ l.

(** The primary PDF strategy on the content of a file: the reader, then the
    page loop. *)
Definition pdf_primary (env : LoaderEnv) (content : bytes)
  : outcome (list str) :=
  match PdfReader env content with
  | Raise e => Raise e
  | Return pages => collect_pages pages []
  end.

(** ** Sample inputs *)

Definition bytes_of (s : string) : bytes :=
  map byte_of_ascii (list_ascii_of_string s).

(** A loader environment given by what the two PDF strategies answer and by
    whether the OS refuses to unlink; the DOCX and generic text loaders
    reject everything, writes succeed. *)
Definition sample_loader (pdf : outcome (list (outcome str)))
    (pypdf : outcome (list str)) (refuse_unlink : option exn) : LoaderEnv :=
  {| PdfReader := fun _ => pdf;
     PyPDFLoader := fun _ => pypdf;
     DocxDocument := fun _ => Raise (Exception (pystr "not a Word file"));
     Docx2txtLoader := fun _ => Raise (Exception (pystr "not a zip file"));
     TextLoader := fun _ => Raise (Exception (pystr "cannot detect encoding"));
     open_refused := fun _ => None;
     write_fault := fun _ => None;
     unlink_refused := fun _ => refuse_unlink;
     strftime := fun _ => pystr "20240101_120000";
     isoformat := fun _ => pystr "2024-01-01T12:00:00" |}.

(** An uploads directory holding the given entries, and no call made yet. *)
Definition world_of (files : list (str * entry)) : World :=
  {| uploads := Some (list_to_map files); calls := [] |}.

(** What the sweep decides for the entry named [k]: it goes when it is a
    regular file whose age strictly exceeds the threshold and whose unlink
    the OS does not refuse. *)
Definition swept (env : LoaderEnv) (current_time max_age_seconds : Z)
    (k : str) (e : option entry) : bool :=
  match e with
  | Some (RegularFile _ st_mtime) =>
      (current_time - st_mtime >? max_age_seconds)%Z
      && match unlink_refused env k with None => true | Some _ => false end
  | _ => false
  end.

(** ** Footprints of effectful code *)

(** [c] keeps the relation [R] between the world it starts in and the world
    it ends in, whatever it returns or raises. *)
Definition preserves (R : World -> World -> Prop) {A} (c : M A) : Prop :=
  forall w, R w (snd (c w)).

Definition is_loader_call (c : call) : bool :=
  match c with
  | CallPdfReader _ | CallPyPDFLoader _ | CallDocxDocument _
  | CallDocx2txtLoader _ | CallTextLoader _ => true
  | CallAnalyze _ | CallVisualize | CallSendEmail _ => false
  end.

(** The log grew by calls to document-loading libraries only. *)
Definition loader_calls_only (w w' : World) : Prop :=
  exists new, calls w' = calls w ++ new
              /\ Forall (fun c => is_loader_call c = true) new.

(** The uploads directory is as it was and only loading libraries were
    called. *)
Definition reads_only (w w' : World) : Prop :=
  uploads w' = uploads w /\ loader_calls_only w w'.

(** The log is as it was. *)
Definition silent (w w' : World) : Prop := calls w' = calls w.

(** ** The verdict inside a response *)

(** Every flag of the verdict passes the constraint of [DocumentFraudFlag]:
    its confidence lies in [0, 1], as the data model of the verdict says. *)
Definition flags_in_range (verdict : Agent.AnalysisResult) : Prop :=
  Forall (fun flag => Schemas.confidence_in_range (Agent.confidence flag) = true)
         (Agent.list_of_flags verdict).

(** A flag of the verdict, as a flag of the response. *)
Definition response_flag (flag : Agent.FraudFlag) : Schemas.DocumentFraudFlag :=
  {| Schemas.category := Agent.category flag;
     Schemas.severity := Agent.severity flag;
     Schemas.description := Agent.description flag;
     Schemas.evidence := Agent.evidence flag;
     Schemas.confidence := Agent.confidence flag;
     Schemas.amount_involved := Agent.amount_involved flag |}.

(** The response carries the verdict of the analyzer, field by field. *)
Definition carries_verdict (resp : Schemas.FileUploadResponse)
    (verdict : Agent.AnalysisResult) : Prop :=
  let audit := Schemas.analysis resp in
  Schemas.risk_level audit = Agent.risk_level verdict
  /\ Schemas.summary audit = Agent.summary verdict
  /\ Schemas.list_of_flags audit
     = map response_flag (Agent.list_of_flags verdict)
  /\ Schemas.recommendations audit = Agent.recommendations verdict
  /\ Schemas.total_flagged_amount audit = Agent.total_flagged_amount verdict.

(** ** Sample inputs for the route *)

Definition sample_verdict : Agent.AnalysisResult :=
  {| Agent.risk_level := pystr "High";
     Agent.summary := pystr "Duplicate invoice numbers";
     Agent.list_of_flags :=
       [ {| Agent.category := pystr "duplicate_payment";
            Agent.severity := pystr "high";
            Agent.description := pystr "Invoice 1042 paid twice";
            Agent.evidence := pystr "INV-1042 on 03/01 and 03/09";
            Agent.confidence := 9 # 10;
            Agent.amount_involved := Some (12500 # 1) |} ];
     Agent.recommendations := [pystr "Recover the duplicate payment"];
     Agent.total_flagged_amount := 12500 # 1;
     Agent.document_metadata := ∅ |}.

Definition sample_pipeline (analysis : outcome Agent.AnalysisResult)
    (dashboard : outcome str) (mail : outcome (gmap string pyval))
  : PipelineEnv :=
  {| loader := sample_loader (Return []) (Return []) None;
     analyze_document_async := fun _ => analysis;
     create_comprehensive_dashboard := fun _ _ _ => dashboard;
     send_analysis_report_async := fun _ _ _ _ _ _ _ _ => mail |}.

Definition sample_clock : Clock :=
  {| save_time := 100; extraction_time := 101; response_time := 102 |}.

Definition sample_upload (name content : string) : UploadFile :=
  {| file_filename := Some (pystr name);
     file_content_type := Some (pystr "text/plain");
     file_read := Return (bytes_of content) |}.

(** Sixty characters of text. *)
Definition sample_ledger : string :=
  "Invoice 1042 paid 03/01 12500 USD; paid again 03/09 12500 USD".

(** The metadata of an upload of [sample_ledger] as [ledger.txt]. *)
Definition ledger_metadata : Metadata :=
  {| meta_original_filename := pystr "ledger.txt";
     meta_file_type := pystr ".txt";
     meta_file_size_bytes := len (bytes_of sample_ledger);
     meta_extracted_length := len (pystr sample_ledger);
     meta_extraction_timestamp := pystr "2024-01-01T12:00:00" |}.

(* ===================================================================== *)
(** * Part V, continued. Predicates of the further properties             *)
(* ===================================================================== *)

(** The characters of a text that are not whitespace, in order. *)
Definition non_space (s : str) : str :=
  List.filter (fun c => negb (isspace c)) s.


(** The calls of the stages after extraction, for a request that is
    answered: the analyzer, the renderer, then the mailer when a non-empty
    recipient address came with the request. *)
Definition stage_calls (text : str) (recipient_email : option str)
  : list call :=
  [CallAnalyze text; CallVisualize]
  ++ match recipient_email with
     | Some recipient =>
         if truthy recipient then [CallSendEmail recipient] else []
     | None => []
     end.

(* ===================================================================== *)
(** * Part VI. Facts about the runtime pieces                             *)
(* ===================================================================== *)

Section StringFacts.

Local Open Scope N_scope.

Lemma lstrip_head s c : head (lstrip s) = Some c -> isspace c = false.
Proof.
  induction s as [|a s IH]; simpl; [done|].
  destruct (isspace a) eqn:E; [done|]. simpl. by intros [= <-].
Qed.

Lemma lstrip_id s : (forall c, head s = Some c -> isspace c = false) -> lstrip s = s.
Proof.
  destruct s as [|a s]; simpl; [done|]. intros H. by rewrite (H a eq_refl).
Qed.

Lemma lstrip_suffix s : exists pre, s = pre ++ lstrip s.
Proof.
  induction s as [|a s [pre IH]]; simpl.
  - by exists [].
  - destruct (isspace a).
    + exists (a :: pre). simpl. by f_equal.
    + by exists [].
Qed.

Lemma last_rev {A} (l : list A) : last (rev l) = head l.
Proof. destruct l as [|a l]; simpl; [done|]. by rewrite last_snoc. Qed.

Lemma head_rev {A} (l : list A) : head (rev l) = last l.
Proof. by rewrite <- last_rev, rev_involutive. Qed.

Lemma rstrip_last s c : last (rstrip s) = Some c -> isspace c = false.
Proof. unfold rstrip. rewrite last_rev. apply lstrip_head. Qed.

Lemma rstrip_id s : (forall c, last s = Some c -> isspace c = false) -> rstrip s = s.
Proof.
  intros H. unfold rstrip. rewrite lstrip_id, rev_involutive; [done|].
  intros c. rewrite head_rev. apply H.
Qed.

Lemma rstrip_prefix s : exists post, s = rstrip s ++ post.
Proof.
  unfold rstrip. destruct (lstrip_suffix (rev s)) as [pre H].
  exists (rev pre). rewrite <- rev_app_distr, <- H. by rewrite rev_involutive.
Qed.

Lemma rstrip_head s c :
  head s = Some c -> isspace c = false -> head (rstrip s) = Some c.
Proof.
  intros Hh Hc. unfold rstrip. rewrite head_rev.
  destruct s as [|a s]; [done|]. simpl in Hh. injection Hh as ->.
  simpl rev.
  induction (rev s) as [|b r IH]; simpl.
  - by rewrite Hc.
  - destruct (isspace b); [apply IH|]. simpl.
    change (b :: r ++ [c]) with ((b :: r) ++ [c]). by rewrite last_snoc.
Qed.

Lemma strip_trimmed s : trimmed (strip s).
Proof.
  split; intros c H.
  - unfold strip in H.
    destruct (lstrip s) as [|a l] eqn:E; [done|].
    assert (Ha : isspace a = false) by (apply (lstrip_head s); by rewrite E).
    rewrite (rstrip_head (a :: l) a eq_refl Ha) in H. by injection H as <-.
  - by apply (rstrip_last (lstrip s)).
Qed.

Lemma strip_id s : trimmed s -> strip s = s.
Proof.
  intros [H1 H2]. unfold strip. rewrite lstrip_id by done. by apply rstrip_id.
Qed.

Lemma strip_elem s c : c ∈ strip s -> c ∈ s.
Proof.
  unfold strip. intros H.
  destruct (rstrip_prefix (lstrip s)) as [post H1].
  destruct (lstrip_suffix s) as [pre H2].
  rewrite H2, H1. set_solver.
Qed.

(** --- split / join *)
Lemma split_nonnil sep s : split sep s <> [].
Proof.
  destruct s as [|c s]; simpl; [done|].
  destruct (c =? sep); [done|]. by destruct (split sep s).
Qed.

Lemma split_no_sep sep s : Forall (fun f => sep ∉ f) (split sep s).
Proof.
  induction s as [|c s IH]; simpl.
  - constructor; [apply not_elem_of_nil|constructor].
  - destruct (N.eqb_spec c sep) as [->|Hne].
    + constructor; [apply not_elem_of_nil|done].
    + destruct (split sep s) as [|f fs].
      * constructor; [|constructor].
        intros [?|H]%elem_of_cons; [done|by apply not_elem_of_nil in H].
      * inversion IH; subst. constructor; [|done].
        intros [?|H]%elem_of_cons; done.
Qed.

Lemma split_fresh sep s : sep ∉ s -> split sep s = [s].
Proof.
  induction s as [|c s IH]; simpl; [done|]. intros H.
  destruct (N.eqb_spec c sep) as [->|Hne]; [set_solver|].
  rewrite IH by set_solver. done.
Qed.

Lemma split_app_sep sep a b :
  split sep (a ++ sep :: b) = split sep a ++ split sep b.
Proof.
  induction a as [|c a IH]; simpl.
  - by rewrite N.eqb_refl.
  - destruct (c =? sep); [by rewrite IH|].
    rewrite IH. pose proof (split_nonnil sep a).
    by destruct (split sep a).
Qed.

Lemma split_join ls :
  ls <> [] -> Forall (fun l => NL ∉ l) ls -> split NL (join [NL] ls) = ls.
Proof.
  induction ls as [|p ps IH]; [done|]. intros _ H.
  inversion H as [|? ? Hp Hps]; subst.
  destruct ps as [|q ps].
  - simpl. by apply split_fresh.
  - change (join [NL] (p :: q :: ps)) with (p ++ NL :: join [NL] (q :: ps)).
    rewrite split_app_sep, split_fresh by done.
    rewrite IH by done. done.
Qed.

(** --- re.sub *)
Lemma isspace_SP : isspace SP = true.
Proof. reflexivity. Qed.

Lemma isspace_NL : isspace NL = true.
Proof. reflexivity. Qed.

Lemma sub_spaces_elem b s c : c ∈ sub_spaces_from b s -> c ∈ s.
Proof.
  revert b. induction s as [|a s IH]; intros b; simpl; [done|].
  destruct (N.eqb_spec a SP) as [->|Hne].
  - destruct b.
    + intros H. apply IH in H. set_solver.
    + rewrite elem_of_cons. intros [->|H]; [set_solver|]. apply IH in H. set_solver.
  - rewrite elem_of_cons. intros [->|H]; [set_solver|]. apply IH in H. set_solver.
Qed.

Lemma sub_spaces_snoc b s c :
  c <> SP -> sub_spaces_from b (s ++ [c]) = sub_spaces_from b s ++ [c].
Proof.
  intros Hc. revert b. induction s as [|a s IH]; intros b; simpl.
  - destruct (N.eqb_spec c SP); done.
  - destruct (a =? SP); [destruct b|]; by rewrite IH.
Qed.

Lemma sub_spaces_app_NL b a r :
  sub_spaces_from b (a ++ NL :: r)
  = sub_spaces_from b a ++ NL :: sub_spaces_from false r.
Proof.
  revert b. induction a as [|c a IH]; intros b; simpl; [done|].
  destruct (c =? SP); [destruct b|]; by rewrite IH.
Qed.

Lemma sub_spaces_join ls :
  re_sub_spaces (join [NL] ls) = join [NL] (map re_sub_spaces ls).
Proof.
  unfold re_sub_spaces.
  induction ls as [|p ps IH]; [done|].
  destruct ps as [|q ps]; [done|].
  change (join [NL] (p :: q :: ps)) with (p ++ NL :: join [NL] (q :: ps)).
  rewrite sub_spaces_app_NL, IH. done.
Qed.

Lemma sub_spaces_idem b s :
  sub_spaces_from b (sub_spaces_from b s) = sub_spaces_from b s.
Proof.
  revert b. induction s as [|c s IH]; intros b; simpl; [done|].
  destruct (N.eqb_spec c SP) as [->|Hne].
  - destruct b; [apply IH|]. simpl. by rewrite IH.
  - simpl. destruct (N.eqb_spec c SP); [done|]. by rewrite IH.
Qed.

Lemma sub_spaces_true_head s : head (sub_spaces_from true s) <> Some SP.
Proof.
  induction s as [|c s IH]; simpl; [done|].
  destruct (N.eqb_spec c SP) as [->|Hne]; [done|]. simpl. congruence.
Qed.

Lemma sub_spaces_no_double b s : ~ occurs [SP; SP] (sub_spaces_from b s).
Proof.
  intros (pre & post & H). revert b pre H.
  induction s as [|c s IH]; intros b pre; simpl.
  - by destruct pre.
  - destruct (N.eqb_spec c SP) as [->|Hne].
    + destruct b; [apply IH|].
      destruct pre as [|x pre]; simpl.
      * intros [= H]. pose proof (sub_spaces_true_head s) as Hh.
        rewrite H in Hh. done.
      * intros [= _ H]. by apply IH in H.
    + destruct pre as [|x pre]; simpl.
      * intros [= H _]. done.
      * intros [= _ H]. by apply IH in H.
Qed.

Lemma clean_sub_spaces l : clean l -> clean (re_sub_spaces l).
Proof.
  intros (Hne & [Hh Hl] & Hnl). unfold re_sub_spaces.
  destruct l as [|c l]; [done|].
  assert (Hc : c <> SP).
  { intros ->. specialize (Hh SP eq_refl). by rewrite isspace_SP in Hh. }
  split; [|split; [split|]].
  - simpl. by destruct (N.eqb_spec c SP).
  - simpl. destruct (N.eqb_spec c SP); [done|]. simpl. intros ? [= <-]. by apply Hh.
  - destruct (exists_last (l:=c :: l)) as (l0 & d & E); [done|].
    rewrite E in *. rewrite last_snoc in Hl.
    assert (Hd : d <> SP).
    { intros ->. specialize (Hl SP eq_refl). by rewrite isspace_SP in Hl. }
    rewrite sub_spaces_snoc, last_snoc by done. done.
  - intros H. by apply sub_spaces_elem in H.
Qed.

Lemma clean_lines text :
  Forall clean (List.filter truthy (map strip (split NL text))).
Proof.
  apply Forall_forall. intros l Hin.
  apply list_elem_of_In, filter_In in Hin. destruct Hin as [Hin Ht].
  apply in_map_iff in Hin. destruct Hin as (f & <- & Hf).
  split; [|split].
  - by destruct (strip f).
  - apply strip_trimmed.
  - intros H. apply strip_elem in H.
    pose proof (split_no_sep NL text) as Hs.
    rewrite Forall_forall in Hs. apply (Hs f); [by apply list_elem_of_In|done].
Qed.

Lemma join_head p ps c :
  head p = Some c -> head (join [NL] (p :: ps)) = Some c.
Proof. destruct p; [done|]. destruct ps; done. Qed.

Lemma join_clean_trimmed ls : Forall clean ls -> trimmed (join [NL] ls).
Proof.
  intros H. split.
  - destruct ls as [|p ps]; [done|]. inversion H as [|? ? (Hne & [Hh _] & _) _]; subst.
    destruct p as [|a p]; [done|]. intros c Hc.
    rewrite (join_head (a :: p) ps a eq_refl) in Hc. injection Hc as <-. by apply Hh.
  - induction H as [|p ps (Hne & [_ Hl] & _) Hps IH]; [done|].
    destruct ps as [|q ps]; [exact Hl|].
    change (join [NL] (p :: q :: ps)) with (p ++ NL :: join [NL] (q :: ps)).
    intros c Hc. apply IH.
    inversion Hps as [|? ? (Hq & _) _]; subst.
    rewrite last_app in Hc.
    remember (join [NL] (q :: ps)) as j.
    assert (j <> []).
    { subst j. destruct q; [done|]. by destruct ps. }
    destruct j as [|x j]; [done|].
    rewrite last_cons in Hc.
    simpl in Hc. destruct (last (x :: j)) eqn:E; [done|].
    by rewrite last_None in E.
Qed.

(** The text after the join and the substitution is a join of clean lines. *)
Lemma normalize_text_lines text :
  exists ls, Forall clean ls /\ normalize_text text = join [NL] ls
             /\ normalize_text text = re_sub_spaces (normalize_text text).
Proof.
  unfold normalize_text. destruct text as [|c text]; simpl negb; cbv iota.
  - exists []. by repeat split.
  - set (t := c :: text).
    set (ls := List.filter truthy (map strip (split NL t))).
    assert (Hls : Forall clean (map re_sub_spaces ls)).
    { apply Forall_map. eapply Forall_impl; [apply clean_lines|].
      intros l. apply clean_sub_spaces. }
    exists (map re_sub_spaces ls). split; [done|].
    rewrite sub_spaces_join.
    rewrite strip_id by (by apply join_clean_trimmed).
    split; [done|]. rewrite <- sub_spaces_join. unfold re_sub_spaces.
    by rewrite sub_spaces_idem.
Qed.

Lemma filter_truthy_clean ls : Forall clean ls -> List.filter truthy ls = ls.
Proof.
  induction 1 as [|l ls (Hne & _) _ IH]; [done|]. simpl.
  destruct l; [done|]. simpl. by rewrite IH.
Qed.

Lemma map_strip_clean ls : Forall clean ls -> map strip ls = ls.
Proof.
  induction 1 as [|l ls (_ & Ht & _) _ IH]; [done|]. simpl.
  by rewrite strip_id, IH.
Qed.

(** C7. Normalization is idempotent: normalizing an already normalized text
    returns it unchanged. *)
Theorem normalize_text_idempotent text :
  normalize_text (normalize_text text) = normalize_text text.
Proof.
  destruct (normalize_text_lines text) as (ls & Hls & E & Esub).
  destruct (normalize_text text) as [|c out] eqn:Eout; [done|].
  assert (Hne : ls <> []) by (intros ->; done).
  unfold normalize_text. simpl negb. cbv iota.
  rewrite E, split_join; [|done|by eapply Forall_impl; [exact Hls|]; intros ? (_&_&?)].
  rewrite map_strip_clean, filter_truthy_clean by done.
  rewrite <- E, <- Esub. rewrite E. apply strip_id. by apply join_clean_trimmed.
Qed.

(** C6. For every input, the output of [normalize_text] has no blank line
    (it is empty, or every line of it is non-empty and itself trimmed; it
    never holds two consecutive newlines), has no run of two or more
    consecutive spaces, and is trimmed of leading and trailing whitespace. *)
Theorem normalize_text_shape text :
  let out := normalize_text text in
  (out = [] \/ Forall (fun line => line <> [] /\ strip line = line) (split NL out))
  /\ ~ occurs [NL; NL] out
  /\ ~ occurs [SP; SP] out
  /\ strip out = out.
Proof.
  intros out. subst out.
  destruct (normalize_text_lines text) as (ls & Hls & E & Esub).
  assert (Hlines : normalize_text text = [] \/
     Forall (fun line => line <> [] /\ strip line = line) (split NL (normalize_text text))).
  { destruct ls as [|p ps]; [by left|]. right.
    rewrite E, split_join; [|done|by eapply Forall_impl; [exact Hls|]; intros ? (_&_&?)].
    eapply Forall_impl; [exact Hls|]. intros l (? & ? & _). split; [done|by apply strip_id]. }
  split; [exact Hlines|]. split; [|split].
  - intros (pre & post & H).
    destruct Hlines as [H0|HF]; [rewrite H0 in H; by destruct pre|].
    rewrite H in HF. simpl in HF.
    rewrite split_app_sep in HF. apply Forall_app in HF as [_ HF].
    simpl in HF. change (NL =? NL) with true in HF. cbv iota in HF.
    inversion HF as [|? ? [Hbad _] _]. done.
  - rewrite Esub. apply sub_spaces_no_double.
  - rewrite E. apply strip_id. by apply join_clean_trimmed.
Qed.

End StringFacts.

(** ** The runtime pieces on sample inputs *)

Example normalize_text_sample :
  normalize_text (pystr "  Total:   42  " ++ [NL; NL; 9%N; NL]
                  ++ pystr " paid  in   full ")
  = pystr "Total: 42" ++ [NL] ++ pystr "paid in full".
Proof. vm_compute. reflexivity. Qed.

Example normalize_text_blank : normalize_text [NL; SP; NL] = [].
Proof. reflexivity. Qed.

Example path_suffix_samples :
  path_suffix (pystr "in/Report.final.PDF") = pystr ".PDF"
  /\ path_stem (pystr "in/Report.final.PDF") = pystr "Report.final"
  /\ path_suffix (pystr ".txt") = []
  /\ path_suffix (pystr "notes.") = []
  /\ path_suffix (pystr "archive.tar.gz/") = pystr ".gz".
Proof. vm_compute. repeat split; reflexivity. Qed.

Example utf8_decode_samples :
  decode utf_8 [x63; xc3; xa9] = Some [99; 233]%N
  /\ decode utf_8 [xe2; x82; xac] = Some [8364]%N
  /\ decode utf_8 [x63; xe9] = None
  /\ decode utf_8 [xc0; x80] = None
  /\ decode utf_8 [xed; xa0; x80] = None
  /\ decode cp1252 [x81] = None
  /\ decode latin_1 [x81; xe9] = Some [129; 233]%N.
Proof. vm_compute. repeat split; reflexivity. Qed.

(* ===================================================================== *)
(** * Part VII. File validation                                           *)
(* ===================================================================== *)

Section Validation.

Local Open Scope Z_scope.

Lemma validate_file_unsupported filename file_size :
  lower (path_suffix filename) ∉ SUPPORTED_EXTENSIONS ->
  validate_file filename file_size = (false, Some msg_unsupported).
Proof.
  intros H. unfold validate_file. by rewrite bool_decide_eq_false_2.
Qed.

Lemma validate_file_supported filename file_size :
  lower (path_suffix filename) ∈ SUPPORTED_EXTENSIONS ->
  validate_file filename file_size =
    (if file_size >? MAX_FILE_SIZE_BYTES then (false, Some msg_too_large)
     else if file_size =? 0 then (false, Some msg_empty)
     else (true, None)).
Proof.
  intros H. unfold validate_file. by rewrite bool_decide_eq_true_2.
Qed.

(** C3, as the code has it.  A file of size 0 whose name carries a supported
    extension (compared case-insensitively) is rejected with the reason
    "File is empty"; the extension is checked first, so a name with any
    other extension is rejected as an unsupported type whatever the size,
    0 included. *)
Theorem validate_file_empty filename :
  (lower (path_suffix filename) ∈ SUPPORTED_EXTENSIONS ->
   validate_file filename 0 = (false, Some msg_empty))
  /\ (lower (path_suffix filename) ∉ SUPPORTED_EXTENSIONS ->
      forall file_size,
        validate_file filename file_size = (false, Some msg_unsupported)).
Proof.
  split.
  - intros H. by rewrite validate_file_supported.
  - intros H file_size. by apply validate_file_unsupported.
Qed.

Lemma validate_file_empty_witness :
  (lower (path_suffix (pystr "Report.TXT")) ∈ SUPPORTED_EXTENSIONS)
  /\ validate_file (pystr "Report.TXT") 0 = (false, Some msg_empty)
  /\ (lower (path_suffix (pystr "report.exe")) ∉ SUPPORTED_EXTENSIONS)
  /\ validate_file (pystr "report.exe") 7 = (false, Some msg_unsupported).
Proof.
  assert (H1 : lower (path_suffix (pystr "Report.TXT")) ∈ SUPPORTED_EXTENSIONS).
  { apply (bool_decide_eq_true_1 _). vm_compute. reflexivity. }
  assert (H2 : lower (path_suffix (pystr "report.exe")) ∉ SUPPORTED_EXTENSIONS).
  { apply (bool_decide_eq_false_1 _). vm_compute. reflexivity. }
  split; [exact H1|]. split.
  - exact (proj1 (validate_file_empty (pystr "Report.TXT")) H1).
  - split; [exact H2|].
    exact (proj2 (validate_file_empty (pystr "report.exe")) H2 7).
Defined.

(** C3 as stated fails: an empty file named [report.exe] is rejected for
    its type, not for being empty. *)
Lemma validate_file_empty_unsupported_reason :
  validate_file (pystr "report.exe") 0 = (false, Some msg_unsupported)
  /\ snd (validate_file (pystr "report.exe") 0) <> Some msg_empty.
Proof.
  split; [vm_compute; reflexivity|]. vm_compute. discriminate.
Qed.

End Validation.

(* ===================================================================== *)
(** * Part VIII. Text extraction                                          *)
(* ===================================================================== *)

Section Extraction.

Variable env : LoaderEnv.

Lemma lookup_entry_log_call path c w :
  lookup_entry path (log_call c w) = lookup_entry path w.
Proof. reflexivity. Qed.

(** C2, as the code has it.  The PDF strategies are tried in order, and the
    fallback loader is tried exactly when the primary strategy raises.  A
    primary strategy that completes decides the result, with empty text too,
    and the fallback is not called; when the primary raises, the result is
    the fallback's text, empty or not, and extraction fails when the fallback
    raises as well. *)
Theorem extract_text_from_pdf_strategies filepath w content mtime :
  lookup_entry filepath w = Some (RegularFile content mtime) ->
  match pdf_primary env content with
  | Return text_parts =>
      extract_text_from_pdf env filepath w
      = (Return (join [NL; NL] text_parts),
         log_call (CallPdfReader filepath) w)
  | Raise _ =>
      extract_text_from_pdf env filepath w
      = (match PyPDFLoader env content with
         | Return documents => Return (join [NL; NL] documents)
         | Raise fallback_error =>
             Raise (Exception (pystr "Failed to extract PDF text: "
                               ++ exn_str fallback_error))
         end,
         log_call (CallPyPDFLoader filepath)
           (log_call (CallPdfReader filepath) w))
  end.
Proof.
  intros Hfile.
  unfold pdf_primary, extract_text_from_pdf, bind, try_except,
    try_except_when, lib_call, lift, ret, raise.
  rewrite Hfile.
  destruct (PdfReader env content) as [pages|e]; cbv beta iota.
  - destruct (collect_pages pages []) as [parts|e]; cbv beta iota; [done|].
    rewrite lookup_entry_log_call, Hfile.
    by destruct (PyPDFLoader env content).
  - rewrite lookup_entry_log_call, Hfile.
    by destruct (PyPDFLoader env content).
Qed.

Lemma try_encodings_latin1 rest filepath w content mtime :
  lookup_entry filepath w = Some (RegularFile content mtime) ->
  try_encodings (latin_1 :: rest) filepath w
  = (Return (Some (universal_newlines (latin1_decode content))), w).
Proof.
  intros Hfile. simpl.
  unfold try_except_when, bind, read_text, ret. by rewrite Hfile.
Qed.

Lemma extract_text_from_txt_eq filepath w :
  extract_text_from_txt env filepath w
  = match lookup_entry filepath w with
    | Some (RegularFile content _) =>
        (Return (universal_newlines
                   match decode utf_8 content with
                   | Some text => text
                   | None => latin1_decode content
                   end), w)
    | Some Directory => (Raise (OSError (pystr "Is a directory")), w)
    | None => (Raise (OSError (pystr "No such file or directory")), w)
    end.
Proof.
  unfold extract_text_from_txt, try_except_when at 1. unfold read_text at 1.
  destruct (lookup_entry filepath w) as [[content mtime|]|] eqn:Hfile;
    [|done..].
  destruct (decode utf_8 content) as [text|]; [done|].
  cbn [is_UnicodeDecodeError]. cbv iota. unfold bind.
  by rewrite (try_encodings_latin1 _ _ _ _ _ Hfile).
Qed.

(** C10. Reading a TXT file is total over its content: whatever the bytes
    of an existing regular file, [extract_text_from_txt] returns a string
    (the UTF-8 decoding when the bytes are valid UTF-8, the Latin-1 decoding
    otherwise).  The generic text loader is never called and nothing is
    changed (the world is returned as it was), and the final failure branch
    is never taken: no run ends in its [Exception]. *)
Theorem extract_text_from_txt_total filepath w :
  snd (extract_text_from_txt env filepath w) = w
  /\ (forall msg, fst (extract_text_from_txt env filepath w) <> Raise (Exception msg))
  /\ (forall content mtime,
        lookup_entry filepath w = Some (RegularFile content mtime) ->
        extract_text_from_txt env filepath w
        = (Return (universal_newlines
                     match decode utf_8 content with
                     | Some text => text
                     | None => latin1_decode content
                     end), w)).
Proof.
  rewrite extract_text_from_txt_eq.
  destruct (lookup_entry filepath w) as [[content mtime|]|].
  - split; [done|]. split; [done|]. by intros ? ? [= <- _].
  - split; [done|]. split; [done|]. intros ? ? [=].
  - split; [done|]. split; [done|]. intros ? ? [=].
Qed.

End Extraction.

Lemma extract_text_from_pdf_strategies_witness :
  let env := sample_loader (Raise (Exception (pystr "EOF marker not found")))
               (Return [pystr "page one"; pystr "page two"]) None in
  let path := pystr "scan.pdf" in
  let w := world_of [(path, RegularFile (bytes_of "%PDF") 100%Z)] in
  lookup_entry path w = Some (RegularFile (bytes_of "%PDF") 100%Z)
  /\ extract_text_from_pdf env path w
     = (Return (pystr "page one" ++ [NL; NL] ++ pystr "page two"),
        log_call (CallPyPDFLoader path) (log_call (CallPdfReader path) w)).
Proof.
  intros env path w.
  assert (H : lookup_entry path w = Some (RegularFile (bytes_of "%PDF") 100%Z))
    by (vm_compute; reflexivity).
  split; [exact H|].
  exact (extract_text_from_pdf_strategies env path w _ _ H).
Defined.

(** C2 as stated fails: a primary strategy that completes with empty text
    (here one page without text) decides the result; the fallback, which
    would return text, is not tried. *)
Lemma extract_text_from_pdf_empty_primary :
  let env := sample_loader (Return [Return []]) (Return [pystr "hello"]) None in
  let path := pystr "scan.pdf" in
  let w := world_of [(path, RegularFile (bytes_of "%PDF") 100%Z)] in
  pdf_primary env (bytes_of "%PDF") = Return []
  /\ PyPDFLoader env (bytes_of "%PDF") = Return [pystr "hello"]
  /\ fst (extract_text_from_pdf env path w) = Return []
  /\ calls (snd (extract_text_from_pdf env path w)) = [CallPdfReader path].
Proof. vm_compute. repeat split; reflexivity. Qed.

Lemma extract_text_from_txt_total_witness :
  let env := sample_loader (Return []) (Return []) None in
  let path := pystr "notes.txt" in
  let content := [x63; xe9; x0d; x0a] in
  let w := world_of [(path, RegularFile content 100%Z)] in
  lookup_entry path w = Some (RegularFile content 100%Z)
  /\ extract_text_from_txt env path w = (Return [99; 233; 10]%N, w).
Proof.
  intros env path content w.
  assert (H : lookup_entry path w = Some (RegularFile content 100%Z))
    by (vm_compute; reflexivity).
  split; [exact H|].
  exact (proj2 (proj2 (extract_text_from_txt_total env path w)) content 100%Z H).
Defined.

(* ===================================================================== *)
(** * Part IX. The retention sweep                                        *)
(* ===================================================================== *)

Section Sweep.

Local Open Scope Z_scope.

Variable env : LoaderEnv.
Variables current_time max_age_seconds : Z.

Lemma set_uploads_id d w : uploads w = Some d -> set_uploads d w = w.
Proof. destruct w as [u c]. simpl. by intros ->. Qed.

Lemma set_uploads_twice d d' w :
  set_uploads d' (set_uploads d w) = set_uploads d' w.
Proof. reflexivity. Qed.

(** One turn of the loop. *)
Lemma cleanup_loop_cons k ks n w d :
  uploads w = Some d ->
  cleanup_loop env current_time max_age_seconds (k :: ks) n w
  = if swept env current_time max_age_seconds k (d !! k)
    then cleanup_loop env current_time max_age_seconds ks (n + 1)
           (set_uploads (delete k d) w)
    else cleanup_loop env current_time max_age_seconds ks n w.
Proof.
  intros Hd. cbn [cleanup_loop].
  unfold bind at 1. unfold is_file, lookup_entry. rewrite Hd.
  unfold swept.
  destruct (d !! k) as [[content st_mtime|]|] eqn:Hk; [|done..].
  unfold bind at 1. unfold bind at 1.
  unfold stat_mtime, lookup_entry. rewrite Hd, Hk.
  destruct (current_time - st_mtime >? max_age_seconds); [|done].
  unfold try_except, try_except_when, bind at 1, unlink. rewrite Hd, Hk.
  by destruct (unlink_refused env k).
Qed.

Lemma cleanup_loop_spec ks : forall d n w,
  uploads w = Some d -> NoDup ks ->
  exists d',
    cleanup_loop env current_time max_age_seconds ks n w
    = (Return (n + (Z.of_nat (size d) - Z.of_nat (size d'))), set_uploads d' w)
    /\ forall j, d' !! j =
         if bool_decide (j ∈ ks)
            && swept env current_time max_age_seconds j (d !! j)
         then None else d !! j.
Proof.
  induction ks as [|k ks IH]; intros d n w Hd Hnd.
  - exists d. split.
    + cbn. unfold ret. rewrite set_uploads_id by done. do 2 f_equal. lia.
    + intros j. by rewrite bool_decide_eq_false_2 by apply not_elem_of_nil.
  - apply NoDup_cons in Hnd as [Hk Hnd].
    rewrite (cleanup_loop_cons k ks n w d Hd).
    destruct (swept env current_time max_age_seconds k (d !! k)) eqn:Hs.
    + destruct (IH (delete k d) (n + 1) (set_uploads (delete k d) w)
                  eq_refl Hnd) as (d' & Hrun & Hlook).
      exists d'. split.
      * rewrite Hrun, set_uploads_twice. do 2 f_equal.
        assert (is_Some (d !! k)) as He.
        { unfold swept in Hs. destruct (d !! k); [eauto|done]. }
        pose proof (map_size_delete_Some k d He).
        destruct He as [e He].
        assert (size d <> 0)%nat.
        { intros ?%map_size_empty_inv. subst d. by rewrite lookup_empty in He. }
        lia.
      * intros j. rewrite Hlook.
        destruct (decide (j = k)) as [->|Hne].
        -- rewrite (bool_decide_eq_false_2 (k ∈ ks)) by done.
           rewrite (bool_decide_eq_true_2 (k ∈ k :: ks)) by (apply elem_of_cons; by left).
           cbn. by rewrite Hs, lookup_delete_eq.
        -- rewrite lookup_delete_ne by done.
           by rewrite (bool_decide_ext (j ∈ k :: ks) (j ∈ ks))
             by (rewrite elem_of_cons; split; [by intros [?|?]|by right]).
    + destruct (IH d n w Hd Hnd) as (d' & Hrun & Hlook).
      exists d'. split; [done|].
      intros j. rewrite Hlook.
      destruct (decide (j = k)) as [->|Hne].
      * rewrite (bool_decide_eq_false_2 (k ∈ ks)) by done.
        by rewrite Hs, !andb_false_r.
      * by rewrite (bool_decide_ext (j ∈ k :: ks) (j ∈ ks))
          by (rewrite elem_of_cons; split; [by intros [?|?]|by right]).
Qed.

End Sweep.

Section SweepClaims.

Local Open Scope Z_scope.

Lemma cleanup_old_files_run env current_time max_age_hours w d :
  uploads w = Some d ->
  exists d',
    cleanup_old_files env current_time max_age_hours w
    = (Return (Z.of_nat (size d) - Z.of_nat (size d')), set_uploads d' w)
    /\ forall k, d' !! k =
         if swept env current_time (max_age_hours * 3600) k (d !! k)
         then None else d !! k.
Proof.
  intros Hd.
  destruct (cleanup_loop_spec env current_time (max_age_hours * 3600)
              (map fst (map_to_list d)) d 0 w Hd
              (NoDup_fst_map_to_list d)) as (d' & Hrun & Hlook).
  exists d'. split.
  - unfold cleanup_old_files, bind, uploads_dir_exists, iterdir.
    rewrite Hd. rewrite bool_decide_eq_true_2 by eauto. cbn [negb].
    rewrite Hd. rewrite Hrun. do 2 f_equal.
  - intros k. rewrite Hlook.
    destruct (swept env current_time (max_age_hours * 3600) k (d !! k)) eqn:Hs;
      [|by rewrite andb_false_r].
    rewrite bool_decide_eq_true_2; [done|].
    destruct (d !! k) as [e|] eqn:Hk; [|done].
    apply list_elem_of_fmap. exists (k, e). split; [done|].
    by apply elem_of_map_to_list.
Qed.

(** C8, as the code has it.  [cleanup_old_files] deletes exactly the regular
    files of the uploads directory whose age ([current_time] minus
    [st_mtime]) strictly exceeds [max_age_hours * 3600] seconds and whose
    unlink is not refused, leaves every other entry as it was, and returns
    the number of files it deleted.  With [max_age_hours = 0] it deletes
    every regular file last modified strictly before [current_time] whose
    unlink is not refused.  A second sweep at the same clock reading deletes
    nothing and returns 0. *)
Theorem cleanup_old_files_sweep env current_time max_age_hours w d :
  uploads w = Some d ->
  exists d',
    cleanup_old_files env current_time max_age_hours w
    = (Return (Z.of_nat (size d) - Z.of_nat (size d')), set_uploads d' w)
    /\ (forall k, d' !! k =
          if swept env current_time (max_age_hours * 3600) k (d !! k)
          then None else d !! k)
    /\ (max_age_hours = 0 ->
        forall k content st_mtime,
          d !! k = Some (RegularFile content st_mtime) ->
          st_mtime < current_time ->
          unlink_refused env k = None ->
          d' !! k = None)
    /\ cleanup_old_files env current_time max_age_hours (set_uploads d' w)
       = (Return 0, set_uploads d' w).
Proof.
  intros Hd.
  destruct (cleanup_old_files_run env current_time max_age_hours w d Hd)
    as (d' & Hrun & Hlook).
  exists d'. split; [exact Hrun|]. split; [exact Hlook|]. split.
  - intros -> k content st_mtime Hk Hlt Hun. rewrite Hlook, Hk.
    unfold swept. rewrite Hun.
    by replace (current_time - st_mtime >? 0 * 3600) with true by lia.
  - destruct (cleanup_old_files_run env current_time max_age_hours
                (set_uploads d' w) d' eq_refl) as (d'' & Hrun2 & Hlook2).
    assert (d'' = d') as ->.
    { apply map_eq. intros k. rewrite Hlook2, Hlook.
      destruct (swept env current_time (max_age_hours * 3600) k (d !! k)) eqn:Hs;
        [done|]. by rewrite Hs. }
    rewrite Hrun2. f_equal. f_equal. lia.
Qed.

Lemma cleanup_old_files_sweep_witness :
  let env := sample_loader (Return []) (Return []) None in
  let d : gmap str entry :=
    list_to_map [(pystr "old.txt", RegularFile [] 10);
                 (pystr "new.txt", RegularFile [] 90000);
                 (pystr "sub", Directory)] in
  let w := {| uploads := Some d; calls := [] |} in
  uploads w = Some d
  /\ exists d',
       cleanup_old_files env 90000 24 w
       = (Return (Z.of_nat (size d) - Z.of_nat (size d')), set_uploads d' w)
       /\ d' !! pystr "old.txt" = None
       /\ d' !! pystr "new.txt" = Some (RegularFile [] 90000)
       /\ d' !! pystr "sub" = Some Directory
       /\ cleanup_old_files env 90000 24 (set_uploads d' w)
          = (Return 0, set_uploads d' w).
Proof.
  intros env d w. split; [reflexivity|].
  destruct (cleanup_old_files_sweep env 90000 24 w d eq_refl)
    as (d' & Hrun & Hlook & _ & Hagain).
  exists d'. split; [exact Hrun|].
  rewrite !Hlook. repeat split; try (vm_compute; reflexivity). exact Hagain.
Defined.

(** C8 as stated fails.  With [max_age_hours = 0] a file last modified at
    the very clock reading of the sweep has age 0, which does not exceed 0:
    it is kept and the sweep returns 0.  A second sweep one second later
    deletes it and returns 1. *)
Lemma cleanup_old_files_keeps_age_zero :
  let env := sample_loader (Return []) (Return []) None in
  let w := world_of [(pystr "fresh.txt", RegularFile [] 100)] in
  cleanup_old_files env 100 0 w = (Return 0, w)
  /\ lookup_entry (pystr "fresh.txt") (snd (cleanup_old_files env 100 0 w))
     = Some (RegularFile [] 100)
  /\ fst (cleanup_old_files env 101 0 (snd (cleanup_old_files env 100 0 w)))
     = Return 1.
Proof. vm_compute. repeat split; reflexivity. Qed.

(** The sweep on a sample directory: one file is old enough, one is not,
    and a sub-directory is never touched. *)
Example cleanup_old_files_sample :
  let env := sample_loader (Return []) (Return []) None in
  let w := world_of [(pystr "old.txt", RegularFile [] 10);
                     (pystr "new.txt", RegularFile [] 90000);
                     (pystr "sub", Directory)] in
  cleanup_old_files env 90000 24 w
  = (Return 1, world_of [(pystr "new.txt", RegularFile [] 90000);
                         (pystr "sub", Directory)]).
Proof. vm_compute. reflexivity. Qed.

End SweepClaims.

(* ===================================================================== *)
(** * Part X. Footprints: what a computation may touch                    *)
(* ===================================================================== *)

Section Footprint.

Variable R : World -> World -> Prop.
Hypothesis R_refl : forall w, R w w.
Hypothesis R_trans : forall a b c, R a b -> R b c -> R a c.

Lemma preserves_ret {A} (a : A) : preserves R (ret a).
Proof using R_refl. intros w. apply R_refl. Qed.

Lemma preserves_raise {A} e : preserves R (@raise A e).
Proof using R_refl. intros w. apply R_refl. Qed.

Lemma preserves_lift {A} (r : outcome A) : preserves R (lift r).
Proof using R_refl. intros w. apply R_refl. Qed.

Lemma preserves_bind {A B} (c : M A) (k : A -> M B) :
  preserves R c -> (forall a, preserves R (k a)) -> preserves R (bind c k).
Proof using R_trans.
  intros Hc Hk w. unfold bind. specialize (Hc w).
  destruct (c w) as [[a|e] w1]; [|exact Hc].
  eapply R_trans; [exact Hc|apply Hk].
Qed.

Lemma preserves_try_except_when {A} catches (c : M A) handler :
  preserves R c -> (forall e, preserves R (handler e)) ->
  preserves R (try_except_when catches c handler).
Proof using R_trans.
  intros Hc Hh w. unfold try_except_when. specialize (Hc w).
  destruct (c w) as [[a|e] w1]; [exact Hc|].
  destruct (catches e); [|exact Hc].
  eapply R_trans; [exact Hc|apply Hh].
Qed.

Lemma preserves_try_except {A} (c : M A) handler :
  preserves R c -> (forall e, preserves R (handler e)) ->
  preserves R (try_except c handler).
Proof using R_trans. apply preserves_try_except_when. Qed.

Lemma preserves_try_finally {A} (c : M A) final :
  preserves R c -> preserves R final -> preserves R (try_finally c final).
Proof using R_trans.
  intros Hc Hf w. unfold try_finally. specialize (Hc w).
  destruct (c w) as [r w1]. specialize (Hf w1).
  destruct (final w1) as [[u|e] w2]; eapply R_trans; eauto.
Qed.

End Footprint.

Lemma loader_calls_only_refl w : loader_calls_only w w.
Proof. exists []. by rewrite app_nil_r. Qed.

Lemma loader_calls_only_trans a b c :
  loader_calls_only a b -> loader_calls_only b c -> loader_calls_only a c.
Proof.
  intros (n1 & E1 & F1) (n2 & E2 & F2). exists (n1 ++ n2).
  split; [by rewrite E2, E1, app_assoc|by apply Forall_app].
Qed.

Lemma reads_only_refl w : reads_only w w.
Proof. split; [done|apply loader_calls_only_refl]. Qed.

Lemma reads_only_trans a b c :
  reads_only a b -> reads_only b c -> reads_only a c.
Proof.
  intros [U1 L1] [U2 L2]. split; [congruence|].
  by eapply loader_calls_only_trans.
Qed.

Lemma silent_loader_calls_only w w' : silent w w' -> loader_calls_only w w'.
Proof. intros H. exists []. by rewrite app_nil_r. Qed.

Lemma reads_only_lib_call {A} c (parse : bytes -> outcome A) path :
  is_loader_call c = true -> preserves reads_only (lib_call c parse path).
Proof.
  intros Hc w. unfold lib_call.
  assert (reads_only w (log_call c w)).
  { split; [done|]. exists [c]. split; [done|]. by constructor. }
  by destruct (lookup_entry path w) as [[? ?|]|].
Qed.

Lemma reads_only_read_text enc path : preserves reads_only (read_text enc path).
Proof.
  intros w. unfold read_text.
  destruct (lookup_entry path w) as [[content ?|]|]; try apply reads_only_refl.
  destruct (decode enc content); apply reads_only_refl.
Qed.

(** Walks down a computation built from the monad's combinators; [rfl] and
    [trans] are the proofs that the relation is a preorder. *)
Ltac footprint_step rfl trans :=
  lazymatch goal with
  | |- preserves _ (bind _ _) =>
      apply (preserves_bind _ trans); [|intros ?]
  | |- preserves _ (try_except _ _) =>
      apply (preserves_try_except _ trans); [|intros ?]
  | |- preserves _ (try_except_when _ _ _) =>
      apply (preserves_try_except_when _ trans); [|intros ?]
  | |- preserves _ (try_finally _ _) =>
      apply (preserves_try_finally _ trans)
  | |- preserves _ (ret _) => apply (preserves_ret _ rfl)
  | |- preserves _ (raise _) => apply (preserves_raise _ rfl)
  | |- preserves _ (lift _) => apply (preserves_lift _ rfl)
  | |- preserves reads_only (lib_call _ _ _) =>
      apply reads_only_lib_call; reflexivity
  | |- preserves reads_only (read_text _ _) => apply reads_only_read_text
  end.

Ltac footprint := repeat footprint_step reads_only_refl reads_only_trans.

Lemma reads_only_extract_text_from_pdf env path :
  preserves reads_only (extract_text_from_pdf env path).
Proof. unfold extract_text_from_pdf. footprint. Qed.

Lemma reads_only_extract_text_from_docx env path :
  preserves reads_only (extract_text_from_docx env path).
Proof. unfold extract_text_from_docx. footprint. Qed.

Lemma reads_only_try_encodings encodings path :
  preserves reads_only (try_encodings encodings path).
Proof.
  induction encodings as [|enc rest IH]; cbn [try_encodings]; footprint.
  exact IH.
Qed.

Lemma reads_only_extract_text_from_txt env path :
  preserves reads_only (extract_text_from_txt env path).
Proof.
  unfold extract_text_from_txt. footprint.
  - apply reads_only_try_encodings.
  - destruct a; footprint.
Qed.

(** Extraction reads: it leaves the uploads directory as it is and calls
    nothing but the loading libraries. *)
Lemma reads_only_extract_text env path : preserves reads_only (extract_text env path).
Proof.
  unfold extract_text. footprint.
  repeat case_bool_decide; footprint.
  - apply reads_only_extract_text_from_pdf.
  - apply reads_only_extract_text_from_docx.
  - apply reads_only_extract_text_from_txt.
Qed.


(* ===================================================================== *)
(** * Part XI. The temporary file of [process_uploaded_file]              *)
(* ===================================================================== *)

Section TemporaryFile.

Variable env : LoaderEnv.

Lemma reads_only_loader_calls_only {A} (c : M A) :
  preserves reads_only c -> preserves loader_calls_only c.
Proof. intros H w. apply H. Qed.

(** How [save_upload] can end: refused before anything is written, failed
    in the middle of the write, or done. *)
Lemma save_upload_cases now content filename w r w1 :
  save_upload env now content filename w = (r, w1) ->
  let tmp := unique_filename env now filename in
  (exists e, r = Raise e /\ w1 = w)
  \/ (exists e d n, r = Raise e /\ uploads w = Some d
        /\ w1 = set_uploads (<[tmp := RegularFile (take n content) now]> d) w)
  \/ (r = Return tmp /\ exists d, uploads w = Some d
        /\ w1 = set_uploads (<[tmp := RegularFile content now]> d) w).
Proof.
  intros H tmp. unfold save_upload in H. cbv zeta in H. fold tmp in H.
  unfold bind, write_bytes, ret in H.
  destruct (uploads w) as [d|] eqn:Hd.
  2: { injection H as <- <-. left. eauto. }
  destruct (d !! tmp) as [[c m|]|].
  2: { injection H as <- <-. left. eauto. }
  all: destruct (open_refused env tmp) as [e|];
         [injection H as <- <-; left; eauto|].
  all: destruct (write_fault env tmp) as [n|]; injection H as <- <-;
         [right; left; eauto 10|right; right; eauto].
Qed.

Lemma silent_save_upload now content filename :
  preserves silent (save_upload env now content filename).
Proof.
  intros w. destruct (save_upload env now content filename w) as [r w1] eqn:H.
  apply save_upload_cases in H as [(e & _ & ->)|[(e & d & n & _ & _ & ->)|(_ & d & _ & ->)]];
    reflexivity.
Qed.

Lemma cleanup_file_present path w d content mtime :
  uploads w = Some d ->
  d !! path = Some (RegularFile content mtime) ->
  cleanup_file env path w
  = (Return tt, match unlink_refused env path with
                | None => set_uploads (delete path d) w
                | Some _ => w
                end).
Proof.
  intros Hd Hp.
  unfold cleanup_file, try_except, try_except_when, bind, path_exists,
    lookup_entry, unlink, ret.
  rewrite Hd, Hp. rewrite bool_decide_eq_true_2 by eauto.
  rewrite Hd, Hp. by destruct (unlink_refused env path).
Qed.

Lemma silent_cleanup_file path : preserves silent (cleanup_file env path).
Proof.
  intros w.
  unfold cleanup_file, try_except, try_except_when, bind, path_exists, unlink, ret.
  case_bool_decide; [|reflexivity].
  destruct (uploads w) as [d|]; [|reflexivity].
  destruct (d !! path) as [[? ?|]|]; try reflexivity.
  by destruct (unlink_refused env path).
Qed.

(** The extraction step between the save and the cleanup. *)
Lemma reads_only_extraction_body extraction_time (content : bytes) filename
    filepath :
  preserves reads_only
    (let* extracted_text := extract_text env filepath in
     let metadata :=
       {| meta_original_filename := filename;
          meta_file_type := lower (path_suffix filepath);
          meta_file_size_bytes := len content;
          meta_extracted_length := len extracted_text;
          meta_extraction_timestamp := isoformat env extraction_time |} in
     ret (extracted_text, metadata)).
Proof.
  apply (preserves_bind _ reads_only_trans); [apply reads_only_extract_text|].
  intros text. apply (preserves_ret _ reads_only_refl).
Qed.

(** [process_uploaded_file] calls nothing but the loading libraries. *)
Lemma loader_calls_only_process_uploaded_file t1 t2 content filename cleanup :
  preserves loader_calls_only
    (process_uploaded_file env t1 t2 content filename cleanup).
Proof.
  intros w. unfold process_uploaded_file.
  destruct (validate_file filename (len content)) as [[|] error]; cbn [negb];
    [|apply loader_calls_only_refl].
  pose proof (silent_save_upload t1 content filename w) as Hsave.
  destruct (save_upload env t1 content filename w) as [[filepath|e] w1];
    [|by apply silent_loader_calls_only].
  eapply loader_calls_only_trans; [by apply silent_loader_calls_only|].
  apply (preserves_try_finally _ loader_calls_only_trans).
  - apply reads_only_loader_calls_only, reads_only_extraction_body.
  - destruct cleanup.
    + intros w2. apply silent_loader_calls_only, silent_cleanup_file.
    + apply (preserves_ret _ loader_calls_only_refl).
Qed.

(** C9, as the code has it.  With [cleanup_after = true], once validation
    has passed and [save_upload] has returned, [cleanup_file] is run on the
    saved temporary file before the call returns or propagates an exception,
    an extraction failure included: when the unlink is not refused the file
    no longer exists afterwards; a refused unlink is swallowed and leaves the
    file in place.  No entry of the directory under another name is changed,
    whatever the outcome. *)
Theorem process_uploaded_file_cleanup
    save_time extraction_time content filename w r w' :
  process_uploaded_file env save_time extraction_time content filename true w
  = (r, w') ->
  let tmp := unique_filename env save_time filename in
  (forall k, k <> tmp -> lookup_entry k w' = lookup_entry k w)
  /\ (fst (validate_file filename (len content)) = true ->
      forall w1,
        save_upload env save_time content filename w = (Return tmp, w1) ->
        lookup_entry tmp w'
        = match unlink_refused env tmp with
          | None => None
          | Some _ => Some (RegularFile content save_time)
          end).
Proof.
  intros Hrun tmp. unfold process_uploaded_file in Hrun.
  destruct (validate_file filename (len content)) as [[|] error]; cbn [negb] in Hrun.
  2: { injection Hrun as <- <-. split; [done|]. intros [=]. }
  destruct (save_upload env save_time content filename w) as [[filepath|e] w1] eqn:Hsave.
  - apply save_upload_cases in Hsave as Hcases. fold tmp in Hcases.
    destruct Hcases as [(e & [=] & _)|[(e & d & n & [=] & _)|([= ->] & d & Hd & ->)]].
    unfold try_finally in Hrun.
    match type of Hrun with
    | (let (_, _) := ?body ?w1 in _) = _ =>
        pose proof (reads_only_extraction_body extraction_time content
                      filename tmp w1) as [Hu _];
        destruct (body w1) as [r2 w2]
    end.
    cbn [snd] in Hu. cbn [set_uploads uploads] in Hu.
    rewrite (cleanup_file_present tmp w2 _ content save_time Hu
               (lookup_insert_eq _ _ _)) in Hrun.
    injection Hrun as <- <-.
    assert (Hw : forall k, lookup_entry k w = d !! k)
      by (intros k; unfold lookup_entry; by rewrite Hd).
    split.
    + intros k Hk. rewrite Hw.
      destruct (unlink_refused env tmp).
      * unfold lookup_entry. rewrite Hu. by apply lookup_insert_ne.
      * unfold lookup_entry. cbn.
        rewrite lookup_delete_ne by done. by apply lookup_insert_ne.
    + intros _ w1 _.
      destruct (unlink_refused env tmp).
      * unfold lookup_entry. rewrite Hu. by apply lookup_insert_eq.
      * unfold lookup_entry. cbn. by apply lookup_delete_eq.
  - injection Hrun as <- <-. split; [|by intros _ w2 [=]].
    apply save_upload_cases in Hsave. fold tmp in Hsave.
    destruct Hsave as [(e' & _ & ->)|[(e' & d & n & _ & Hd & ->)|([=] & _)]]; [done|].
    intros k Hk. unfold lookup_entry. rewrite Hd. cbn.
    by apply lookup_insert_ne.
Qed.

End TemporaryFile.

Lemma process_uploaded_file_cleanup_witness :
  let env := sample_loader (Return []) (Return []) None in
  let content := bytes_of "not really a Word file" in
  let tmp := pystr "memo_20240101_120000.docx" in
  let w := world_of [(pystr "keep.txt", RegularFile [] 5%Z)] in
  let r := Raise (Exception (pystr "Failed to extract DOCX text: not a zip file")) in
  let w' := {| uploads := uploads w;
               calls := [CallDocxDocument tmp; CallDocx2txtLoader tmp] |} in
  process_uploaded_file env 100 101 content (pystr "memo.docx") true w = (r, w')
  /\ fst (validate_file (pystr "memo.docx") (len content)) = true
  /\ save_upload env 100 content (pystr "memo.docx") w
     = (Return tmp, set_uploads (<[tmp := RegularFile content 100%Z]>
                                   (list_to_map [(pystr "keep.txt", RegularFile [] 5%Z)])) w)
  /\ lookup_entry tmp w' = None
  /\ lookup_entry (pystr "keep.txt") w' = lookup_entry (pystr "keep.txt") w.
Proof.
  intros env content tmp w r w'.
  assert (Hrun : process_uploaded_file env 100 101 content (pystr "memo.docx") true w
                 = (r, w')) by (vm_compute; reflexivity).
  assert (Hval : fst (validate_file (pystr "memo.docx") (len content)) = true)
    by (vm_compute; reflexivity).
  assert (Hsave : save_upload env 100 content (pystr "memo.docx") w
     = (Return (unique_filename env 100 (pystr "memo.docx")),
        set_uploads (<[tmp := RegularFile content 100%Z]>
                       (list_to_map [(pystr "keep.txt", RegularFile [] 5%Z)])) w))
    by (vm_compute; reflexivity).
  destruct (process_uploaded_file_cleanup env 100 101 content (pystr "memo.docx")
              w r w' Hrun) as [Hframe Hgone].
  split; [exact Hrun|]. split; [exact Hval|]. split; [exact Hsave|]. split.
  - exact (Hgone Hval _ Hsave).
  - apply Hframe. vm_compute. discriminate.
Defined.

(** Outside the statement above: a write that fails in the middle raises
    out of [save_upload] before [filepath] is bound, so the [finally] block
    has nothing to clean and the partial file stays. *)
Example process_uploaded_file_failed_write :
  let env :=
    {| PdfReader := fun _ => Return [];
       PyPDFLoader := fun _ => Return [];
       DocxDocument := fun _ => Return [];
       Docx2txtLoader := fun _ => Return [];
       TextLoader := fun _ => Return [];
       open_refused := fun _ => None;
       write_fault := fun _ => Some 4%nat;
       unlink_refused := fun _ => None;
       strftime := fun _ => pystr "20240101_120000";
       isoformat := fun _ => pystr "2024-01-01T12:00:00" |} in
  let run := process_uploaded_file env 100 101 (bytes_of "quarterly figures")
               (pystr "q3.txt") true (world_of []) in
  fst run = Raise (OSError (pystr "No space left on device"))
  /\ lookup_entry (pystr "q3_20240101_120000.txt") (snd run)
     = Some (RegularFile (bytes_of "quar") 100%Z).
Proof. vm_compute. split; reflexivity. Qed.

(** C9 as stated fails: when the OS refuses the unlink, [cleanup_file]
    swallows the error and the file saved by the call is still in the
    directory after the call has returned. *)
Lemma process_uploaded_file_leaves_file :
  let env := sample_loader (Return []) (Return [])
               (Some (OSError (pystr "Permission denied"))) in
  let content := bytes_of "quarterly figures" in
  let tmp := pystr "q3_20240101_120000.txt" in
  let run := process_uploaded_file env 100 101 content (pystr "q3.txt") true
               (world_of []) in
  (exists metadata, fst run = Return (pystr "quarterly figures", metadata))
  /\ lookup_entry tmp (world_of []) = None
  /\ lookup_entry tmp (snd run) = Some (RegularFile content 100%Z).
Proof.
  vm_compute. split; [eexists; reflexivity|]. split; reflexivity.
Qed.

(* ===================================================================== *)
(** * Part XII. The upload route                                          *)
(* ===================================================================== *)

Section Route.

Local Open Scope Z_scope.

Variable env : PipelineEnv.
Variable clk : Clock.

Lemma bind_Return {A B} (c : M A) (k : A -> M B) w a w' :
  c w = (Return a, w') -> bind c k w = k a w'.
Proof. unfold bind. by intros ->. Qed.

Lemma bind_Raise {A B} (c : M A) (k : A -> M B) w e w' :
  c w = (Raise e, w') -> bind c k w = (Raise e, w').
Proof. unfold bind. by intros ->. Qed.

Lemma step_read_ok file content w :
  file_read file = Return content -> step_read file w = (Return content, w).
Proof. unfold step_read, try_except, try_except_when, lift. by intros ->. Qed.

Lemma step_extract_ok file content w extracted w1 :
  process_uploaded_file (loader env) (save_time clk) (extraction_time clk)
    content (filename_or_default file) true w = (Return extracted, w1) ->
  step_extract env clk file content w = (Return extracted, w1).
Proof. unfold step_extract, try_except, try_except_when. by intros ->. Qed.

Lemma length_gate_short (text : str) w :
  (length text < 50)%nat ->
  length_gate text w
  = (Raise (HTTPException 400 (msg_insufficient (length text))), w).
Proof.
  intros H. unfold length_gate, len.
  by replace (Z.of_nat (length text) <? 50) with true by lia.
Qed.

Lemma length_gate_enough (text : str) w :
  (50 <= length text)%nat -> length_gate text w = (Return tt, w).
Proof.
  intros H. unfold length_gate, len.
  by replace (Z.of_nat (length text) <? 50) with false by lia.
Qed.

Lemma step_analyze_ok text verdict w :
  analyze_document_async env text = Return verdict ->
  step_analyze env text w = (Return verdict, log_call (CallAnalyze text) w).
Proof.
  unfold step_analyze, try_except, try_except_when, call_ext. by intros ->.
Qed.

(** Visualize never raises: its result is the dashboard or [None]. *)
Lemma step_visualize_returns verdict w :
  exists visualizations,
    step_visualize env verdict w
    = (Return visualizations, log_call CallVisualize w)
    /\ (forall viz_error,
          create_comprehensive_dashboard env (Agent.risk_level verdict)
            (Agent.total_flagged_amount verdict) (Agent.list_of_flags verdict)
          = Raise viz_error ->
          visualizations = None).
Proof.
  unfold step_visualize, try_except, try_except_when, bind, call_ext, ret.
  destruct (create_comprehensive_dashboard env _ _ _) as [path|e].
  - eexists. split; [reflexivity|]. by intros ? [=].
  - exists None. by split.
Qed.

Lemma step_email_absent recipient verdict visualizations metadata w :
  recipient = None \/ recipient = Some [] ->
  step_email env recipient verdict visualizations metadata w = (Return None, w).
Proof. by intros [-> | ->]. Qed.

Lemma step_email_raised r verdict visualizations metadata w cause :
  truthy r = true ->
  send_analysis_report_async env r (Agent.risk_level verdict)
    (Agent.summary verdict) (Agent.total_flagged_amount verdict)
    (Agent.list_of_flags verdict) (Agent.recommendations verdict)
    visualizations (meta_original_filename metadata) = Raise cause ->
  step_email env (Some r) verdict visualizations metadata w
  = (Return (Some (<["error"%string := PStr (exn_str cause)]>
                  (<["recipient"%string := PStr r]>
                  ({[ "success"%string := PBool false ]})))),
     log_call (CallSendEmail r) w).
Proof.
  intros Hr Hsend. unfold step_email. rewrite Hr. cbn [negb].
  unfold try_except, try_except_when, bind, call_ext. by rewrite Hsend.
Qed.

Lemma step_email_reported r verdict visualizations metadata w result success :
  truthy r = true ->
  send_analysis_report_async env r (Agent.risk_level verdict)
    (Agent.summary verdict) (Agent.total_flagged_amount verdict)
    (Agent.list_of_flags verdict) (Agent.recommendations verdict)
    visualizations (meta_original_filename metadata) = Return result ->
  result !! "success"%string = Some success ->
  pyval_truthy success = false ->
  step_email env (Some r) verdict visualizations metadata w
  = (Return (Some (<["error"%string := dict_get result "error" PNone]>
                  (<["message"%string :=
                      dict_get result "message"
                        (PStr (pystr "Email sent successfully"))]>
                  (<["recipient"%string := PStr r]>
                  ({[ "success"%string := success ]}))))),
     log_call (CallSendEmail r) w).
Proof.
  intros Hr Hsend Hkey Hfalse. unfold step_email. rewrite Hr. cbn [negb].
  unfold try_except, try_except_when, bind, call_ext, lift, getitem, ret.
  by rewrite Hsend, Hkey, Hfalse.
Qed.

(** Notify never raises. *)
Lemma step_email_returns recipient verdict visualizations metadata w :
  exists email_status w',
    step_email env recipient verdict visualizations metadata w
    = (Return email_status, w').
Proof.
  unfold step_email. destruct recipient as [r|]; [|by eexists _, _].
  destruct (truthy r); cbn [negb]; [|by eexists _, _].
  unfold try_except, try_except_when, bind, call_ext, lift, getitem, ret.
  destruct (send_analysis_report_async env _ _ _ _ _ _ _ _) as [result|e];
    [|by eexists _, _].
  destruct (result !! "success"%string) as [success|]; [|by eexists _, _].
  destruct (pyval_truthy success); by eexists _, _.
Qed.

Lemma build_flags_in_range flags :
  Forall (fun flag => Schemas.confidence_in_range (Agent.confidence flag) = true)
         flags ->
  build_flags flags = Return (map response_flag flags).
Proof.
  induction 1 as [|flag flags Hflag _ IH]; [done|].
  cbn [build_flags map]. unfold Schemas.make_DocumentFraudFlag.
  by rewrite Hflag, IH.
Qed.

(** Assembly succeeds on a verdict whose flags are in range, and puts the
    verdict, the visualizations and the email status in the response. *)
Lemma step_respond_ok verdict metadata visualizations email_status w :
  flags_in_range verdict ->
  exists resp,
    step_respond clk verdict metadata visualizations email_status w
    = (Return resp, w)
    /\ carries_verdict resp verdict
    /\ Schemas.visualizations (Schemas.analysis resp) = visualizations
    /\ Schemas.email_sent (Schemas.analysis resp) = email_status.
Proof.
  intros Hflags.
  unfold step_respond, try_except, try_except_when, bind, lift, ret.
  rewrite (build_flags_in_range _ Hflags).
  eexists. split; [reflexivity|]. by repeat split.
Qed.

(** The stages up to and including Analyze. *)
Lemma pipeline_after_analysis file recipient w content text metadata w1 verdict :
  file_read file = Return content ->
  process_uploaded_file (loader env) (save_time clk) (extraction_time clk)
    content (filename_or_default file) true w
  = (Return (text, metadata), w1) ->
  (50 <= length text)%nat ->
  analyze_document_async env text = Return verdict ->
  analyze_uploaded_document env clk file recipient w
  = (let* visualizations := step_visualize env verdict in
     let* email_status :=
       step_email env recipient verdict visualizations metadata in
     step_respond clk verdict metadata visualizations email_status)
      (log_call (CallAnalyze text) w1).
Proof.
  intros Hread Hproc Hlen Hverdict. unfold analyze_uploaded_document.
  rewrite (bind_Return _ _ _ _ _ (step_read_ok file content w Hread)).
  rewrite (bind_Return _ _ _ _ _ (step_extract_ok file content w _ w1 Hproc)).
  rewrite (bind_Return _ _ _ _ _ (length_gate_enough text w1 Hlen)).
  by rewrite (bind_Return _ _ _ _ _ (step_analyze_ok text verdict w1 Hverdict)).
Qed.

(** C4. When validation and extraction succeed but the normalized text is
    shorter than 50 characters, the route stops with a 400 error that names
    the insufficient length; it ends in the world the extractor left, and
    the analyzer has not been called.  The gate is the route's: the
    extractor itself has returned the short text. *)
Theorem short_text_is_rejected file recipient w content text metadata w1 :
  file_read file = Return content ->
  process_uploaded_file (loader env) (save_time clk) (extraction_time clk)
    content (filename_or_default file) true w
  = (Return (text, metadata), w1) ->
  (length text < 50)%nat ->
  analyze_uploaded_document env clk file recipient w
  = (Raise (HTTPException HTTP_400_BAD_REQUEST
              (msg_insufficient (length text))), w1)
  /\ (forall t, CallAnalyze t ∈ calls w1 -> CallAnalyze t ∈ calls w).
Proof.
  intros Hread Hproc Hlen. split.
  - unfold analyze_uploaded_document.
    rewrite (bind_Return _ _ _ _ _ (step_read_ok file content w Hread)).
    rewrite (bind_Return _ _ _ _ _ (step_extract_ok file content w _ w1 Hproc)).
    by rewrite (bind_Raise _ _ _ _ _ (length_gate_short text w1 Hlen)).
  - pose proof (loader_calls_only_process_uploaded_file (loader env)
                  (save_time clk) (extraction_time clk) content
                  (filename_or_default file) true w) as (new & Hcalls & Hnew).
    rewrite Hproc in Hcalls. cbn [snd] in Hcalls.
    intros t. rewrite Hcalls, elem_of_app. intros [H|H]; [done|].
    rewrite Forall_forall in Hnew. by apply Hnew in H.
Qed.

(** C1. After a successful Analyze stage (with a verdict whose flags are in
    range), a Visualize stage that raises does not fail the request: the
    route returns a response that carries the verdict and whose
    [visualizations] field is [None]. *)
Theorem visualize_failure_is_degraded
    file recipient w content text metadata w1 verdict viz_error :
  file_read file = Return content ->
  process_uploaded_file (loader env) (save_time clk) (extraction_time clk)
    content (filename_or_default file) true w
  = (Return (text, metadata), w1) ->
  (50 <= length text)%nat ->
  analyze_document_async env text = Return verdict ->
  flags_in_range verdict ->
  create_comprehensive_dashboard env (Agent.risk_level verdict)
    (Agent.total_flagged_amount verdict) (Agent.list_of_flags verdict)
  = Raise viz_error ->
  exists resp w',
    analyze_uploaded_document env clk file recipient w = (Return resp, w')
    /\ carries_verdict resp verdict
    /\ Schemas.visualizations (Schemas.analysis resp) = None.
Proof.
  intros Hread Hproc Hlen Hverdict Hflags Hviz.
  rewrite (pipeline_after_analysis file recipient w content text metadata w1
             verdict Hread Hproc Hlen Hverdict).
  destruct (step_visualize_returns verdict (log_call (CallAnalyze text) w1))
    as (viz & Hrun & Hnone).
  rewrite (Hnone _ Hviz) in Hrun. rewrite (bind_Return _ _ _ _ _ Hrun).
  destruct (step_email_returns recipient verdict None metadata
              (log_call CallVisualize (log_call (CallAnalyze text) w1)))
    as (email_status & w2 & Hemail).
  rewrite (bind_Return _ _ _ _ _ Hemail).
  destruct (step_respond_ok verdict metadata None email_status w2 Hflags)
    as (resp & Hresp & Hcarries & Hnoviz & _).
  exists resp, w2. split; [exact Hresp|]. split; [exact Hcarries|exact Hnoviz].
Qed.

(** C5. After a successful Analyze stage (with a verdict whose flags are in
    range) the route returns a response, whatever the Notify stage does.
    With a non-empty recipient address: when the mailer raises, the
    response's [email_sent] has [success] false and [error] holding the text
    of the exception; when the mailer reports [success = False], it has
    [success] false and [error] holding the mailer's own [error] entry
    ([None] when the mailer gave none).  Without a recipient address (absent
    or empty) [email_sent] is [None]. *)
Theorem notify_failure_is_degraded
    file recipient w content text metadata w1 verdict :
  file_read file = Return content ->
  process_uploaded_file (loader env) (save_time clk) (extraction_time clk)
    content (filename_or_default file) true w
  = (Return (text, metadata), w1) ->
  (50 <= length text)%nat ->
  analyze_document_async env text = Return verdict ->
  flags_in_range verdict ->
  exists resp w',
    analyze_uploaded_document env clk file recipient w = (Return resp, w')
    /\ let audit := Schemas.analysis resp in
       let mail r :=
         send_analysis_report_async env r (Agent.risk_level verdict)
           (Agent.summary verdict) (Agent.total_flagged_amount verdict)
           (Agent.list_of_flags verdict) (Agent.recommendations verdict)
           (Schemas.visualizations audit) (meta_original_filename metadata) in
       (forall r cause,
          recipient = Some r -> truthy r = true -> mail r = Raise cause ->
          exists status,
            Schemas.email_sent audit = Some status
            /\ status !! "success"%string = Some (PBool false)
            /\ status !! "error"%string = Some (PStr (exn_str cause))
            /\ status !! "recipient"%string = Some (PStr r))
       /\ (forall r result,
             recipient = Some r -> truthy r = true -> mail r = Return result ->
             result !! "success"%string = Some (PBool false) ->
             exists status,
               Schemas.email_sent audit = Some status
               /\ status !! "success"%string = Some (PBool false)
               /\ status !! "error"%string
                  = Some (dict_get result "error" PNone)
               /\ status !! "recipient"%string = Some (PStr r))
       /\ (recipient = None \/ recipient = Some [] ->
           Schemas.email_sent audit = None).
Proof.
  intros Hread Hproc Hlen Hverdict Hflags.
  rewrite (pipeline_after_analysis file recipient w content text metadata w1
             verdict Hread Hproc Hlen Hverdict).
  destruct (step_visualize_returns verdict (log_call (CallAnalyze text) w1))
    as (viz & Hrun & _).
  rewrite (bind_Return _ _ _ _ _ Hrun).
  set (w2 := log_call CallVisualize (log_call (CallAnalyze text) w1)).
  destruct (step_email_returns recipient verdict viz metadata w2)
    as (email_status & w3 & Hemail).
  rewrite (bind_Return _ _ _ _ _ Hemail).
  destruct (step_respond_ok verdict metadata viz email_status w3 Hflags)
    as (resp & Hresp & _ & Hviz & Hstatus).
  exists resp, w3. split; [exact Hresp|].
  cbv zeta. rewrite Hviz, Hstatus. split; [|split].
  - intros r cause -> Hr Hmail.
    rewrite (step_email_raised r verdict viz metadata w2 cause Hr Hmail) in Hemail.
    injection Hemail as <- _. eexists. split; [reflexivity|].
    by repeat split.
  - intros r result -> Hr Hmail Hkey.
    rewrite (step_email_reported r verdict viz metadata w2 result _ Hr Hmail
               Hkey eq_refl) in Hemail.
    injection Hemail as <- _. eexists. split; [reflexivity|].
    by repeat split.
  - intros Hnone.
    rewrite (step_email_absent recipient verdict viz metadata w2 Hnone) in Hemail.
    by injection Hemail as <- _.
Qed.

End Route.

(** ** Runs of the route on sample requests *)

Section RouteRuns.

Local Open Scope Z_scope.

Lemma sample_verdict_in_range : flags_in_range sample_verdict.
Proof. repeat constructor. Qed.

Lemma short_text_is_rejected_witness :
  let env := sample_pipeline (Return sample_verdict)
               (Return (pystr "charts/dashboard.png")) (Return ∅) in
  let file := sample_upload "note.txt" "hi   there" in
  let metadata :=
    {| meta_original_filename := pystr "note.txt";
       meta_file_type := pystr ".txt";
       meta_file_size_bytes := 10;
       meta_extracted_length := 8;
       meta_extraction_timestamp := pystr "2024-01-01T12:00:00" |} in
  file_read file = Return (bytes_of "hi   there")
  /\ process_uploaded_file (loader env) 100 101 (bytes_of "hi   there")
       (pystr "note.txt") true (world_of [])
     = (Return (pystr "hi there", metadata), world_of [])
  /\ (length (pystr "hi there") < 50)%nat
  /\ analyze_uploaded_document env sample_clock file None (world_of [])
     = (Raise (HTTPException 400
                 (pystr "Insufficient text extracted (8 chars). Minimum 50 characters required.")),
        world_of []).
Proof.
  intros env file metadata.
  assert (Hproc : process_uploaded_file (loader env) (save_time sample_clock)
                    (extraction_time sample_clock) (bytes_of "hi   there")
                    (filename_or_default file) true (world_of [])
                  = (Return (pystr "hi there", metadata), world_of []))
    by (vm_compute; reflexivity).
  assert (Hlen : (length (pystr "hi there") < 50)%nat) by (vm_compute; lia).
  split; [reflexivity|]. split; [exact Hproc|]. split; [exact Hlen|].
  exact (proj1 (short_text_is_rejected env sample_clock file None (world_of [])
                  _ _ _ _ eq_refl Hproc Hlen)).
Defined.

Lemma visualize_failure_is_degraded_witness :
  let env := sample_pipeline (Return sample_verdict)
               (Raise (Exception (pystr "No module named matplotlib")))
               (Return ∅) in
  let file := sample_upload "ledger.txt" sample_ledger in
  file_read file = Return (bytes_of sample_ledger)
  /\ process_uploaded_file (loader env) 100 101 (bytes_of sample_ledger)
       (pystr "ledger.txt") true (world_of [])
     = (Return (pystr sample_ledger, ledger_metadata), world_of [])
  /\ (50 <= length (pystr sample_ledger))%nat
  /\ flags_in_range sample_verdict
  /\ exists resp w',
       analyze_uploaded_document env sample_clock file None (world_of [])
       = (Return resp, w')
       /\ carries_verdict resp sample_verdict
       /\ Schemas.visualizations (Schemas.analysis resp) = None.
Proof.
  intros env file.
  assert (Hproc : process_uploaded_file (loader env) (save_time sample_clock)
                    (extraction_time sample_clock) (bytes_of sample_ledger)
                    (filename_or_default file) true (world_of [])
                  = (Return (pystr sample_ledger, ledger_metadata), world_of []))
    by (vm_compute; reflexivity).
  assert (Hlen : (50 <= length (pystr sample_ledger))%nat) by (vm_compute; lia).
  split; [reflexivity|]. split; [exact Hproc|]. split; [exact Hlen|].
  split; [exact sample_verdict_in_range|].
  exact (visualize_failure_is_degraded env sample_clock file None (world_of [])
           _ _ _ _ sample_verdict _ eq_refl Hproc Hlen eq_refl
           sample_verdict_in_range eq_refl).
Defined.

Lemma notify_failure_is_degraded_witness :
  let report : gmap string pyval :=
    <["error"%string := PStr (pystr "SMTP authentication failed")]>
      ({[ "success"%string := PBool false ]}) in
  let env := sample_pipeline (Return sample_verdict)
               (Return (pystr "charts/dashboard.png")) (Return report) in
  let file := sample_upload "ledger.txt" sample_ledger in
  let recipient := pystr "auditor@example.org" in
  file_read file = Return (bytes_of sample_ledger)
  /\ process_uploaded_file (loader env) 100 101 (bytes_of sample_ledger)
       (pystr "ledger.txt") true (world_of [])
     = (Return (pystr sample_ledger, ledger_metadata), world_of [])
  /\ (50 <= length (pystr sample_ledger))%nat
  /\ flags_in_range sample_verdict
  /\ exists resp w' status,
       analyze_uploaded_document env sample_clock file (Some recipient)
         (world_of [])
       = (Return resp, w')
       /\ Schemas.email_sent (Schemas.analysis resp) = Some status
       /\ status !! "success"%string = Some (PBool false)
       /\ status !! "error"%string
          = Some (PStr (pystr "SMTP authentication failed")).
Proof.
  intros report env file recipient.
  assert (Hproc : process_uploaded_file (loader env) (save_time sample_clock)
                    (extraction_time sample_clock) (bytes_of sample_ledger)
                    (filename_or_default file) true (world_of [])
                  = (Return (pystr sample_ledger, ledger_metadata), world_of []))
    by (vm_compute; reflexivity).
  assert (Hlen : (50 <= length (pystr sample_ledger))%nat) by (vm_compute; lia).
  split; [reflexivity|]. split; [exact Hproc|]. split; [exact Hlen|].
  split; [exact sample_verdict_in_range|].
  destruct (notify_failure_is_degraded env sample_clock file (Some recipient)
              (world_of []) _ _ _ _ sample_verdict eq_refl Hproc Hlen eq_refl
              sample_verdict_in_range)
    as (resp & w' & Hrun & _ & Hreported & _).
  destruct (Hreported recipient report eq_refl eq_refl eq_refl eq_refl)
    as (status & Hsent & Hsuccess & Herror & _).
  exists resp, w', status. repeat split; try assumption.
Defined.

(** A request that goes through every stage. *)
Example analyze_uploaded_document_sample :
  let env := sample_pipeline (Return sample_verdict)
               (Return (pystr "charts/dashboard.png"))
               (Return {[ "success"%string := PBool true ]}) in
  let run := analyze_uploaded_document env sample_clock
               (sample_upload "ledger.txt" sample_ledger)
               (Some (pystr "auditor@example.org")) (world_of []) in
  (exists resp,
     fst run = Return resp
     /\ Schemas.extracted_text_length resp = 61
     /\ Schemas.visualizations (Schemas.analysis resp)
        = Some {[ "dashboard"%string := pystr "charts/dashboard.png" ]}
     /\ (exists status,
          Schemas.email_sent (Schemas.analysis resp) = Some status
          /\ status !! "success"%string = Some (PBool true)
          /\ status !! "error"%string = None))
  /\ calls (snd run)
     = [CallAnalyze (pystr sample_ledger); CallVisualize;
        CallSendEmail (pystr "auditor@example.org")]
  /\ uploads (snd run) = Some ∅.
Proof.
  vm_compute. split; [|split; reflexivity].
  eexists. split; [reflexivity|]. cbn. split; [reflexivity|].
  split; [reflexivity|]. eexists. split; [reflexivity|].
  split; reflexivity.
Qed.

(** A rejected upload never reaches the disk: the route answers 400. *)
Example analyze_uploaded_document_rejects :
  let env := sample_pipeline (Return sample_verdict) (Return []) (Return ∅) in
  analyze_uploaded_document env sample_clock
    (sample_upload "payroll.xlsx" sample_ledger) None (world_of [])
  = (Raise (HTTPException 400 msg_unsupported), world_of []).
Proof. vm_compute. reflexivity. Qed.

End RouteRuns.

(* ===================================================================== *)
(** * Part XIII. Further properties of normalization                      *)
(* ===================================================================== *)

Section NormalizationContent.

Local Open Scope N_scope.

Lemma non_space_app a b : non_space (a ++ b) = non_space a ++ non_space b.
Proof. apply List.filter_app. Qed.

Lemma non_space_rev s : non_space (rev s) = rev (non_space s).
Proof.
  induction s as [|c s IH]; [done|]. simpl.
  rewrite non_space_app, IH. simpl.
  destruct (isspace c); simpl; [by rewrite app_nil_r|done].
Qed.

Lemma non_space_lstrip s : non_space (lstrip s) = non_space s.
Proof.
  induction s as [|c s IH]; [done|]. simpl.
  destruct (isspace c) eqn:E; simpl; [done|]. by rewrite E.
Qed.

Lemma non_space_strip s : non_space (strip s) = non_space s.
Proof.
  unfold strip, rstrip.
  by rewrite non_space_rev, non_space_lstrip, non_space_rev, rev_involutive,
    non_space_lstrip.
Qed.

Lemma non_space_sub_spaces b s : non_space (sub_spaces_from b s) = non_space s.
Proof.
  revert b. induction s as [|c s IH]; intros b; [done|]. simpl.
  destruct (N.eqb_spec c SP) as [->|Hne].
  - destruct b; simpl; apply IH.
  - simpl. by rewrite IH.
Qed.

Lemma non_space_join ls :
  non_space (join [NL] ls) = concat (map non_space ls).
Proof.
  induction ls as [|p ps IH]; [done|].
  destruct ps as [|q ps]; [simpl; by rewrite app_nil_r|].
  change (join [NL] (p :: q :: ps)) with (p ++ NL :: join [NL] (q :: ps)).
  rewrite non_space_app.
  replace (non_space (NL :: join [NL] (q :: ps)))
    with (non_space (join [NL] (q :: ps))) by reflexivity.
  by rewrite IH.
Qed.

Lemma non_space_split s :
  concat (map non_space (split NL s)) = non_space s.
Proof.
  induction s as [|c s IH]; [done|]. simpl.
  destruct (N.eqb_spec c NL) as [->|Hne]; [exact IH|].
  pose proof (split_nonnil NL s) as Hnn.
  destruct (split NL s) as [|f fs]; [done|].
  simpl in *. destruct (isspace c); simpl; by rewrite <- IH.
Qed.

Lemma non_space_lines ls :
  concat (map non_space (List.filter truthy (map strip ls)))
  = concat (map non_space ls).
Proof.
  induction ls as [|l ls IH]; [done|]. simpl.
  destruct (strip l) as [|c r] eqn:E; simpl.
  - rewrite IH, <- (non_space_strip l), E. done.
  - rewrite IH, <- (non_space_strip l), E. done.
Qed.

Lemma non_space_normalize_text text :
  non_space (normalize_text text) = non_space text.
Proof.
  unfold normalize_text. destruct text as [|c text]; [done|].
  cbn [truthy negb]. cbv zeta.
  unfold re_sub_spaces.
  by rewrite non_space_strip, non_space_sub_spaces, non_space_join,
    non_space_lines, non_space_split.
Qed.

(** ** Lengths *)

Lemma length_lstrip s : (length (lstrip s) <= length s)%nat.
Proof.
  induction s as [|c s IH]; [done|]. simpl. destruct (isspace c); simpl; lia.
Qed.

Lemma length_strip s : (length (strip s) <= length s)%nat.
Proof.
  unfold strip, rstrip. rewrite length_rev.
  pose proof (length_lstrip (rev (lstrip s))) as H. rewrite length_rev in H.
  pose proof (length_lstrip s). lia.
Qed.

Lemma length_sub_spaces b s : (length (sub_spaces_from b s) <= length s)%nat.
Proof.
  revert b. induction s as [|c s IH]; intros b; [done|]. simpl.
  pose proof (IH true). pose proof (IH false).
  destruct (c =? SP); [destruct b|]; simpl; lia.
Qed.

Lemma length_join ls :
  (length (join [NL] ls) + 1 <= list_sum (map (fun l => S (length l)) ls) + 1)%nat
  /\ (ls <> [] ->
      length (join [NL] ls) + 1 = list_sum (map (fun l => S (length l)) ls))%nat.
Proof.
  induction ls as [|p ps [IH1 IH2]]; [done|].
  destruct ps as [|q ps].
  - simpl. rewrite ?app_nil_r, ?Nat.add_0_r. split; [lia|intros _; lia].
  - change (join [NL] (p :: q :: ps)) with (p ++ NL :: join [NL] (q :: ps)).
    specialize (IH2 ltac:(done)).
    remember (join [NL] (q :: ps)) as j. remember (q :: ps) as qs.
    rewrite length_app. simpl. split; [|intros _]; lia.
Qed.

Lemma length_split s :
  list_sum (map (fun l => S (length l)) (split NL s)) = S (length s).
Proof.
  induction s as [|c s IH]; [done|]. simpl.
  destruct (c =? NL); [simpl; by rewrite IH|].
  pose proof (split_nonnil NL s).
  destruct (split NL s) as [|f fs]; [done|]. simpl in *. lia.
Qed.

Lemma length_lines ls :
  (list_sum (map (fun l => S (length l)) (List.filter truthy (map strip ls)))
   <= list_sum (map (fun l => S (length l)) ls))%nat.
Proof.
  induction ls as [|l ls IH]; [done|]. simpl.
  pose proof (length_strip l).
  destruct (strip l) as [|c r]; simpl in *; lia.
Qed.

End NormalizationContent.

Section NormalizationClaims.

Local Open Scope N_scope.

Lemma non_space_nil s :
  non_space s = [] <-> Forall (fun c => isspace c = true) s.
Proof.
  induction s as [|c s IH]; [by split|]. simpl.
  destruct (isspace c) eqn:E; simpl.
  - rewrite IH. split; [by constructor|by inversion 1].
  - split; [done|]. inversion 1; congruence.
Qed.

(** X1. [normalize_text] changes whitespace only: the characters that are
    not whitespace come out exactly as they went in, none lost, none added,
    in the same order. *)
Theorem normalize_text_keeps_content text :
  non_space (normalize_text text) = non_space text.
Proof. apply non_space_normalize_text. Qed.

(** X2. The normalized text is empty exactly when the input holds nothing
    but whitespace (the empty input included). *)
Theorem normalize_text_empty_iff text :
  normalize_text text = [] <-> Forall (fun c => isspace c = true) text.
Proof.
  rewrite <- non_space_nil, <- non_space_normalize_text. split.
  - by intros ->.
  - intros Hns. destruct (normalize_text_lines text) as (ls & Hls & E & _).
    pose proof (join_clean_trimmed ls Hls) as [Hhead _]. rewrite <- E in Hhead.
    destruct (normalize_text text) as [|c out]; [done|].
    specialize (Hhead c eq_refl). simpl in Hns. by rewrite Hhead in Hns.
Qed.

(** X3. Normalization never makes a text longer. *)
Theorem normalize_text_length text :
  (length (normalize_text text) <= length text)%nat.
Proof.
  unfold normalize_text. destruct text as [|c text]; [done|].
  cbn [truthy negb]. cbv zeta. set (t := c :: text).
  pose proof (length_strip
    (re_sub_spaces (join [NL] (List.filter truthy (map strip (split NL t)))))).
  pose proof (length_sub_spaces false
    (join [NL] (List.filter truthy (map strip (split NL t))))).
  pose proof (proj2 (length_join (List.filter truthy (map strip (split NL t))))).
  pose proof (length_lines (split NL t)).
  pose proof (length_split t). unfold re_sub_spaces in *.
  destruct (List.filter truthy (map strip (split NL t))) as [|l ls];
    [simpl in *; lia|].
  specialize (H1 ltac:(done)). lia.
Qed.

End NormalizationClaims.

(* ===================================================================== *)
(** * Part XIV. Further properties of validation and of the saved name     *)
(* ===================================================================== *)

Section PathFacts.

Local Open Scope N_scope.

Lemma last_default_cases {A} (l : list A) d :
  List.last l d = d \/ List.last l d ∈ l.
Proof.
  induction l as [|a l IH]; [by left|]. right.
  destruct l as [|b l]; [apply list_elem_of_here|].
  destruct IH as [IH|IH].
  - change (List.last (a :: b :: l) d) with (List.last (b :: l) d).
    apply list_elem_of_further.
    destruct (exists_last (l := b :: l)) as (l0 & x & E); [done|].
    rewrite E. rewrite List.last_last. apply elem_of_app. right.
    apply list_elem_of_here.
  - by apply list_elem_of_further.
Qed.

Lemma path_name_no_slash p : SLASH ∉ path_name p.
Proof.
  unfold path_name.
  destruct (last_default_cases (path_parts p) []) as [->|Hin].
  - apply not_elem_of_nil.
  - unfold path_parts in Hin. apply list_elem_of_filter in Hin as [_ Hin].
    pose proof (split_no_sep SLASH p) as H. rewrite Forall_forall in H.
    by apply H.
Qed.

Lemma path_suffix_no_slash p : SLASH ∉ path_suffix p.
Proof.
  unfold path_suffix. pose proof (path_name_no_slash p) as H.
  destruct (rfind_dot (path_name p)) as [i|]; [|apply not_elem_of_nil].
  destruct (_ && _); [|apply not_elem_of_nil].
  intros Hin. apply H. by eapply subseteq_drop.
Qed.

Lemma path_stem_no_slash p : SLASH ∉ path_stem p.
Proof.
  unfold path_stem. pose proof (path_name_no_slash p) as H.
  destruct (rfind_dot (path_name p)) as [i|]; [|done].
  destruct (_ && _); [|done].
  intros Hin. apply H. by eapply subseteq_take.
Qed.

(** [rfind] finds the last dot. *)
Lemma rfind_dot_None s : rfind_dot s = None <-> DOT ∉ s.
Proof.
  induction s as [|c s IH]; simpl.
  - split; [intros _; apply not_elem_of_nil|done].
  - destruct (rfind_dot s) as [i|].
    + split; [done|]. intros H. exfalso.
      assert (DOT ∉ s) as H' by (intros ?; apply H; by apply list_elem_of_further).
      by apply IH in H'.
    + destruct (N.eqb_spec c DOT) as [->|Hne].
      * split; [done|]. intros H. exfalso. apply H. apply list_elem_of_here.
      * split; [|done]. intros _ [?|Hin]%elem_of_cons; [done|].
        by apply (proj1 IH).
Qed.

Lemma rfind_dot_Some s i :
  rfind_dot s = Some i ->
  s = take i s ++ DOT :: drop (S i) s /\ DOT ∉ drop (S i) s.
Proof.
  revert i. induction s as [|c s IH]; intros i; simpl; [done|].
  destruct (rfind_dot s) as [j|] eqn:Hs.
  - intros [= <-]. destruct (IH j eq_refl) as [E Hno]. simpl.
    split; [by f_equal|done].
  - destruct (N.eqb_spec c DOT) as [->|Hne]; [|done].
    intros [= <-]. simpl. rewrite drop_0. split; [done|].
    by apply rfind_dot_None.
Qed.

Lemma rfind_dot_app pre rest :
  DOT ∉ rest -> rfind_dot (pre ++ DOT :: rest) = Some (length pre).
Proof.
  intros Hno. induction pre as [|c pre IH]; simpl.
  - apply rfind_dot_None in Hno. by rewrite Hno.
  - by rewrite IH.
Qed.

(** A non-empty suffix is a dot followed by at least one character, none of
    them a dot; the stem before it is not empty. *)
Lemma path_suffix_shape p :
  path_suffix p <> [] ->
  exists ext,
    path_suffix p = DOT :: ext /\ ext <> [] /\ (DOT ∉ ext)
    /\ path_stem p <> [] /\ path_name p = path_stem p ++ path_suffix p.
Proof.
  unfold path_suffix, path_stem.
  destruct (rfind_dot (path_name p)) as [i|] eqn:Hi; [|done].
  destruct (Nat.ltb_spec 0 i) as [Hpos|]; [|done].
  destruct (Nat.ltb_spec (S i) (length (path_name p))) as [Hlen|]; [|done].
  cbn [andb]. intros _.
  destruct (rfind_dot_Some _ _ Hi) as [E Hno].
  exists (drop (S i) (path_name p)). split; [|split; [|split; [done|split]]].
  - rewrite E at 1. rewrite drop_app_length'; [done|].
    rewrite length_take. lia.
  - intros H. apply (f_equal length) in H. rewrite length_drop in H.
    simpl in H. lia.
  - intros H. apply (f_equal length) in H. rewrite length_take in H.
    simpl in H. lia.
  - by rewrite take_drop.
Qed.

(** A name without a slash that is neither empty nor a lone dot is its own
    final component. *)
Lemma path_name_simple u :
  SLASH ∉ u -> u <> [] -> u <> [DOT] -> path_name u = u.
Proof.
  intros Hno Hne Hdot. unfold path_name, path_parts.
  rewrite split_fresh by done.
  by rewrite filter_cons_True by done.
Qed.

End PathFacts.

Section LowerFacts.

Local Open Scope N_scope.

Lemma lower_char_idem c : lower_char (lower_char c) = lower_char c.
Proof.
  unfold lower_char.
  destruct (((65 <=? c) && (c <=? 90))
            || ((192 <=? c) && (c <=? 222) && negb (c =? 215))) eqn:E; [|by rewrite E].
  replace (((65 <=? c + 32) && (c + 32 <=? 90))
           || ((192 <=? c + 32) && (c + 32 <=? 222) && negb (c + 32 =? 215)))
    with false; [done|].
  symmetry. apply orb_true_iff in E as [E|E].
  - apply andb_true_iff in E as [E1 E2].
    apply N.leb_le in E1, E2.
    apply orb_false_iff. split; apply andb_false_iff.
    + right. apply N.leb_gt. lia.
    + left. apply andb_false_iff. left. apply N.leb_gt. lia.
  - apply andb_true_iff in E as [E _]. apply andb_true_iff in E as [E1 E2].
    apply N.leb_le in E1, E2.
    apply orb_false_iff. split; apply andb_false_iff.
    + right. apply N.leb_gt. lia.
    + left. apply andb_false_iff. right. apply N.leb_gt. lia.
Qed.

Lemma lower_idem s : lower (lower s) = lower s.
Proof.
  unfold lower. rewrite map_map. apply map_ext. intros c. apply lower_char_idem.
Qed.

(** Lower-casing neither makes nor unmakes a dot or a slash. *)
Lemma lower_char_punct c k :
  k = DOT \/ k = SLASH -> (lower_char c =? k) = (c =? k).
Proof.
  intros Hk. unfold lower_char.
  destruct (((65 <=? c) && (c <=? 90))
            || ((192 <=? c) && (c <=? 222) && negb (c =? 215))) eqn:E; [|done].
  assert (65 <= c) as Hc.
  { apply orb_true_iff in E as [E|E].
    - apply andb_true_iff in E as [E _]. by apply N.leb_le in E.
    - apply andb_true_iff in E as [E _]. apply andb_true_iff in E as [E _].
      apply N.leb_le in E. lia. }
  unfold DOT, SLASH in Hk.
  destruct (N.eqb_spec (c + 32) k), (N.eqb_spec c k); try done; lia.
Qed.

Lemma split_lower s :
  split SLASH (lower s) = map lower (split SLASH s).
Proof.
  induction s as [|c s IH]; [done|]. cbn [lower map split].
  rewrite (lower_char_punct c SLASH) by (by right).
  fold (lower s). rewrite IH.
  destruct (c =? SLASH); [done|]. by destruct (split SLASH s).
Qed.

Lemma rfind_dot_lower s : rfind_dot (lower s) = rfind_dot s.
Proof.
  induction s as [|c s IH]; [done|]. cbn [lower map rfind_dot].
  fold (lower s). rewrite IH.
  by rewrite (lower_char_punct c DOT) by (by left).
Qed.

Lemma lower_eq_nil s : lower s = [] <-> s = [].
Proof. by destruct s. Qed.

Lemma lower_eq_dot s : lower s = [DOT] <-> s = [DOT].
Proof.
  destruct s as [|c [|d s]]; try done. cbn. split.
  - intros [= H]. f_equal.
    pose proof (lower_char_punct c DOT (or_introl eq_refl)) as Hp.
    rewrite H in Hp. cbn in Hp. symmetry in Hp. by apply N.eqb_eq in Hp.
  - by intros [= ->].
Qed.

Lemma path_parts_lower p : path_parts (lower p) = map lower (path_parts p).
Proof.
  unfold path_parts. rewrite split_lower.
  induction (split SLASH p) as [|part parts IH]; [done|]. cbn [map].
  destruct (decide (part <> [] /\ part <> [DOT])) as [Hpart|Hpart].
  - rewrite (filter_cons_True _ part parts Hpart).
    rewrite filter_cons_True by (by rewrite lower_eq_nil, lower_eq_dot).
    cbn [map]. by rewrite IH.
  - rewrite (filter_cons_False _ part parts Hpart).
    rewrite filter_cons_False by (by rewrite lower_eq_nil, lower_eq_dot).
    exact IH.
Qed.

Lemma last_map_default {A B} (f : A -> B) l d :
  List.last (map f l) (f d) = f (List.last l d).
Proof.
  induction l as [|a l IH]; [done|]. destruct l as [|b l]; [done|].
  exact IH.
Qed.

Lemma path_name_lower p : path_name (lower p) = lower (path_name p).
Proof.
  unfold path_name. rewrite path_parts_lower.
  apply (last_map_default lower _ []).
Qed.

Lemma path_suffix_lower p : path_suffix (lower p) = lower (path_suffix p).
Proof.
  unfold path_suffix. rewrite path_name_lower, rfind_dot_lower.
  destruct (rfind_dot (path_name p)) as [i|]; [|done].
  unfold lower at 1. rewrite length_map.
  destruct (_ && _); [|done]. unfold lower. symmetry. apply fmap_drop.
Qed.

End LowerFacts.

Section ValidationClaims.

Local Open Scope Z_scope.

Lemma validate_file_accepts_helper filename file_size :
  (lower (path_suffix filename) ∈ SUPPORTED_EXTENSIONS)
  /\ file_size <= MAX_FILE_SIZE_BYTES /\ file_size <> 0 ->
  validate_file filename file_size = (true, None).
Proof.
  intros (Hin & Hmax & Hne). rewrite (validate_file_supported _ _ Hin).
  replace (file_size >? MAX_FILE_SIZE_BYTES) with false by lia.
  by replace (file_size =? 0) with false by lia.
Qed.

(** X4. [validate_file] accepts a file exactly when its extension, compared
    case-insensitively, is one of [.pdf], [.docx], [.txt], and its size is
    not 0 and at most 10 MiB; a file of exactly 10 MiB is accepted. *)
Theorem validate_file_accepts filename file_size :
  validate_file filename file_size = (true, None)
  <-> (lower (path_suffix filename) ∈ SUPPORTED_EXTENSIONS)
      /\ file_size <= MAX_FILE_SIZE_BYTES /\ file_size <> 0.
Proof.
  destruct (decide (lower (path_suffix filename) ∈ SUPPORTED_EXTENSIONS)) as [Hin|Hout].
  - rewrite (validate_file_supported _ _ Hin).
    destruct (Z.gtb_spec file_size MAX_FILE_SIZE_BYTES).
    + split; [done|]. intros (_ & ? & _). lia.
    + destruct (Z.eqb_spec file_size 0).
      * split; [done|]. by intros (_ & _ & ?).
      * split; [|done]. intros _. by repeat split.
  - rewrite (validate_file_unsupported _ _ Hout). split; [done|]. by intros [? _].
Qed.

(** X5. Validation does not look at the case of the file name: the name in
    lower case gets the same verdict and the same reason. *)
Theorem validate_file_ignores_case filename file_size :
  validate_file (lower filename) file_size = validate_file filename file_size.
Proof.
  unfold validate_file. by rewrite path_suffix_lower, lower_idem.
Qed.

(** X6. A file that is too large is rejected as too large when its type is
    supported, whatever else holds; the size is looked at only after the
    type, so an oversized file of another type is rejected for its type. *)
Theorem validate_file_oversized filename file_size :
  MAX_FILE_SIZE_BYTES < file_size ->
  validate_file filename file_size
  = (false, Some (if bool_decide (lower (path_suffix filename)
                                  ∈ SUPPORTED_EXTENSIONS)
                  then msg_too_large else msg_unsupported)).
Proof.
  intros Hbig. case_bool_decide as Hin.
  - rewrite (validate_file_supported _ _ Hin).
    by replace (file_size >? MAX_FILE_SIZE_BYTES) with true by lia.
  - by rewrite (validate_file_unsupported _ _ Hin).
Qed.

Lemma validate_file_oversized_witness :
  MAX_FILE_SIZE_BYTES < 10485761
  /\ validate_file (pystr "scan.PDF") 10485761 = (false, Some msg_too_large)
  /\ validate_file (pystr "scan.PDF") 10485760 = (true, None).
Proof.
  split; [reflexivity|]. split.
  - exact (validate_file_oversized (pystr "scan.PDF") 10485761 eq_refl).
  - vm_compute. reflexivity.
Defined.

End ValidationClaims.

(* ===================================================================== *)
(** * Part XV. The name and the content of the saved file                 *)
(* ===================================================================== *)

Section SavedName.

Local Open Scope N_scope.

Variable env : LoaderEnv.

Lemma unique_filename_slash_free now filename :
  SLASH ∉ strftime env now -> SLASH ∉ unique_filename env now filename.
Proof.
  intros Hts. unfold unique_filename.
  rewrite !elem_of_app. intros [H|[H|[H|H]]].
  - by apply path_stem_no_slash in H.
  - vm_compute in H. by apply list_elem_of_singleton in H.
  - done.
  - by apply path_suffix_no_slash in H.
Qed.

Lemma unique_filename_is_name now filename :
  SLASH ∉ strftime env now ->
  path_name (unique_filename env now filename) = unique_filename env now filename.
Proof.
  intros Hts. apply path_name_simple.
  - by apply unique_filename_slash_free.
  - unfold unique_filename. by destruct (path_stem filename).
  - unfold unique_filename. intros H. apply (f_equal (fun l => bool_decide (95 ∈ l))) in H.
    rewrite bool_decide_eq_true_2 in H.
    + by vm_compute in H.
    + rewrite !elem_of_app. right. left. apply list_elem_of_here.
Qed.

Lemma unique_filename_suffix now filename :
  SLASH ∉ strftime env now ->
  path_suffix filename <> [] ->
  path_suffix (unique_filename env now filename) = path_suffix filename.
Proof.
  intros Hts Hext.
  destruct (path_suffix_shape filename Hext) as (ext & E & Hne & Hno & _ & _).
  unfold path_suffix at 1. rewrite unique_filename_is_name by done.
  unfold unique_filename. rewrite E.
  set (pre := path_stem filename ++ pystr "_" ++ strftime env now).
  replace (path_stem filename ++ pystr "_" ++ strftime env now ++ DOT :: ext)
    with (pre ++ DOT :: ext) by (unfold pre; by rewrite <- !app_assoc).
  rewrite rfind_dot_app by done.
  assert (0 < length pre)%nat as Hpre.
  { unfold pre. rewrite !length_app. cbn. lia. }
  assert (0 < length ext)%nat as Hlen by (destruct ext; [done|cbn; lia]).
  replace (0 <? length pre)%nat with true by (symmetry; by apply Nat.ltb_lt).
  replace (S (length pre) <? length (pre ++ DOT :: ext))%nat with true.
  - cbn [andb]. by rewrite drop_app_length.
  - symmetry. apply Nat.ltb_lt. rewrite length_app. cbn. lia.
Qed.

(** X7. The temporary file is a direct child of the uploads directory:
    whatever directories the uploaded file name mentions, the name it is
    saved under has no path separator (the timestamp having none), and it
    ends with the uploaded name's own extension. *)
Theorem unique_filename_stays_inside now filename :
  SLASH ∉ strftime env now ->
  (SLASH ∉ unique_filename env now filename)
  /\ exists base,
       unique_filename env now filename = base ++ path_suffix filename
       /\ base <> [].
Proof.
  intros Hts. split; [by apply unique_filename_slash_free|].
  exists (path_stem filename ++ pystr "_" ++ strftime env now). split.
  - unfold unique_filename. by rewrite <- !app_assoc.
  - by destruct (path_stem filename).
Qed.

(** X8. The saved file has the type of the upload: when the uploaded name
    has an extension, [Path.suffix] of the temporary path is that same
    extension, so extraction dispatches on the type that was validated. *)
Theorem unique_filename_keeps_suffix now filename :
  SLASH ∉ strftime env now ->
  path_suffix filename <> [] ->
  path_suffix (unique_filename env now filename) = path_suffix filename.
Proof. apply unique_filename_suffix. Qed.

End SavedName.

Lemma unique_filename_stays_inside_witness :
  let env := sample_loader (Return []) (Return []) None in
  (SLASH ∉ strftime env 100)
  /\ unique_filename env 100 (pystr "../../etc/cron.d/job.txt")
     = pystr "job_20240101_120000.txt"
  /\ (SLASH ∉ unique_filename env 100 (pystr "../../etc/cron.d/job.txt")).
Proof.
  intros env.
  assert (Hts : SLASH ∉ strftime env 100).
  { apply (bool_decide_eq_false_1 _). vm_compute. reflexivity. }
  split; [exact Hts|]. split; [vm_compute; reflexivity|].
  exact (proj1 (unique_filename_stays_inside env 100
                  (pystr "../../etc/cron.d/job.txt") Hts)).
Defined.

Lemma unique_filename_keeps_suffix_witness :
  let env := sample_loader (Return []) (Return []) None in
  (SLASH ∉ strftime env 100)
  /\ path_suffix (pystr "Q3.Report.PDF") <> []
  /\ path_suffix (unique_filename env 100 (pystr "Q3.Report.PDF"))
     = path_suffix (pystr "Q3.Report.PDF").
Proof.
  intros env.
  assert (Hts : SLASH ∉ strftime env 100).
  { apply (bool_decide_eq_false_1 _). vm_compute. reflexivity. }
  assert (Hext : path_suffix (pystr "Q3.Report.PDF") <> [])
    by (vm_compute; discriminate).
  split; [exact Hts|]. split; [exact Hext|].
  exact (unique_filename_keeps_suffix env 100 (pystr "Q3.Report.PDF") Hts Hext).
Defined.

(* ===================================================================== *)
(** * Part XVI. Further properties of extraction                          *)
(* ===================================================================== *)

Section ExtractionMore.

Variable env : LoaderEnv.

(** The page loop on pages that all answer: the texts that are not empty,
    in page order, after what was gathered before. *)
Lemma collect_pages_all_return texts acc :
  collect_pages (map Return texts) acc = Return (acc ++ List.filter truthy texts).
Proof.
  revert acc. induction texts as [|t texts IH]; intros acc; cbn.
  - by rewrite app_nil_r.
  - rewrite IH. destruct (truthy t); [by rewrite <- app_assoc|done].
Qed.

Lemma collect_pages_first_raise texts e rest acc :
  collect_pages (map Return texts ++ Raise e :: rest) acc = Raise e.
Proof.
  revert acc. induction texts as [|t texts IH]; intros acc; cbn; [done|].
  apply IH.
Qed.

(** X9. The primary PDF strategy keeps the pages that have text, in page
    order, and joins them with a blank line; and one page whose
    [extract_text()] raises sends the whole document to the fallback loader:
    the pages gathered before it are dropped, the result is the fallback's. *)
Theorem extract_text_from_pdf_pages filepath w content mtime :
  lookup_entry filepath w = Some (RegularFile content mtime) ->
  (forall texts,
     PdfReader env content = Return (map Return texts) ->
     extract_text_from_pdf env filepath w
     = (Return (join [NL; NL] (List.filter truthy texts)),
        log_call (CallPdfReader filepath) w))
  /\ (forall texts e rest documents,
        PdfReader env content = Return (map Return texts ++ Raise e :: rest) ->
        PyPDFLoader env content = Return documents ->
        extract_text_from_pdf env filepath w
        = (Return (join [NL; NL] documents),
           log_call (CallPyPDFLoader filepath)
             (log_call (CallPdfReader filepath) w))).
Proof.
  intros Hfile. split.
  - intros texts Hpages.
    unfold extract_text_from_pdf, bind, try_except, try_except_when,
      lib_call, lift, ret.
    by rewrite Hfile, Hpages, collect_pages_all_return.
  - intros texts e rest documents Hpages Hfallback.
    unfold extract_text_from_pdf, bind, try_except, try_except_when,
      lib_call, lift, ret.
    rewrite Hfile, Hpages, collect_pages_first_raise. cbv beta iota.
    by rewrite lookup_entry_log_call, Hfile, Hfallback.
Qed.

(** X10. DOCX extraction tries python-docx first and the generic loader
    exactly when python-docx raises.  The primary result joins, with a blank
    line, the paragraphs that are not blank; the fallback result joins the
    loader's documents; extraction fails when both raise. *)
Theorem extract_text_from_docx_strategies filepath w content mtime :
  lookup_entry filepath w = Some (RegularFile content mtime) ->
  extract_text_from_docx env filepath w
  = match DocxDocument env content with
    | Return paragraphs =>
        (Return (join [NL; NL]
                   (List.filter (fun text => truthy (strip text)) paragraphs)),
         log_call (CallDocxDocument filepath) w)
    | Raise _ =>
        (match Docx2txtLoader env content with
         | Return documents => Return (join [NL; NL] documents)
         | Raise fallback_error =>
             Raise (Exception (pystr "Failed to extract DOCX text: "
                               ++ exn_str fallback_error))
         end,
         log_call (CallDocx2txtLoader filepath)
           (log_call (CallDocxDocument filepath) w))
    end.
Proof.
  intros Hfile.
  unfold extract_text_from_docx, bind, try_except, try_except_when,
    lib_call, ret, raise.
  rewrite Hfile.
  destruct (DocxDocument env content) as [paragraphs|e]; cbv beta iota; [done|].
  rewrite lookup_entry_log_call, Hfile.
  by destruct (Docx2txtLoader env content).
Qed.

(** X11. A path whose extension is not supported is refused by
    [extract_text] with a [ValueError] naming the extension, before any
    library is called and without touching anything. *)
Theorem extract_text_unsupported filepath w :
  lower (path_suffix filepath) ∉ SUPPORTED_EXTENSIONS ->
  extract_text env filepath w
  = (Raise (ValueError (pystr "Unsupported file type: "
                        ++ lower (path_suffix filepath))), w).
Proof.
  intros Hout. unfold extract_text.
  assert (forall ext, ext ∈ SUPPORTED_EXTENSIONS ->
            bool_decide (lower (path_suffix filepath) = ext) = false) as Hne.
  { intros ext Hext. apply bool_decide_eq_false_2. by intros <-. }
  rewrite !Hne; [done|..]; unfold SUPPORTED_EXTENSIONS;
    rewrite !elem_of_cons; auto.
Qed.

(** Normalization applied twice is normalization applied once. *)
Lemma normalize_text_again text :
  normalize_text (normalize_text text) = normalize_text text.
Proof.
  destruct (normalize_text_lines text) as (ls & Hls & E & Esub).
  destruct (normalize_text text) as [|c out] eqn:Eout; [done|].
  assert (Hne : ls <> []) by (intros ->; done).
  assert (Hnl : Forall (fun l => NL ∉ l) ls)
    by (eapply Forall_impl; [exact Hls|]; by intros ? (_&_&?)).
  unfold normalize_text. cbn [truthy negb]. cbv zeta.
  rewrite E, (split_join ls Hne Hnl).
  rewrite map_strip_clean, filter_truthy_clean by done.
  rewrite <- E, <- Esub, E. apply strip_id. by apply join_clean_trimmed.
Qed.

Lemma extract_text_returns filepath w text w' :
  extract_text env filepath w = (Return text, w') ->
  exists raw, text = normalize_text raw.
Proof.
  unfold extract_text, bind, ret.
  match goal with
  | |- context [(let (_, _) := ?c w in _)] => destruct (c w) as [[raw|e] w1]
  end; [|done].
  intros [= <- _]. by exists raw.
Qed.

Lemma extract_text_is_normalized_helper filepath w text w' :
  extract_text env filepath w = (Return text, w') ->
  normalize_text text = text.
Proof.
  intros Hrun. destruct (extract_text_returns _ _ _ _ Hrun) as [raw ->].
  apply normalize_text_again.
Qed.

(** X12. Whatever the format and the strategy that produced it, a text
    returned by [extract_text] is normalized: normalizing it again changes
    nothing; and extraction has left the uploads directory as it was. *)
Theorem extract_text_is_normalized filepath w text w' :
  extract_text env filepath w = (Return text, w') ->
  normalize_text text = text /\ uploads w' = uploads w.
Proof.
  intros Hrun. split.
  - destruct (extract_text_returns _ _ _ _ Hrun) as [raw ->].
    apply normalize_text_again.
  - pose proof (reads_only_extract_text env filepath w) as [Hu _].
    by rewrite Hrun in Hu.
Qed.

End ExtractionMore.

Lemma extract_text_from_pdf_pages_witness :
  let env := sample_loader
               (Return [Return (pystr "page one"); Return []; Return (pystr "page three")])
               (Return [pystr "fallback"]) None in
  let path := pystr "scan.pdf" in
  let w := world_of [(path, RegularFile (bytes_of "%PDF") 100%Z)] in
  lookup_entry path w = Some (RegularFile (bytes_of "%PDF") 100%Z)
  /\ extract_text_from_pdf env path w
     = (Return (pystr "page one" ++ [NL; NL] ++ pystr "page three"),
        log_call (CallPdfReader path) w).
Proof.
  intros env path w.
  assert (H : lookup_entry path w = Some (RegularFile (bytes_of "%PDF") 100%Z))
    by (vm_compute; reflexivity).
  split; [exact H|].
  exact (proj1 (extract_text_from_pdf_pages env path w _ _ H)
           [pystr "page one"; []; pystr "page three"] eq_refl).
Defined.

Lemma extract_text_from_docx_strategies_witness :
  let env := sample_loader (Return []) (Return []) None in
  let path := pystr "memo.docx" in
  let w := world_of [(path, RegularFile (bytes_of "PK") 100%Z)] in
  lookup_entry path w = Some (RegularFile (bytes_of "PK") 100%Z)
  /\ extract_text_from_docx env path w
     = (Raise (Exception (pystr "Failed to extract DOCX text: not a zip file")),
        log_call (CallDocx2txtLoader path) (log_call (CallDocxDocument path) w)).
Proof.
  intros env path w.
  assert (H : lookup_entry path w = Some (RegularFile (bytes_of "PK") 100%Z))
    by (vm_compute; reflexivity).
  split; [exact H|].
  exact (extract_text_from_docx_strategies env path w _ _ H).
Defined.

Lemma extract_text_unsupported_witness :
  let env := sample_loader (Return []) (Return []) None in
  let path := pystr "ledger.xlsx" in
  let w := world_of [(path, RegularFile (bytes_of "PK") 100%Z)] in
  (lower (path_suffix path) ∉ SUPPORTED_EXTENSIONS)
  /\ extract_text env path w
     = (Raise (ValueError (pystr "Unsupported file type: .xlsx")), w).
Proof.
  intros env path w.
  assert (H : lower (path_suffix path) ∉ SUPPORTED_EXTENSIONS).
  { apply (bool_decide_eq_false_1 _). vm_compute. reflexivity. }
  split; [exact H|]. exact (extract_text_unsupported env path w H).
Defined.

Lemma extract_text_is_normalized_witness :
  let env := sample_loader (Return []) (Return []) None in
  let path := pystr "notes.txt" in
  let w := world_of [(path, RegularFile (bytes_of "  a   b  ") 100%Z)] in
  extract_text env path w = (Return (pystr "a b"), w)
  /\ normalize_text (pystr "a b") = pystr "a b"
  /\ uploads w = uploads w.
Proof.
  intros env path w.
  assert (H : extract_text env path w = (Return (pystr "a b"), w))
    by (vm_compute; reflexivity).
  split; [exact H|]. exact (extract_text_is_normalized env path w _ _ H).
Defined.

(* ===================================================================== *)
(** * Part XVII. Further properties of the upload workflow                *)
(* ===================================================================== *)

Section Workflow.

Local Open Scope Z_scope.

Variable env : LoaderEnv.

Lemma validate_file_verdicts filename file_size :
  validate_file filename file_size = (true, None)
  \/ exists msg,
       validate_file filename file_size = (false, Some msg)
       /\ (msg = msg_unsupported \/ msg = msg_too_large \/ msg = msg_empty).
Proof.
  unfold validate_file.
  destruct (negb _); [right; eauto|].
  destruct (file_size >? MAX_FILE_SIZE_BYTES); [right; eauto|].
  destruct (file_size =? 0); [right; eauto 6|by left].
Qed.

Lemma process_uploaded_file_invalid
    save_time extraction_time content filename cleanup_after w :
  fst (validate_file filename (len content)) = false ->
  exists msg,
    process_uploaded_file env save_time extraction_time content filename
      cleanup_after w
    = (Raise (ValueError msg), w)
    /\ snd (validate_file filename (len content)) = Some msg
    /\ (msg = msg_unsupported \/ msg = msg_too_large \/ msg = msg_empty).
Proof.
  intros Hbad. unfold process_uploaded_file.
  destruct (validate_file_verdicts filename (len content))
    as [Hok|(msg & Hmsg & Hcases)].
  - by rewrite Hok in Hbad.
  - rewrite Hmsg. exists msg. by repeat split.
Qed.

(** X13. An upload that fails validation is refused with a [ValueError]
    carrying the validator's reason (unsupported type, too large, or empty)
    before anything happens: no file is written and no library is called,
    with or without [cleanup_after]. *)
Theorem process_uploaded_file_rejects
    save_time extraction_time content filename cleanup_after w :
  fst (validate_file filename (len content)) = false ->
  exists msg,
    process_uploaded_file env save_time extraction_time content filename
      cleanup_after w
    = (Raise (ValueError msg), w)
    /\ snd (validate_file filename (len content)) = Some msg
    /\ (msg = msg_unsupported \/ msg = msg_too_large \/ msg = msg_empty).
Proof. apply process_uploaded_file_invalid. Qed.

(** After a completed save, the rest of [process_uploaded_file] is the
    extraction followed by the [finally] block. *)
Lemma process_uploaded_file_after_save
    save_time extraction_time content filename cleanup_after w filepath w1 :
  fst (validate_file filename (len content)) = true ->
  save_upload env save_time content filename w = (Return filepath, w1) ->
  process_uploaded_file env save_time extraction_time content filename
    cleanup_after w
  = try_finally
      (let* extracted_text := extract_text env filepath in
       let metadata :=
         {| meta_original_filename := filename;
            meta_file_type := lower (path_suffix filepath);
            meta_file_size_bytes := len content;
            meta_extracted_length := len extracted_text;
            meta_extraction_timestamp := isoformat env extraction_time |} in
       ret (extracted_text, metadata))
      (if cleanup_after then cleanup_file env filepath else ret tt)
      w1.
Proof.
  intros Hval Hsave. unfold process_uploaded_file.
  destruct (validate_file filename (len content)) as [[|] error]; [|done].
  cbn [negb]. by rewrite Hsave.
Qed.

(** X14. With [cleanup_after = false] the saved file stays: once the save
    has completed, whatever extraction does, the call ends with the
    directory exactly as the save left it, the temporary file holding the
    uploaded bytes and the save's clock reading. *)
Theorem process_uploaded_file_keeps_file
    save_time extraction_time content filename w w1 r w' :
  fst (validate_file filename (len content)) = true ->
  save_upload env save_time content filename w
  = (Return (unique_filename env save_time filename), w1) ->
  process_uploaded_file env save_time extraction_time content filename false w
  = (r, w') ->
  uploads w' = uploads w1
  /\ lookup_entry (unique_filename env save_time filename) w'
     = Some (RegularFile content save_time).
Proof.
  intros Hval Hsave Hrun.
  rewrite (process_uploaded_file_after_save _ _ _ _ _ _ _ _ Hval Hsave) in Hrun.
  unfold try_finally in Hrun.
  match type of Hrun with
  | (let (_, _) := ?body ?w1 in _) = _ =>
      pose proof (reads_only_extraction_body env extraction_time content
                    filename (unique_filename env save_time filename) w1)
        as [Hu _];
      destruct (body w1) as [r2 w2]
  end.
  cbn in Hrun. injection Hrun as <- <-. cbn [snd] in Hu.
  split; [exact Hu|].
  unfold lookup_entry. rewrite Hu.
  apply save_upload_cases in Hsave
    as [(e & [=] & _)|[(e & d & n & [=] & _)|(_ & d & Hd & ->)]].
  cbn. apply lookup_insert_eq.
Qed.

Lemma process_uploaded_file_returns
    save_time extraction_time content filename cleanup_after w text metadata w' :
  process_uploaded_file env save_time extraction_time content filename
    cleanup_after w
  = (Return (text, metadata), w') ->
  validate_file filename (len content) = (true, None)
  /\ normalize_text text = text
  /\ meta_original_filename metadata = filename
  /\ meta_file_size_bytes metadata = len content
  /\ meta_extracted_length metadata = len text.
Proof.
  intros Hrun.
  destruct (validate_file_verdicts filename (len content))
    as [Hok|(msg & Hmsg & _)].
  2: { unfold process_uploaded_file in Hrun. by rewrite Hmsg in Hrun. }
  split; [exact Hok|].
  destruct (save_upload env save_time content filename w)
    as [[filepath|e] w1] eqn:Hsave.
  2: { unfold process_uploaded_file in Hrun.
       rewrite Hok in Hrun. cbn [negb] in Hrun. by rewrite Hsave in Hrun. }
  rewrite (process_uploaded_file_after_save _ _ _ _ _ _ _ _
             ltac:(by rewrite Hok) Hsave) in Hrun.
  unfold try_finally, bind, ret in Hrun.
  destruct (extract_text env filepath w1) as [[extracted|e] w2] eqn:Hext.
  2: { by destruct (_ w2) as [[?|?] ?]. }
  destruct (_ w2) as [[?|?] ?]; [|done].
  injection Hrun as <- <- _.
  split; [|done].
  by apply (extract_text_is_normalized_helper env filepath w1 extracted w2).
Qed.

(** X15. What a successful [process_uploaded_file] hands back: the upload
    had passed validation, the text is normalized, and the metadata names
    the original file, the number of bytes uploaded and the length of the
    text returned. *)
Theorem process_uploaded_file_result
    save_time extraction_time content filename cleanup_after w text metadata w' :
  process_uploaded_file env save_time extraction_time content filename
    cleanup_after w
  = (Return (text, metadata), w') ->
  validate_file filename (len content) = (true, None)
  /\ normalize_text text = text
  /\ meta_original_filename metadata = filename
  /\ meta_file_size_bytes metadata = len content
  /\ meta_extracted_length metadata = len text.
Proof. apply process_uploaded_file_returns. Qed.

End Workflow.

Section TextUpload.

Local Open Scope Z_scope.

Variable env : LoaderEnv.



(** X17. The whole workflow on a text file, with an uploads directory in
    which the temporary name is free and an OS that refuses nothing: a
    non-empty [.txt] upload of at most 10 MiB yields the normalized decoding
    of its bytes (UTF-8 when valid, Latin-1 otherwise, line ends read as
    newlines), with metadata describing it, no library is called, and the
    directory ends exactly as it began. *)
Theorem process_uploaded_file_txt
    save_time extraction_time content filename w d :
  let tmp := unique_filename env save_time filename in
  uploads w = Some d ->
  d !! tmp = None ->
  open_refused env tmp = None ->
  write_fault env tmp = None ->
  unlink_refused env tmp = None ->
  SLASH ∉ strftime env save_time ->
  lower (path_suffix filename) = pystr ".txt" ->
  len content <> 0 ->
  len content <= MAX_FILE_SIZE_BYTES ->
  let text :=
    normalize_text
      (universal_newlines
         match decode utf_8 content with
         | Some decoded => decoded
         | None => latin1_decode content
         end) in
  process_uploaded_file env save_time extraction_time content filename true w
  = (Return (text,
             {| meta_original_filename := filename;
                meta_file_type := pystr ".txt";
                meta_file_size_bytes := len content;
                meta_extracted_length := len text;
                meta_extraction_timestamp := isoformat env extraction_time |}),
     w).
Proof.
  intros tmp Hd Hfree Hopen Hwrite Hunlink Hts Hext Hne Hmax text.
  assert (Hin : lower (path_suffix filename) ∈ SUPPORTED_EXTENSIONS).
  { rewrite Hext. unfold SUPPORTED_EXTENSIONS. rewrite !elem_of_cons. auto. }
  assert (Hval : validate_file filename (len content) = (true, None)).
  { apply validate_file_accepts_helper; by repeat split. }
  assert (Hsave : save_upload env save_time content filename w
                  = (Return tmp,
                     set_uploads (<[tmp := RegularFile content save_time]> d) w)).
  { unfold save_upload. cbv zeta. fold tmp.
    unfold bind, write_bytes, ret. by rewrite Hd, Hfree, Hopen, Hwrite. }
  rewrite (process_uploaded_file_after_save env _ _ _ _ _ _ _ _
             ltac:(by rewrite Hval) Hsave).
  assert (Hsuffix : lower (path_suffix tmp) = pystr ".txt").
  { unfold tmp. rewrite unique_filename_suffix; [done..|].
    intros E. by rewrite E in Hext. }
  set (w1 := set_uploads (<[tmp := RegularFile content save_time]> d) w).
  assert (Hfile : lookup_entry tmp w1 = Some (RegularFile content save_time)).
  { unfold lookup_entry, w1. cbn. apply lookup_insert_eq. }
  assert (Hextract : extract_text env tmp w1 = (Return text, w1)).
  { unfold extract_text. rewrite Hsuffix.
    rewrite (bool_decide_eq_false_2 (pystr ".txt" = pystr ".pdf")) by done.
    rewrite (bool_decide_eq_false_2 (pystr ".txt" = pystr ".docx")) by done.
    rewrite (bool_decide_eq_true_2 (pystr ".txt" = pystr ".txt")) by done.
    unfold bind. rewrite extract_text_from_txt_eq, Hfile. done. }
  unfold try_finally, bind. rewrite Hextract. unfold ret.
  rewrite (cleanup_file_present env tmp w1 _ content save_time eq_refl
             (lookup_insert_eq _ _ _)).
  rewrite Hunlink, Hsuffix. f_equal.
  unfold w1. rewrite set_uploads_twice.
  rewrite delete_insert_id by done. by apply set_uploads_id.
Qed.

End TextUpload.

Section WorkflowRuns.

Local Open Scope Z_scope.

Lemma process_uploaded_file_rejects_witness :
  let env := sample_loader (Return []) (Return []) None in
  let w := world_of [(pystr "keep.txt", RegularFile [] 5)] in
  fst (validate_file (pystr "payroll.xlsx") (len (bytes_of "PK"))) = false
  /\ process_uploaded_file env 100 101 (bytes_of "PK") (pystr "payroll.xlsx")
       true w
     = (Raise (ValueError msg_unsupported), w).
Proof.
  intros env w.
  assert (H : fst (validate_file (pystr "payroll.xlsx") (len (bytes_of "PK")))
              = false) by (vm_compute; reflexivity).
  split; [exact H|].
  destruct (process_uploaded_file_rejects env 100 101 (bytes_of "PK")
              (pystr "payroll.xlsx") true w H) as (msg & Hrun & Hmsg & _).
  rewrite Hrun. vm_compute in Hmsg. injection Hmsg as <-.
  vm_compute. reflexivity.
Defined.

Lemma process_uploaded_file_keeps_file_witness :
  let env := sample_loader (Return []) (Return []) None in
  let content := bytes_of "quarterly figures" in
  let tmp := pystr "q3_20240101_120000.txt" in
  let w1 := world_of [(tmp, RegularFile content 100)] in
  let metadata :=
    {| meta_original_filename := pystr "q3.txt";
       meta_file_type := pystr ".txt";
       meta_file_size_bytes := 17;
       meta_extracted_length := 17;
       meta_extraction_timestamp := pystr "2024-01-01T12:00:00" |} in
  fst (validate_file (pystr "q3.txt") (len content)) = true
  /\ save_upload env 100 content (pystr "q3.txt") (world_of [])
     = (Return (unique_filename env 100 (pystr "q3.txt")), w1)
  /\ process_uploaded_file env 100 101 content (pystr "q3.txt") false
       (world_of [])
     = (Return (pystr "quarterly figures", metadata), w1)
  /\ lookup_entry (unique_filename env 100 (pystr "q3.txt")) w1
     = Some (RegularFile content 100).
Proof.
  intros env content tmp w1 metadata.
  assert (Hval : fst (validate_file (pystr "q3.txt") (len content)) = true)
    by (vm_compute; reflexivity).
  assert (Hsave : save_upload env 100 content (pystr "q3.txt") (world_of [])
                  = (Return (unique_filename env 100 (pystr "q3.txt")), w1))
    by (vm_compute; reflexivity).
  assert (Hrun : process_uploaded_file env 100 101 content (pystr "q3.txt")
                   false (world_of [])
                 = (Return (pystr "quarterly figures", metadata), w1))
    by (vm_compute; reflexivity).
  split; [exact Hval|]. split; [exact Hsave|]. split; [exact Hrun|].
  exact (proj2 (process_uploaded_file_keeps_file env 100 101 content
                  (pystr "q3.txt") (world_of []) w1 _ _ Hval Hsave Hrun)).
Defined.

Lemma process_uploaded_file_result_witness :
  let env := sample_loader (Return [Return (pystr " Total  due ")])
               (Return []) None in
  let content := bytes_of "%PDF-1.7" in
  let metadata :=
    {| meta_original_filename := pystr "bill.pdf";
       meta_file_type := pystr ".pdf";
       meta_file_size_bytes := 8;
       meta_extracted_length := 9;
       meta_extraction_timestamp := pystr "2024-01-01T12:00:00" |} in
  process_uploaded_file env 100 101 content (pystr "bill.pdf") true (world_of [])
  = (Return (pystr "Total due", metadata),
     {| uploads := Some ∅;
        calls := [CallPdfReader (pystr "bill_20240101_120000.pdf")] |})
  /\ validate_file (pystr "bill.pdf") (len content) = (true, None)
  /\ normalize_text (pystr "Total due") = pystr "Total due"
  /\ meta_file_size_bytes metadata = len content
  /\ meta_extracted_length metadata = len (pystr "Total due").
Proof.
  intros env content metadata.
  assert (Hrun : process_uploaded_file env 100 101 content (pystr "bill.pdf")
                   true (world_of [])
      = (Return (pystr "Total due", metadata),
         {| uploads := Some ∅;
            calls := [CallPdfReader (pystr "bill_20240101_120000.pdf")] |}))
    by (vm_compute; reflexivity).
  split; [exact Hrun|].
  destruct (process_uploaded_file_result env 100 101 content (pystr "bill.pdf")
              true (world_of []) _ _ _ Hrun) as (Hval & Hnorm & _ & Hsize & Hlen).
  by repeat split.
Defined.

Lemma process_uploaded_file_txt_witness :
  let env := sample_loader (Return []) (Return []) None in
  let content := [x63; x61; x66; xe9; x20; x20; x31; x0d; x0a; x0d; x0a] in
  let w := world_of [(pystr "keep.txt", RegularFile [] 5)] in
  process_uploaded_file env 100 101 content (pystr "bar/Tab.TXT") true w
  = (Return ([99; 97; 102; 233; 32; 49]%N,
             {| meta_original_filename := pystr "bar/Tab.TXT";
                meta_file_type := pystr ".txt";
                meta_file_size_bytes := 11;
                meta_extracted_length := 6;
                meta_extraction_timestamp := pystr "2024-01-01T12:00:00" |}),
     w).
Proof.
  intros env content w.
  refine (process_uploaded_file_txt env 100 101 content (pystr "bar/Tab.TXT") w
            (list_to_map [(pystr "keep.txt", RegularFile [] 5)])
            eq_refl _ eq_refl eq_refl eq_refl _ _ _ _).
  - vm_compute. reflexivity.
  - apply (bool_decide_eq_false_1 _). vm_compute. reflexivity.
  - vm_compute. reflexivity.
  - vm_compute. discriminate.
  - vm_compute. discriminate.
Defined.

End WorkflowRuns.

(* ===================================================================== *)
(** * Part XVIII. Further properties of the sweep                         *)
(* ===================================================================== *)

Section SweepMore.

Local Open Scope Z_scope.

Variable env : PipelineEnv.


(** X19. A negative [max_age_hours] spares no file of the present: every
    regular file not dated in the future, one saved at this very clock
    reading included, is deleted (its unlink not being refused). *)
Theorem cleanup_old_files_negative_age current_time max_age_hours w d k content st_mtime :
  uploads w = Some d ->
  max_age_hours < 0 ->
  d !! k = Some (RegularFile content st_mtime) ->
  st_mtime <= current_time ->
  unlink_refused (loader env) k = None ->
  lookup_entry k
    (snd (cleanup_old_files (loader env) current_time max_age_hours w)) = None.
Proof.
  intros Hd Hneg Hk Hpast Hun.
  destruct (cleanup_old_files_run (loader env) current_time max_age_hours w d Hd)
    as (d' & Hrun & Hlook).
  rewrite Hrun. unfold lookup_entry. cbn. rewrite Hlook, Hk.
  unfold swept. rewrite Hun.
  by replace (current_time - st_mtime >? max_age_hours * 3600) with true by lia.
Qed.

End SweepMore.

Lemma cleanup_old_files_negative_age_witness :
  let env := sample_pipeline (Return sample_verdict) (Return []) (Return ∅) in
  let d : gmap str entry :=
    list_to_map [(pystr "inflight_20240101_120000.pdf", RegularFile [] 100%Z)] in
  let w := {| uploads := Some d; calls := [] |} in
  lookup_entry (pystr "inflight_20240101_120000.pdf")
    (snd (cleanup_old_files (loader env) 100 (-1) w)) = None.
Proof.
  intros env d w.
  refine (cleanup_old_files_negative_age env 100 (-1) w d
            (pystr "inflight_20240101_120000.pdf") [] 100%Z
            eq_refl eq_refl _ _ eq_refl).
  - vm_compute. reflexivity.
  - vm_compute. discriminate.
Defined.

(* ===================================================================== *)
(** * Part XIX. Further properties of the upload route                    *)
(* ===================================================================== *)

Section RouteMore.

Local Open Scope Z_scope.

Variable env : PipelineEnv.
Variable clk : Clock.

Lemma step_read_fails file w :
  match step_read file w with
  | (Return content, w') => file_read file = Return content /\ w' = w
  | (Raise e, w') =>
      w' = w /\ exists cause,
        file_read file = Raise cause
        /\ e = HTTPException 400 (pystr "Failed to read uploaded file: "
                                  ++ exn_str cause)
  end.
Proof.
  unfold step_read, try_except, try_except_when, lift, raise.
  destruct (file_read file); eauto.
Qed.

Lemma step_extract_fails file content w :
  match step_extract env clk file content w with
  | (Return extracted, w') =>
      process_uploaded_file (loader env) (save_time clk) (extraction_time clk)
        content (filename_or_default file) true w = (Return extracted, w')
  | (Raise e, w') =>
      exists cause,
        process_uploaded_file (loader env) (save_time clk) (extraction_time clk)
          content (filename_or_default file) true w = (Raise cause, w')
        /\ e = if is_ValueError cause
               then HTTPException 400 (exn_str cause)
               else HTTPException 500
                      (pystr "Failed to extract text from document: "
                       ++ exn_str cause)
  end.
Proof.
  unfold step_extract, try_except, try_except_when, raise.
  destruct (process_uploaded_file _ _ _ _ _ _ _) as [[x|cause] w1]; [done|].
  cbv beta iota.
  destruct (is_ValueError cause) eqn:Hclass; exists cause; by rewrite Hclass.
Qed.



(** Where Notify leaves the log. *)
Lemma step_email_world recipient verdict visualizations metadata w :
  snd (step_email env recipient verdict visualizations metadata w)
  = {| uploads := uploads w;
       calls := calls w ++ match recipient with
                           | Some r => if truthy r then [CallSendEmail r] else []
                           | None => []
                           end |}.
Proof.
  unfold step_email.
  destruct recipient as [r|]; [|destruct w; cbn; by rewrite app_nil_r].
  destruct (truthy r); cbn [negb]; [|destruct w; cbn; by rewrite app_nil_r].
  unfold try_except, try_except_when, bind, call_ext, lift, getitem, ret.
  destruct (send_analysis_report_async env _ _ _ _ _ _ _ _) as [result|e];
    [|done].
  destruct (result !! "success"%string) as [success|]; [|done].
  by destruct (pyval_truthy success).
Qed.


(** X21. A request that fails before extraction is answered 400 and leaves
    no trace: a file that cannot be read, and a file that fails validation
    (the detail is then the validator's reason), end in the very world they
    started in, nothing written and nothing called. *)
Theorem analyze_uploaded_document_early_400 file recipient w :
  (forall cause,
     file_read file = Raise cause ->
     analyze_uploaded_document env clk file recipient w
     = (Raise (HTTPException 400 (pystr "Failed to read uploaded file: "
                                  ++ exn_str cause)), w))
  /\ (forall content,
        file_read file = Return content ->
        fst (validate_file (filename_or_default file) (len content)) = false ->
        exists reason,
          snd (validate_file (filename_or_default file) (len content))
          = Some reason
          /\ analyze_uploaded_document env clk file recipient w
             = (Raise (HTTPException 400 reason), w)).
Proof.
  split.
  - intros cause Hread. unfold analyze_uploaded_document.
    apply bind_Raise.
    unfold step_read, try_except, try_except_when, lift, raise.
    by rewrite Hread.
  - intros content Hread Hbad.
    destruct (process_uploaded_file_invalid (loader env) (save_time clk)
                (extraction_time clk) content (filename_or_default file) true w
                Hbad) as (reason & Hrun & Hreason & _).
    exists reason. split; [exact Hreason|].
    unfold analyze_uploaded_document.
    rewrite (bind_Return _ _ _ _ _ (step_read_ok file content w Hread)).
    apply bind_Raise.
    unfold step_extract, try_except, try_except_when, raise.
    by rewrite Hrun.
Qed.

(** X22. When [process_uploaded_file] raises, the route answers by the
    class of the exception: 400 with the exception's own text for a
    [ValueError] (a [UnicodeDecodeError] included), 500 with "Failed to
    extract text from document: ..." for anything else; no later stage is
    run. *)
Theorem analyze_uploaded_document_extraction_failure
    file recipient w content cause w1 :
  file_read file = Return content ->
  process_uploaded_file (loader env) (save_time clk) (extraction_time clk)
    content (filename_or_default file) true w = (Raise cause, w1) ->
  analyze_uploaded_document env clk file recipient w
  = (Raise (if is_ValueError cause
            then HTTPException 400 (exn_str cause)
            else HTTPException 500
                   (pystr "Failed to extract text from document: "
                    ++ exn_str cause)), w1).
Proof.
  intros Hread Hrun. unfold analyze_uploaded_document.
  rewrite (bind_Return _ _ _ _ _ (step_read_ok file content w Hread)).
  apply bind_Raise.
  unfold step_extract, try_except, try_except_when, raise.
  rewrite Hrun. by destruct (is_ValueError cause).
Qed.

(** X23. When the analyzer raises, the route answers 500 with "Fraud
    analysis failed: ..." and stops: the analyzer's call is the last one,
    neither the renderer nor the mailer is called. *)
Theorem analyze_uploaded_document_analysis_failure
    file recipient w content text metadata w1 cause :
  file_read file = Return content ->
  process_uploaded_file (loader env) (save_time clk) (extraction_time clk)
    content (filename_or_default file) true w
  = (Return (text, metadata), w1) ->
  (50 <= length text)%nat ->
  analyze_document_async env text = Raise cause ->
  analyze_uploaded_document env clk file recipient w
  = (Raise (HTTPException 500 (pystr "Fraud analysis failed: "
                               ++ exn_str cause)),
     log_call (CallAnalyze text) w1).
Proof.
  intros Hread Hproc Hlen Hfail. unfold analyze_uploaded_document.
  rewrite (bind_Return _ _ _ _ _ (step_read_ok file content w Hread)).
  rewrite (bind_Return _ _ _ _ _ (step_extract_ok env clk file content w _ w1 Hproc)).
  rewrite (bind_Return _ _ _ _ _ (length_gate_enough text w1 Hlen)).
  apply bind_Raise.
  unfold step_analyze, try_except, try_except_when, call_ext, raise.
  by rewrite Hfail.
Qed.

(** X24. A request that is answered runs each later stage once and in
    order: after extraction the log grows by the analyzer's call, then the
    renderer's, then the mailer's when a non-empty recipient address was
    given, and by nothing else; these stages leave the uploads directory as
    extraction left it. *)
Theorem analyze_uploaded_document_stage_order
    file recipient w content text metadata w1 verdict :
  file_read file = Return content ->
  process_uploaded_file (loader env) (save_time clk) (extraction_time clk)
    content (filename_or_default file) true w
  = (Return (text, metadata), w1) ->
  (50 <= length text)%nat ->
  analyze_document_async env text = Return verdict ->
  flags_in_range verdict ->
  exists resp w',
    analyze_uploaded_document env clk file recipient w = (Return resp, w')
    /\ calls w' = calls w1 ++ stage_calls text recipient
    /\ uploads w' = uploads w1.
Proof.
  intros Hread Hproc Hlen Hverdict Hflags.
  rewrite (pipeline_after_analysis env clk file recipient w content text
             metadata w1 verdict Hread Hproc Hlen Hverdict).
  destruct (step_visualize_returns env verdict (log_call (CallAnalyze text) w1))
    as (viz & Hrun & _).
  rewrite (bind_Return _ _ _ _ _ Hrun).
  set (w2 := log_call CallVisualize (log_call (CallAnalyze text) w1)).
  pose proof (step_email_world recipient verdict viz metadata w2) as Hworld.
  destruct (step_email_returns env recipient verdict viz metadata w2)
    as (email_status & w3 & Hemail).
  rewrite Hemail in Hworld. cbn [snd] in Hworld.
  rewrite (bind_Return _ _ _ _ _ Hemail).
  destruct (step_respond_ok clk verdict metadata viz email_status w3 Hflags)
    as (resp & Hresp & _).
  exists resp, w3. split; [exact Hresp|]. rewrite Hworld. cbn.
  split; [|done]. unfold stage_calls. by rewrite <- !app_assoc.
Qed.

End RouteMore.

Section RouteResponse.

Local Open Scope Z_scope.

Variable env : PipelineEnv.
Variable clk : Clock.

Lemma validate_file_true_inv filename file_size :
  validate_file filename file_size = (true, None) ->
  (lower (path_suffix filename) ∈ SUPPORTED_EXTENSIONS)
  /\ file_size <= MAX_FILE_SIZE_BYTES /\ file_size <> 0.
Proof.
  destruct (decide (lower (path_suffix filename) ∈ SUPPORTED_EXTENSIONS)) as [Hin|Hout].
  - rewrite (validate_file_supported _ _ Hin).
    destruct (Z.gtb_spec file_size MAX_FILE_SIZE_BYTES); [done|].
    destruct (Z.eqb_spec file_size 0); [done|]. intros _. by repeat split.
  - by rewrite (validate_file_unsupported _ _ Hout).
Qed.

Lemma step_email_returned r verdict visualizations metadata w result success :
  truthy r = true ->
  send_analysis_report_async env r (Agent.risk_level verdict)
    (Agent.summary verdict) (Agent.total_flagged_amount verdict)
    (Agent.list_of_flags verdict) (Agent.recommendations verdict)
    visualizations (meta_original_filename metadata) = Return result ->
  result !! "success"%string = Some success ->
  exists status,
    step_email env (Some r) verdict visualizations metadata w
    = (Return (Some status), log_call (CallSendEmail r) w)
    /\ status !! "success"%string = Some success
    /\ status !! "recipient"%string = Some (PStr r)
    /\ status !! "message"%string
       = Some (dict_get result "message" (PStr (pystr "Email sent successfully")))
    /\ status !! "error"%string
       = if pyval_truthy success then None
         else Some (dict_get result "error" PNone).
Proof.
  intros Hr Hsend Hkey. unfold step_email. rewrite Hr. cbn [negb].
  unfold try_except, try_except_when, bind, call_ext, lift, getitem, ret.
  rewrite Hsend, Hkey.
  destruct (pyval_truthy success); eexists; (split; [reflexivity|]);
    by repeat split.
Qed.

(** What Assemble puts in the response. *)
Lemma step_respond_inv verdict metadata visualizations email_status w resp w' :
  step_respond clk verdict metadata visualizations email_status w
  = (Return resp, w') ->
  Schemas.filename resp = meta_original_filename metadata
  /\ Schemas.file_type resp = meta_file_type metadata
  /\ Schemas.file_size_bytes resp = meta_file_size_bytes metadata
  /\ Schemas.extracted_text_length resp = meta_extracted_length metadata
  /\ Schemas.timestamp (Schemas.analysis resp) = response_time clk
  /\ Schemas.document_metadata (Schemas.analysis resp)
     = <["extraction_timestamp"%string :=
           PStr (meta_extraction_timestamp metadata)]>
       (<["file_size_bytes"%string := PInt (meta_file_size_bytes metadata)]>
       (<["file_type"%string := PStr (meta_file_type metadata)]>
       (<["original_filename"%string :=
            PStr (meta_original_filename metadata)]>
        (Agent.document_metadata verdict)))).
Proof.
  unfold step_respond, try_except, try_except_when, bind, lift, ret, raise.
  destruct (build_flags _); [|done]. intros [= <- _]. by repeat split.
Qed.

(** X25. What the response says about the email when the mailer answers
    with a result holding a [success] entry: [email_sent] repeats that
    entry and the recipient; its [message] is the mailer's, or "Email sent
    successfully" when the mailer gave none, even for a reported failure;
    it has an [error] entry exactly when [success] is falsy. *)
Theorem analyze_uploaded_document_email_status
    file r w content text metadata w1 verdict result success :
  file_read file = Return content ->
  process_uploaded_file (loader env) (save_time clk) (extraction_time clk)
    content (filename_or_default file) true w
  = (Return (text, metadata), w1) ->
  (50 <= length text)%nat ->
  analyze_document_async env text = Return verdict ->
  flags_in_range verdict ->
  truthy r = true ->
  (forall visualizations,
     send_analysis_report_async env r (Agent.risk_level verdict)
       (Agent.summary verdict) (Agent.total_flagged_amount verdict)
       (Agent.list_of_flags verdict) (Agent.recommendations verdict)
       visualizations (meta_original_filename metadata) = Return result) ->
  result !! "success"%string = Some success ->
  exists resp w' status,
    analyze_uploaded_document env clk file (Some r) w = (Return resp, w')
    /\ Schemas.email_sent (Schemas.analysis resp) = Some status
    /\ status !! "success"%string = Some success
    /\ status !! "recipient"%string = Some (PStr r)
    /\ status !! "message"%string
       = Some (dict_get result "message" (PStr (pystr "Email sent successfully")))
    /\ status !! "error"%string
       = if pyval_truthy success then None
         else Some (dict_get result "error" PNone).
Proof.
  intros Hread Hproc Hlen Hverdict Hflags Hr Hmail Hkey.
  rewrite (pipeline_after_analysis env clk file (Some r) w content text
             metadata w1 verdict Hread Hproc Hlen Hverdict).
  destruct (step_visualize_returns env verdict (log_call (CallAnalyze text) w1))
    as (viz & Hrun & _).
  rewrite (bind_Return _ _ _ _ _ Hrun).
  destruct (step_email_returned r verdict viz metadata
              (log_call CallVisualize (log_call (CallAnalyze text) w1))
              result success Hr (Hmail viz) Hkey)
    as (status & Hemail & Hfields).
  rewrite (bind_Return _ _ _ _ _ Hemail).
  destruct (step_respond_ok clk verdict metadata viz (Some status)
              (log_call (CallSendEmail r)
                 (log_call CallVisualize (log_call (CallAnalyze text) w1)))
              Hflags)
    as (resp & Hresp & _ & _ & Hsent).
  eexists resp, _, status. split; [exact Hresp|]. split; [exact Hsent|].
  exact Hfields.
Qed.

(** X26. What a response says about the upload.  It names the file as
    uploaded ("unknown.txt" when the request gave no name), the number of
    bytes read and the length of the normalized text.  In
    [document_metadata] the four upload entries overwrite entries of the
    same name coming from the analyzer, and every other entry of the
    analyzer's metadata is passed on unchanged. *)
Theorem analyze_uploaded_document_metadata
    file recipient w content text metadata w1 verdict :
  file_read file = Return content ->
  process_uploaded_file (loader env) (save_time clk) (extraction_time clk)
    content (filename_or_default file) true w
  = (Return (text, metadata), w1) ->
  (50 <= length text)%nat ->
  analyze_document_async env text = Return verdict ->
  flags_in_range verdict ->
  exists resp w',
    analyze_uploaded_document env clk file recipient w = (Return resp, w')
    /\ Schemas.filename resp = filename_or_default file
    /\ Schemas.file_size_bytes resp = len content
    /\ Schemas.extracted_text_length resp = len text
    /\ let md := Schemas.document_metadata (Schemas.analysis resp) in
       md !! "original_filename"%string
       = Some (PStr (filename_or_default file))
       /\ md !! "file_size_bytes"%string = Some (PInt (len content))
       /\ md !! "file_type"%string = Some (PStr (Schemas.file_type resp))
       /\ (forall key : string,
             key <> "original_filename"%string ->
             key <> "file_size_bytes"%string ->
             key <> "file_type"%string ->
             key <> "extraction_timestamp"%string ->
             md !! key = Agent.document_metadata verdict !! key).
Proof.
  intros Hread Hproc Hlen Hverdict Hflags.
  destruct (process_uploaded_file_returns _ _ _ _ _ _ _ _ _ _ Hproc)
    as (_ & _ & Hname & Hsize & Hextracted).
  rewrite (pipeline_after_analysis env clk file recipient w content text
             metadata w1 verdict Hread Hproc Hlen Hverdict).
  destruct (step_visualize_returns env verdict (log_call (CallAnalyze text) w1))
    as (viz & Hrun & _).
  rewrite (bind_Return _ _ _ _ _ Hrun).
  destruct (step_email_returns env recipient verdict viz metadata
              (log_call CallVisualize (log_call (CallAnalyze text) w1)))
    as (email_status & w3 & Hemail).
  rewrite (bind_Return _ _ _ _ _ Hemail).
  destruct (step_respond_ok clk verdict metadata viz email_status w3 Hflags)
    as (resp & Hresp & _).
  destruct (step_respond_inv _ _ _ _ _ _ _ Hresp)
    as (Hf & Ht & Hs & He & _ & Hmd).
  exists resp, w3. split; [exact Hresp|].
  rewrite Hf, Hs, He, Hname, Hsize, Hextracted.
  split; [done|]. split; [done|]. split; [done|].
  cbv zeta. rewrite Hmd, Ht, Hname, Hsize. split; [|split; [|split]].
  - rewrite !lookup_insert_ne by done. apply lookup_insert_eq.
  - rewrite lookup_insert_ne by done. apply lookup_insert_eq.
  - rewrite !lookup_insert_ne by done. apply lookup_insert_eq.
  - intros key H1 H2 H3 H4. by rewrite !lookup_insert_ne by done.
Qed.

(** X27. Every response the route returns is about an upload that passed
    all the gates: its name carries a supported extension, its size is
    between 1 byte and 10 MiB, and the text extracted from it has at least
    50 characters. *)
Theorem analyze_uploaded_document_response file recipient w resp w' :
  analyze_uploaded_document env clk file recipient w = (Return resp, w') ->
  (lower (path_suffix (Schemas.filename resp)) ∈ SUPPORTED_EXTENSIONS)
  /\ 0 < Schemas.file_size_bytes resp <= MAX_FILE_SIZE_BYTES
  /\ 50 <= Schemas.extracted_text_length resp.
Proof.
  unfold analyze_uploaded_document, bind.
  pose proof (step_read_fails file w) as H1.
  destruct (step_read file w) as [[content|e] w0]; [|done].
  pose proof (step_extract_fails env clk file content w0) as H2.
  destruct (step_extract env clk file content w0) as [[[text metadata]|e] w1];
    [|done].
  unfold length_gate, raise, ret.
  destruct (Z.ltb_spec (len text) 50) as [|Hlen]; [done|].
  destruct (step_analyze env text w1) as [[verdict|e] w2]; [|done].
  destruct (step_visualize_returns env verdict w2) as (viz & -> & _).
  destruct (step_email_returns env recipient verdict viz metadata
              (log_call CallVisualize w2)) as (es & w3 & ->).
  intros Hresp. apply step_respond_inv in Hresp as (Hf & _ & Hs & He & _).
  destruct (process_uploaded_file_returns _ _ _ _ _ _ _ _ _ _ H2)
    as (Hval & _ & Hname & Hsize & Hextracted).
  apply validate_file_true_inv in Hval as (Hin & Hmax & Hne).
  rewrite Hf, Hs, He, Hname, Hsize, Hextracted.
  split; [exact Hin|]. split; [|exact Hlen].
  unfold len in *. lia.
Qed.

End RouteResponse.

Section RouteMoreRuns.

Local Open Scope Z_scope.

Lemma analyze_uploaded_document_early_400_witness :
  let env := sample_pipeline (Return sample_verdict) (Return []) (Return ∅) in
  let file := sample_upload "empty.txt" "" in
  file_read file = Return []
  /\ fst (validate_file (filename_or_default file) (len (@nil Byte.byte))) = false
  /\ analyze_uploaded_document env sample_clock file None (world_of [])
     = (Raise (HTTPException 400 msg_empty), world_of []).
Proof.
  intros env file.
  assert (Hbad : fst (validate_file (filename_or_default file)
                        (len (@nil Byte.byte))) = false)
    by (vm_compute; reflexivity).
  split; [reflexivity|]. split; [exact Hbad|].
  destruct (proj2 (analyze_uploaded_document_early_400 env sample_clock file
                     None (world_of [])) [] eq_refl Hbad)
    as (reason & Hreason & Hrun).
  rewrite Hrun. vm_compute in Hreason. injection Hreason as <-.
  vm_compute. reflexivity.
Defined.

Lemma analyze_uploaded_document_extraction_failure_witness :
  let env := sample_pipeline (Return sample_verdict) (Return []) (Return ∅) in
  let file := sample_upload "memo.docx" "not really a Word file" in
  let tmp := pystr "memo_20240101_120000.docx" in
  let w1 := {| uploads := Some ∅;
               calls := [CallDocxDocument tmp; CallDocx2txtLoader tmp] |} in
  let cause := Exception (pystr "Failed to extract DOCX text: not a zip file") in
  process_uploaded_file (loader env) 100 101 (bytes_of "not really a Word file")
    (pystr "memo.docx") true (world_of [])
  = (Raise cause, w1)
  /\ analyze_uploaded_document env sample_clock file None (world_of [])
     = (Raise (HTTPException 500
                 (pystr "Failed to extract text from document: Failed to extract DOCX text: not a zip file")),
        w1).
Proof.
  intros env file tmp w1 cause.
  assert (Hrun : process_uploaded_file (loader env) (save_time sample_clock)
                   (extraction_time sample_clock)
                   (bytes_of "not really a Word file")
                   (filename_or_default file) true (world_of [])
                 = (Raise cause, w1)) by (vm_compute; reflexivity).
  split; [exact Hrun|].
  exact (analyze_uploaded_document_extraction_failure env sample_clock file None
           (world_of []) _ cause w1 eq_refl Hrun).
Defined.

Lemma analyze_uploaded_document_analysis_failure_witness :
  let env := sample_pipeline (Raise (Exception (pystr "rate limit exceeded")))
               (Return (pystr "charts/dashboard.png")) (Return ∅) in
  let file := sample_upload "ledger.txt" sample_ledger in
  process_uploaded_file (loader env) 100 101 (bytes_of sample_ledger)
    (pystr "ledger.txt") true (world_of [])
  = (Return (pystr sample_ledger, ledger_metadata), world_of [])
  /\ analyze_uploaded_document env sample_clock file
       (Some (pystr "auditor@example.org")) (world_of [])
     = (Raise (HTTPException 500
                 (pystr "Fraud analysis failed: rate limit exceeded")),
        log_call (CallAnalyze (pystr sample_ledger)) (world_of [])).
Proof.
  intros env file.
  assert (Hproc : process_uploaded_file (loader env) (save_time sample_clock)
                    (extraction_time sample_clock) (bytes_of sample_ledger)
                    (filename_or_default file) true (world_of [])
                  = (Return (pystr sample_ledger, ledger_metadata), world_of []))
    by (vm_compute; reflexivity).
  assert (Hlen : (50 <= length (pystr sample_ledger))%nat) by (vm_compute; lia).
  split; [exact Hproc|].
  exact (analyze_uploaded_document_analysis_failure env sample_clock file _
           (world_of []) _ _ _ _ _ eq_refl Hproc Hlen eq_refl).
Defined.

Lemma analyze_uploaded_document_stage_order_witness :
  let env := sample_pipeline (Return sample_verdict)
               (Return (pystr "charts/dashboard.png"))
               (Return {[ "success"%string := PBool true ]}) in
  let file := sample_upload "ledger.txt" sample_ledger in
  let recipient := Some (pystr "auditor@example.org") in
  exists resp w',
    analyze_uploaded_document env sample_clock file recipient (world_of [])
    = (Return resp, w')
    /\ calls w' = [CallAnalyze (pystr sample_ledger); CallVisualize;
                   CallSendEmail (pystr "auditor@example.org")]
    /\ uploads w' = Some ∅.
Proof.
  intros env file recipient.
  assert (Hproc : process_uploaded_file (loader env) (save_time sample_clock)
                    (extraction_time sample_clock) (bytes_of sample_ledger)
                    (filename_or_default file) true (world_of [])
                  = (Return (pystr sample_ledger, ledger_metadata), world_of []))
    by (vm_compute; reflexivity).
  assert (Hlen : (50 <= length (pystr sample_ledger))%nat) by (vm_compute; lia).
  exact (analyze_uploaded_document_stage_order env sample_clock file recipient
           (world_of []) _ _ _ _ sample_verdict eq_refl Hproc Hlen eq_refl
           sample_verdict_in_range).
Defined.

Lemma analyze_uploaded_document_email_status_witness :
  let report : gmap string pyval := {[ "success"%string := PBool false ]} in
  let env := sample_pipeline (Return sample_verdict)
               (Return (pystr "charts/dashboard.png")) (Return report) in
  let file := sample_upload "ledger.txt" sample_ledger in
  let r := pystr "auditor@example.org" in
  exists resp w' status,
    analyze_uploaded_document env sample_clock file (Some r) (world_of [])
    = (Return resp, w')
    /\ Schemas.email_sent (Schemas.analysis resp) = Some status
    /\ status !! "success"%string = Some (PBool false)
    /\ status !! "recipient"%string = Some (PStr r)
    /\ status !! "message"%string = Some (PStr (pystr "Email sent successfully"))
    /\ status !! "error"%string = Some PNone.
Proof.
  intros report env file r.
  assert (Hproc : process_uploaded_file (loader env) (save_time sample_clock)
                    (extraction_time sample_clock) (bytes_of sample_ledger)
                    (filename_or_default file) true (world_of [])
                  = (Return (pystr sample_ledger, ledger_metadata), world_of []))
    by (vm_compute; reflexivity).
  assert (Hlen : (50 <= length (pystr sample_ledger))%nat) by (vm_compute; lia).
  exact (analyze_uploaded_document_email_status env sample_clock file r
           (world_of []) _ _ _ _ sample_verdict report (PBool false)
           eq_refl Hproc Hlen eq_refl sample_verdict_in_range eq_refl
           (fun _ => eq_refl) eq_refl).
Defined.

Lemma analyze_uploaded_document_metadata_witness :
  let verdict :=
    {| Agent.risk_level := pystr "Low";
       Agent.summary := pystr "Nothing unusual";
       Agent.list_of_flags := [];
       Agent.recommendations := [];
       Agent.total_flagged_amount := 0;
       Agent.document_metadata :=
         <["original_filename"%string := PStr (pystr "guessed.pdf")]>
           ({[ "model"%string := PStr (pystr "llama") ]}) |} in
  let env := sample_pipeline (Return verdict) (Return []) (Return ∅) in
  let file :=
    {| file_filename := None; file_content_type := None;
       file_read := Return (bytes_of sample_ledger) |} in
  let metadata :=
    {| meta_original_filename := pystr "unknown.txt";
       meta_file_type := pystr ".txt";
       meta_file_size_bytes := len (bytes_of sample_ledger);
       meta_extracted_length := len (pystr sample_ledger);
       meta_extraction_timestamp := pystr "2024-01-01T12:00:00" |} in
  process_uploaded_file (loader env) 100 101 (bytes_of sample_ledger)
    (pystr "unknown.txt") true (world_of [])
  = (Return (pystr sample_ledger, metadata), world_of [])
  /\ exists resp w',
       analyze_uploaded_document env sample_clock file None (world_of [])
       = (Return resp, w')
       /\ Schemas.filename resp = pystr "unknown.txt"
       /\ Schemas.document_metadata (Schemas.analysis resp)
            !! "original_filename"%string
          = Some (PStr (pystr "unknown.txt"))
       /\ Schemas.document_metadata (Schemas.analysis resp) !! "model"%string
          = Some (PStr (pystr "llama")).
Proof.
  intros verdict env file metadata.
  assert (Hproc : process_uploaded_file (loader env) (save_time sample_clock)
                    (extraction_time sample_clock) (bytes_of sample_ledger)
                    (filename_or_default file) true (world_of [])
                  = (Return (pystr sample_ledger, metadata), world_of []))
    by (vm_compute; reflexivity).
  assert (Hlen : (50 <= length (pystr sample_ledger))%nat) by (vm_compute; lia).
  split; [exact Hproc|].
  destruct (analyze_uploaded_document_metadata env sample_clock file None
              (world_of []) _ _ _ _ verdict eq_refl Hproc Hlen eq_refl
              (List.Forall_nil _))
    as (resp & w' & Hrun & Hname & _ & _ & Horig & _ & _ & Hother).
  exists resp, w'. split; [exact Hrun|]. split; [exact Hname|].
  split; [exact Horig|].
  rewrite (Hother "model"%string) by done. reflexivity.
Defined.

Lemma analyze_uploaded_document_response_witness :
  let env := sample_pipeline (Return sample_verdict)
               (Return (pystr "charts/dashboard.png")) (Return ∅) in
  let file := sample_upload "ledger.txt" sample_ledger in
  match analyze_uploaded_document env sample_clock file None (world_of []) with
  | (Return resp, _) =>
      (lower (path_suffix (Schemas.filename resp)) ∈ SUPPORTED_EXTENSIONS)
      /\ 0 < Schemas.file_size_bytes resp <= MAX_FILE_SIZE_BYTES
      /\ 50 <= Schemas.extracted_text_length resp
  | (Raise _, _) => False
  end.
Proof.
  intros env file.
  destruct (analyze_uploaded_document env sample_clock file None (world_of []))
    as [[resp|e] w'] eqn:Hrun.
  - exact (analyze_uploaded_document_response env sample_clock file None
             (world_of []) resp w' Hrun).
  - vm_compute in Hrun. discriminate Hrun.
Defined.

End RouteMoreRuns.

(* ===================================================================== *)
(** * Part XX. The credentials of the settings                            *)
(* ===================================================================== *)

Section Credentials.

Import Config.

Lemma is_groq_enabled_inv self :
  is_groq_enabled self = true ->
  exists key, groq_api_key self = Some key
              /\ strip key <> [] /\ key <> pystr "your_groq_api_key_here".
Proof.
  unfold is_groq_enabled. destruct (groq_api_key self) as [key|]; [|done].
  intros [H1 H2]%andb_true_iff. exists key. split; [done|].
  apply negb_true_iff in H1, H2.
  by apply bool_decide_eq_false in H1, H2.
Qed.

(** X28. What the masked key gives away.  The mask of a configured key
    longer than 8 characters is 11 characters long, the key's first four,
    three dots and the key's last four, so two such keys that agree on those
    eight characters have the same mask; a configured key of 8 characters or
    fewer is masked as "***"; without a configured key the answer is "Not
    configured". *)
Theorem get_groq_key_masked_hides self :
  (is_groq_enabled self = false ->
   get_groq_key_masked self = pystr "Not configured")
  /\ (forall key,
        is_groq_enabled self = true -> groq_api_key self = Some key ->
        (length key <= 8)%nat ->
        get_groq_key_masked self = pystr "***")
  /\ (forall key,
        is_groq_enabled self = true -> groq_api_key self = Some key ->
        (8 < length key)%nat ->
        get_groq_key_masked self
        = take 4 key ++ pystr "..." ++ drop (length key - 4) key
        /\ length (get_groq_key_masked self) = 11%nat
        /\ forall other key',
             is_groq_enabled other = true -> groq_api_key other = Some key' ->
             (8 < length key')%nat ->
             take 4 key' = take 4 key ->
             drop (length key' - 4) key' = drop (length key - 4) key ->
             get_groq_key_masked other = get_groq_key_masked self).
Proof.
  assert (Hlong : forall s key,
            is_groq_enabled s = true -> groq_api_key s = Some key ->
            (8 < length key)%nat ->
            get_groq_key_masked s
            = take 4 key ++ pystr "..." ++ drop (length key - 4) key).
  { intros s key Hon Hkey Hlen. unfold get_groq_key_masked.
    rewrite Hon, Hkey. cbn [negb default from_option id].
    by replace (8 <? length key)%nat with true
      by (symmetry; by apply Nat.ltb_lt). }
  split; [|split].
  - intros Hoff. unfold get_groq_key_masked. by rewrite Hoff.
  - intros key Hon Hkey Hlen. unfold get_groq_key_masked.
    rewrite Hon, Hkey. cbn [negb default from_option id].
    by replace (8 <? length key)%nat with false
      by (symmetry; apply Nat.ltb_ge; lia).
  - intros key Hon Hkey Hlen. split; [by apply Hlong|]. split.
    + rewrite (Hlong _ _ Hon Hkey Hlen).
      rewrite !length_app, length_take, length_drop.
      change (length (pystr "...")) with 3%nat. lia.
    + intros other key' Hon' Hkey' Hlen' Hhead Htail.
      rewrite (Hlong _ _ Hon Hkey Hlen), (Hlong _ _ Hon' Hkey' Hlen').
      by rewrite Hhead, Htail.
Qed.

(** X29. The startup check never reports an error: its [errors] list is
    always empty.  It warns once for each integration that is not
    configured, Groq first, so there is no warning exactly when both are
    configured, and its two flags are the answers of [is_groq_enabled] and
    [is_gmail_enabled]. *)
Theorem validate_startup_config_status self :
  let status := validate_startup_config self in
  errors status = []
  /\ groq_enabled status = is_groq_enabled self
  /\ gmail_enabled status = is_gmail_enabled self
  /\ length (warnings status)
     = ((if is_groq_enabled self then 0 else 1)
        + (if is_gmail_enabled self then 0 else 1))%nat
  /\ (warnings status = []
      <-> is_groq_enabled self = true /\ is_gmail_enabled self = true).
Proof.
  unfold validate_startup_config. cbv zeta.
  cbn [errors groq_enabled gmail_enabled warnings].
  split; [done|]. split; [done|]. split; [done|].
  destruct (is_groq_enabled self), (is_gmail_enabled self); cbn [negb app length].
  - split; [done|]. by split.
  - split; [done|]. split; [done|]. by intros [_ ?].
  - split; [done|]. split; [done|]. by intros [? _].
  - split; [done|]. split; [done|]. by intros [? _].
Qed.

(** X30. The credential helpers hand out configured values only: a key
    returned by [get_groq_api_key], and a user and password returned by
    [get_gmail_credentials], are the stored ones, are not blank and are not
    the placeholders of the sample configuration. *)
Theorem credentials_are_configured settings :
  (forall key,
     get_groq_api_key settings = Some key ->
     groq_api_key settings = Some key
     /\ strip key <> [] /\ key <> pystr "your_groq_api_key_here")
  /\ (forall user password,
        get_gmail_credentials settings = Some (user, password) ->
        gmail_user settings = Some user
        /\ gmail_app_password settings = Some password
        /\ strip user <> [] /\ user <> pystr "your_email@gmail.com"
        /\ strip password <> []
        /\ password <> pystr "your_gmail_app_password_here").
Proof.
  split.
  - intros key. unfold get_groq_api_key.
    destruct (is_groq_enabled settings) eqn:Hon; [|done].
    intros Hkey. destruct (is_groq_enabled_inv _ Hon) as (key' & Hk & H1 & H2).
    rewrite Hk in Hkey. injection Hkey as <-. by repeat split.
  - intros user password. unfold get_gmail_credentials, is_gmail_enabled.
    destruct (gmail_user settings) as [u|]; [|done].
    destruct (gmail_app_password settings) as [p|];
      [|by rewrite andb_false_r].
    destruct (_ && _) eqn:Hon; [|done]. cbn. intros [= <- <-].
    apply andb_true_iff in Hon as [Hu Hp].
    apply andb_true_iff in Hu as [Hu1 Hu2], Hp as [Hp1 Hp2].
    apply negb_true_iff in Hu1, Hu2, Hp1, Hp2.
    apply bool_decide_eq_false in Hu1, Hu2, Hp1, Hp2. by repeat split.
Qed.

Lemma get_groq_key_masked_hides_witness :
  let self := {| groq_api_key := Some (pystr "gsk_3fA9xQ72LmZ0");
                 gmail_user := None; gmail_app_password := None |} in
  is_groq_enabled self = true
  /\ (8 < length (pystr "gsk_3fA9xQ72LmZ0"))%nat
  /\ get_groq_key_masked self = pystr "gsk_...LmZ0".
Proof.
  intros self.
  assert (Hon : is_groq_enabled self = true) by (vm_compute; reflexivity).
  assert (Hlen : (8 < length (pystr "gsk_3fA9xQ72LmZ0"))%nat) by (vm_compute; lia).
  split; [exact Hon|]. split; [exact Hlen|].
  exact (proj1 (proj2 (proj2 (get_groq_key_masked_hides self)) _ Hon eq_refl Hlen)).
Defined.

Lemma credentials_are_configured_witness :
  let settings := {| groq_api_key := Some (pystr "gsk_3fA9xQ72LmZ0");
                     gmail_user := Some (pystr "audit@example.org");
                     gmail_app_password := Some (pystr "abcd efgh ijkl mnop") |} in
  get_groq_api_key settings = Some (pystr "gsk_3fA9xQ72LmZ0")
  /\ groq_api_key settings = Some (pystr "gsk_3fA9xQ72LmZ0")
  /\ strip (pystr "gsk_3fA9xQ72LmZ0") <> [].
Proof.
  intros settings.
  assert (H : get_groq_api_key settings = Some (pystr "gsk_3fA9xQ72LmZ0"))
    by (vm_compute; reflexivity).
  split; [exact H|].
  destruct (proj1 (credentials_are_configured settings) _ H) as (H1 & H2 & _).
  by split.
Defined.

End Credentials.
